(** * Verification of the upload / ingestion / respond / save pipeline

    Shallow embedding of the four Streamlit front-ends of the repository
    ([code-analysis.py], [code-reviewer.py], [pynvme.py], [renode.py]) and
    of their tool functions.

    Conventions.
    - A Python [str] is a Rocq [string]; one [ascii] stands for one
      character.  [bytes] payloads of uploaded files are strings as well.
    - The file system, the vector collections, the session state and the
      log of user-visible messages and external calls are threaded
      explicitly through a small state-and-exception monad [M].
    - Message texts are given without their decorative emoji prefix. *)

From stdpp Require Import base option list strings gmap fin_maps fin_sets.
From Stdlib Require Import Ascii Arith ZArith Lia.
From Stdlib Require String.


(** ** Python strings *)

Module PyStr.

(** [s.startswith(p)] *)
Fixpoint startswith (p s : string) : bool :=
  match p, s with
  | EmptyString, _ => true
  | String a p', String b s' => if Ascii.eqb a b then startswith p' s' else false
  | String _ _, EmptyString => false
  end.

(** [needle in hay] on strings: some suffix of [hay] starts with [needle]. *)
Fixpoint contains (needle hay : string) : bool :=
  startswith needle hay ||
  match hay with
  | EmptyString => false
  | String _ hay' => contains needle hay'
  end.

(** The mathematical reading of [in]: [needle] occurs somewhere in [hay]. *)
Definition Substring (needle hay : string) : Prop :=
  exists pre post, hay = pre +:+ needle +:+ post.

(** [c in s] for a single character. *)
Fixpoint has_char (c : ascii) (s : string) : bool :=
  match s with
  | EmptyString => false
  | String a s' => Ascii.eqb a c || has_char c s'
  end.

(** [not s] on a string: true exactly for the empty string. *)
Definition is_empty (s : string) : bool :=
  match s with EmptyString => true | _ => false end.

(** [sep.join(l)] *)
Fixpoint join (sep : string) (l : list string) : string :=
  match l with
  | [] => EmptyString
  | [x] => x
  | x :: l' => x +:+ sep +:+ join sep l'
  end.

End PyStr.

(** ** Exceptions and the state monad of a page run *)

(** Outcome of a Python call: a value, or a raised [Exception] with its
    message. *)
Inductive result (A : Type) : Type :=
| Ok (a : A)
| Raise (e : string).
Arguments Ok {A} a.
Arguments Raise {A} e.

(** A computation over a state [S]: state changes made before an exception
    is raised persist, as in Python. *)
Definition M (S A : Type) : Type := S -> S * result A.

Definition ret {S A} (a : A) : M S A := fun s => (s, Ok a).

Definition raise {S A} (e : string) : M S A := fun s => (s, Raise e).

Definition bind {S A B} (m : M S A) (k : A -> M S B) : M S B :=
  fun s =>
    match m s with
    | (s', Ok a) => k a s'
    | (s', Raise e) => (s', Raise e)
    end.

(** [try: m except Exception as e: h e] *)
Definition try_except {S A} (m : M S A) (h : string -> M S A) : M S A :=
  fun s =>
    match m s with
    | (s', Ok a) => (s', Ok a)
    | (s', Raise e) => h e s'
    end.

Definition get {S} : M S S := fun s => (s, Ok s).

Definition modify {S} (f : S -> S) : M S unit := fun s => (f s, Ok tt).

Declare Scope py_scope.
Delimit Scope py_scope with py.
Notation "x ← y ; z" := (bind y (fun x => z))
  (at level 20, y at level 100, z at level 200, only parsing) : py_scope.
Notation "x ;; z" := (bind x (fun _ => z))
  (at level 100, z at level 200, only parsing, right associativity) : py_scope.
Local Open Scope py_scope.

(** [for x in l: body x] *)
Fixpoint for_each {S A} (l : list A) (body : A -> M S unit) : M S unit :=
  match l with
  | [] => ret tt
  | x :: l' => body x ;; for_each l' body
  end.

(** [if c: m] *)
Definition when {S} (c : bool) (m : M S unit) : M S unit :=
  if c then m else ret tt.

(** ** The file system seen by the programs *)

Module Fs.

(** How deleting a file fares: a [ReadOnly] file resists until its
    permission is forced writable ([os.chmod(path, stat.S_IWRITE)]); a
    [Locked] file resists even then. *)
Inductive FileMode : Type := Writable | ReadOnly | Locked.

Global Instance FileMode_eq_dec : EqDecision FileMode.
Proof. solve_decision. Defined.

Record File : Type := mkFile { f_mode : FileMode; f_data : string }.

(** A resolved location: the path components, innermost first, counted
    from the working directory; an absolute location ends in the root
    marker ["/"], a location above the working directory ends in [".."]
    components. *)
Abbreviation loc := (list string).

Record t : Type := mk {
  files : gmap (list string) File;
  dirs : gset (list string)
}.

Definition empty : t := mk ∅ ∅.

Definition slash : ascii := "/"%char.

(** [s.split("/")] *)
Fixpoint split_slash (s : string) : list string :=
  match s with
  | EmptyString => [EmptyString]
  | String c s' =>
      if Ascii.eqb c slash then EmptyString :: split_slash s'
      else match split_slash s' with
           | x :: r => String c x :: r
           | [] => [String c EmptyString]
           end
  end.

Definition is_dotdot (c : string) : bool := bool_decide (c = "..").

Fixpoint all_dotdot (l : loc) : bool :=
  match l with
  | [] => true
  | c :: r => is_dotdot c && all_dotdot r
  end.

(** The working directory, its ancestors and the root always exist. *)
Definition is_dir (w : t) (l : loc) : bool :=
  all_dotdot l || bool_decide (l = ["/"]) || bool_decide (l ∈ dirs w).

Definition is_file (w : t) (l : loc) : bool :=
  bool_decide (is_Some (files w !! l)).

(** The location named by [..] from [l]. *)
Definition up (l : loc) : loc :=
  match l with
  | [] => [".."]
  | c :: r =>
      if is_dotdot c then ".." :: l
      else if bool_decide (l = ["/"]) then l
      else r
  end.

(** Component-wise path resolution (no symbolic links): every component
    is looked up in a location that must be an existing directory. *)
Fixpoint walk (w : t) (cur : loc) (comps : list string) : result loc :=
  match comps with
  | [] => Ok cur
  | c :: rest =>
      if negb (is_dir w cur) then
        Raise (if is_file w cur then "NotADirectoryError" else "FileNotFoundError")
      else if bool_decide (c = EmptyString) || bool_decide (c = ".") then
        walk w cur rest
      else if is_dotdot c then walk w (up cur) rest
      else walk w (c :: cur) rest
  end.

Definition start (p : string) : loc :=
  if PyStr.startswith "/" p then ["/"] else [].

Definition nul : ascii := Ascii.zero.

Definition resolve (w : t) (p : string) : result loc :=
  if PyStr.has_char nul p then Raise "ValueError: embedded null byte"
  else if PyStr.is_empty p then Raise "FileNotFoundError"
  else walk w (start p) (split_slash p).

(** [os.path.exists(p)] *)
Definition exists_ (w : t) (p : string) : bool :=
  match resolve w p with
  | Ok l => is_dir w l || is_file w l
  | Raise _ => false
  end.

(** [with open(p, "wb"/"w") as f: f.write(data)]: creates or truncates
    the file. *)
Definition open_write (p data : string) (w : t) : t * result unit :=
  match resolve w p with
  | Raise e => (w, Raise e)
  | Ok l =>
      if is_dir w l then (w, Raise "IsADirectoryError")
      else
        match files w !! l with
        | Some f =>
            if bool_decide (f_mode f = Writable)
            then (mk (<[l := mkFile Writable data]> (files w)) (dirs w), Ok tt)
            else (w, Raise "PermissionError")
        | None => (mk (<[l := mkFile Writable data]> (files w)) (dirs w), Ok tt)
        end
  end.

(** [open(p).read()] *)
Definition read (w : t) (p : string) : option string :=
  match resolve w p with
  | Ok l => f_data <$> files w !! l
  | Raise _ => None
  end.

(** Make sure [l] is a directory, creating it when nothing is there. *)
Definition ensure_dir (l : loc) (w : t) : t * result unit :=
  if is_dir w l then (w, Ok tt)
  else if is_file w l then (w, Raise "FileExistsError")
  else (mk (files w) ({[ l ]} ∪ dirs w), Ok tt).

(** Directory creation with all missing parents, tolerating what exists:
    [os.makedirs(p, exist_ok=True)] and
    [Path(p).mkdir(parents=True, exist_ok=True)]. *)
Fixpoint mkdir_walk (cur : loc) (comps : list string) (w : t) : t * result unit :=
  match ensure_dir cur w with
  | (w', Raise e) => (w', Raise e)
  | (w', Ok _) =>
      match comps with
      | [] => (w', Ok tt)
      | c :: rest =>
          if bool_decide (c = EmptyString) || bool_decide (c = ".") then
            mkdir_walk cur rest w'
          else if is_dotdot c then mkdir_walk (up cur) rest w'
          else mkdir_walk (c :: cur) rest w'
      end
  end.

Definition makedirs (p : string) (w : t) : t * result unit :=
  if PyStr.has_char nul p then (w, Raise "ValueError: embedded null byte")
  else mkdir_walk (start p) (split_slash p) w.

(** [x] lies strictly below the directory [k]. *)
Definition under (k x : loc) : Prop := exists pre, pre <> [] /\ x = pre ++ k.

Global Instance under_dec k x : Decision (under k x).
Proof.
  refine (cast_if (decide (length k < length x /\
                           drop (length x - length k) x = k)));
    unfold under.
  - destruct a as [Hlen Hdrop].
    exists (take (length x - length k) x). split.
    + intros E. apply (f_equal length) in E. rewrite length_take in E.
      simpl in E. lia.
    + pose proof (take_drop (length x - length k) x) as E.
      rewrite Hdrop in E. now symmetry.
  - intros [pre [Hne ->]]. apply n. rewrite length_app. split.
    + destruct pre; [congruence | simpl; lia].
    + replace (length pre + length k - length k) with (length pre) by lia.
      now rewrite drop_app_length.
Defined.

(** What [shutil.rmtree] is told to do with a deletion error. *)
Inductive RmPolicy : Type :=
| IgnoreErrors      (** [ignore_errors=True] *)
| ChmodRetrySwallow (** [onerror=remove_readonly] of code-reviewer.py *).

Definition removable (pol : RmPolicy) (f : File) : bool :=
  match f_mode f, pol with
  | Writable, _ => true
  | ReadOnly, ChmodRetrySwallow => true
  | ReadOnly, IgnoreErrors => false
  | Locked, _ => false
  end.

Definition rm_files (pol : RmPolicy) (k : loc) (fs : gmap (list string) File)
  : gmap (list string) File :=
  filter (fun xf => ~ (under k xf.1 /\ removable pol xf.2 = true)) fs.

(** A directory goes away once no file is left below it. *)
Definition rm_dirs (k : loc) (fs : gmap (list string) File) (ds : gset (list string))
  : gset (list string) :=
  filter (fun d => ~ ((d = k \/ under k d) /\
                     map_Forall (fun x _ => ~ under d x) fs)) ds.

(** [shutil.rmtree(p, ...)] under a policy that never lets a deletion
    error escape: what can be removed is removed, the rest stays. *)
Definition rmtree (pol : RmPolicy) (p : string) (w : t) : t * result unit :=
  match resolve w p with
  | Raise _ => (w, Ok tt)
  | Ok k =>
      let fs := rm_files pol k (files w) in
      (mk fs (rm_dirs k fs (dirs w)), Ok tt)
  end.

(** The entries directly inside the directory at [k]. *)
Definition listdir (w : t) (k : loc) : list string :=
  omap (fun x => match x with
                 | n :: k' => if bool_decide (k' = k) then Some n else None
                 | [] => None
                 end)
       (elements (dom (files w) ∪ dirs w)).

(** [w'] has everything [w] has. *)
Definition extends (w w' : t) : Prop :=
  files w ⊆ files w' /\ dirs w ⊆ dirs w'.

End Fs.

(** ** The vector index *)

(** Modelled from the spec: the index is an external service (ChromaDB
    behind phidata's knowledge-base [load]) whose code is not part of the
    sources; the programs only choose the collection name and the
    [recreate] / [upsert] flags.  Its interface follows the specification:
    [upsert] is insert-or-update without dropping unrelated entries,
    [recreate] drops the collection first, and a load without [upsert]
    inserts only the documents that are not there yet. *)
Module VectorIndex.

Record Doc : Type := mkDoc { doc_id : string; doc_text : string }.

(** A collection keeps its chunks in insertion order; nothing in the type
    prevents two chunks with one id. *)
Abbreviation Collection := (list Doc).

Abbreviation t := (gmap string Collection).

Definition ids (c : Collection) : list string := doc_id <$> c.

Definition doc_exists (d : Doc) (c : Collection) : bool :=
  bool_decide (doc_id d ∈ ids c).

Definition insert_doc (d : Doc) (c : Collection) : Collection := c ++ [d].

Fixpoint upsert_doc (d : Doc) (c : Collection) : Collection :=
  match c with
  | [] => [d]
  | x :: c' =>
      if bool_decide (doc_id x = doc_id d) then d :: c'
      else x :: upsert_doc d c'
  end.

Definition load_doc (upsert : bool) (d : Doc) (c : Collection) : Collection :=
  if upsert then upsert_doc d c
  else if doc_exists d c then c
  else insert_doc d c.

(** [delete_collection(name)] raises when the collection is absent. *)
Definition delete_collection (name : string) (ix : t) : t * result unit :=
  match ix !! name with
  | Some _ => (delete name ix, Ok tt)
  | None => (ix, Raise ("Collection " +:+ name +:+ " does not exist."))
  end.

Definition drop (name : string) (ix : t) : t := delete name ix.

Definition create (name : string) (ix : t) : t :=
  match ix !! name with
  | Some _ => ix
  | None => <[name := []]> ix
  end.

Definition get (name : string) (ix : t) : Collection := default [] (ix !! name).

End VectorIndex.

(** ** State of a session *)

(** A Python dict literal with string values, in key order. *)
Definition Dict : Type := list (string * string).

Fixpoint dict_get (k : string) (d : Dict) : option string :=
  match d with
  | [] => None
  | (k', v) :: d' => if bool_decide (k' = k) then Some v else dict_get k d'
  end.

(** [st.session_state] *)
Record Session : Type := mkSession {
  review_history : list Dict;
  generation_history : list Dict;
  kb_cleared : bool;
  kb_loaded : bool;
  uploader_key : nat
}.

Definition session0 : Session := mkSession [] [] false false 0.

(** Calls that leave the process. *)
Inductive ExtCall : Type :=
| AgentRun (agent query : string)
| KbLoad (kb : string) (recreate upsert : bool)
| DeleteCollection (name : string)
| Rmtree (folder : string).

(** What a page run shows and does, in order. *)
Inductive Event : Type :=
| Info (msg : string)
| Warning (msg : string)
| Success (msg : string)
| Error (msg : string)
| Markdown (msg : string)
| Traceback (msg : string)
| Rerun
| Call (c : ExtCall).

Global Instance ExtCall_eq_dec : EqDecision ExtCall.
Proof. solve_decision. Defined.
Global Instance Event_eq_dec : EqDecision Event.
Proof. solve_decision. Defined.

(** [datetime.now()] *)
Record DateTime : Type := mkDateTime {
  year : Z; month : Z; day : Z;
  hour : Z; minute : Z; second : Z; microsecond : Z
}.

Record State : Type := mkState {
  fs : Fs.t;
  index : VectorIndex.t;
  now : DateTime;
  session : Session;
  log : list Event
}.

Definition set_fs (f : Fs.t) (s : State) : State :=
  mkState f (index s) (now s) (session s) (log s).
Definition set_index (ix : VectorIndex.t) (s : State) : State :=
  mkState (fs s) ix (now s) (session s) (log s).
Definition set_session (ss : Session) (s : State) : State :=
  mkState (fs s) (index s) (now s) ss (log s).
Definition set_log (l : list Event) (s : State) : State :=
  mkState (fs s) (index s) (now s) (session s) l.

(** The remote collaborators: the model endpoint behind [Agent.run] and the
    readers and embedder behind a knowledge base. *)
Record Services : Type := mkServices {
  (** [agent.run(query).content], or the exception it raises; during the
      run the model may have the agent's tools write files *)
  agent_run : string -> string -> Fs.t -> Fs.t * result string;
  (** the chunks a knowledge base reads from one file of its directory *)
  chunks : string -> string -> string -> list VectorIndex.Doc;
  (** whether embedding a chunk fails *)
  embed_fails : VectorIndex.Doc -> bool
}.

Definition emit (e : Event) : M State unit :=
  modify (fun s => set_log (log s ++ [e]) s).

(** Lift a file-system operation. *)
Definition on_fs {A} (op : Fs.t -> Fs.t * result A) : M State A :=
  fun s => let '(f, r) := op (fs s) in (set_fs f s, r).

(** Lift an index operation. *)
Definition on_index {A} (op : VectorIndex.t -> VectorIndex.t * result A)
  : M State A :=
  fun s => let '(ix, r) := op (index s) in (set_index ix s, r).

Definition os_path_exists (p : string) : M State bool :=
  fun s => (s, Ok (Fs.exists_ (fs s) p)).

Definition os_makedirs (p : string) : M State unit := on_fs (Fs.makedirs p).

Definition write_file (p data : string) : M State unit :=
  on_fs (Fs.open_write p data).

(** [s.endswith(x)]: some suffix of [s] is [x]. *)
Fixpoint endswith (x s : string) : bool :=
  bool_decide (s = x) ||
  match s with
  | EmptyString => false
  | String _ s' => endswith x s'
  end.

(** [os.path.join(a, b)] *)
Definition os_path_join (a b : string) : string :=
  if PyStr.startswith "/" b then b
  else if PyStr.is_empty a || endswith "/" a then a +:+ b
  else a +:+ "/" +:+ b.

(** [str(n)] for a natural number. *)
Definition digit (n : nat) : ascii := ascii_of_nat (48 + n mod 10).

Fixpoint str_of_nat_aux (fuel n : nat) (acc : string) : string :=
  match fuel with
  | 0 => acc
  | S fuel' =>
      let acc' := String (digit n) acc in
      if n <? 10 then acc' else str_of_nat_aux fuel' (n / 10) acc'
  end.

Definition str_of_nat (n : nat) : string := str_of_nat_aux (S n) n EmptyString.

(** ** Knowledge bases *)

Record KnowledgeBase : Type := mkKb {
  kb_name : string;
  (** the reader of each source and the directory it reads *)
  kb_sources : list (string * string);
  kb_collection : string
}.

(** The documents a knowledge base finds: for every source, the chunks of
    every file directly inside its directory. *)
Definition kb_documents (sv : Services) (kb : KnowledgeBase) (w : Fs.t)
  : list VectorIndex.Doc :=
  flat_map (fun src : string * string =>
    match Fs.resolve w src.2 with
    | Ok k =>
        flat_map (fun name =>
          match Fs.files w !! (name :: k) with
          | Some f => chunks sv src.1 name (Fs.f_data f)
          | None => []
          end) (Fs.listdir w k)
    | Raise _ => []
    end) (kb_sources kb).

(** Embed and store one chunk. *)
Definition kb_load_doc (sv : Services) (coll : string) (upsert : bool)
    (d : VectorIndex.Doc) : M State unit :=
  if embed_fails sv d then raise "embedding service unreachable"
  else modify (fun s =>
         set_index (<[coll := VectorIndex.load_doc upsert d
                                (VectorIndex.get coll (index s))]> (index s)) s).

(** [kb.load(recreate=.., upsert=..)] *)
Definition kb_load (sv : Services) (kb : KnowledgeBase) (recreate upsert : bool)
  : M State unit :=
  emit (Call (KbLoad (kb_name kb) recreate upsert));;
  when recreate
    (modify (fun s => set_index (VectorIndex.drop (kb_collection kb) (index s)) s));;
  modify (fun s => set_index (VectorIndex.create (kb_collection kb) (index s)) s);;
  s ← get;
  for_each (kb_documents sv kb (fs s)) (kb_load_doc sv (kb_collection kb) upsert).

(** [vector_db.client.delete_collection(name)] *)
Definition delete_collection (name : string) : M State unit :=
  emit (Call (DeleteCollection name));;
  on_index (VectorIndex.delete_collection name).

(** [shutil.rmtree(folder, ...)] *)
Definition shutil_rmtree (pol : Fs.RmPolicy) (folder : string) : M State unit :=
  emit (Call (Rmtree folder));;
  on_fs (Fs.rmtree pol folder).

(** [agent.run(query)] followed by reading [.content] *)
Definition run_agent (sv : Services) (agent query : string) : M State string :=
  emit (Call (AgentRun agent query));;
  on_fs (agent_run sv agent query).

(** An uploaded file of [st.file_uploader]. *)
Record UploadedFile : Type := mkUpload { name : string; getbuffer : string }.

(** [return a] without touching the state *)
Definition pure {A} (a : A) : M State A := ret a.

Definition skip : M State unit := pure tt.

Definition nonempty {A} (l : list A) : bool :=
  match l with [] => false | _ => true end.

(** The loop body shared by the guarded upload loops:
    [if not os.path.exists(file_path): write], telling whether it wrote. *)
Definition store (dir : string) (f : UploadedFile) : M State bool :=
  let file_path := os_path_join dir (name f) in
  present ← os_path_exists file_path;
  if negb present then write_file file_path (getbuffer f);; pure true
  else pure false.

(** The guarded loop over a batch; the flag becomes true as soon as one
    file is written. *)
Fixpoint store_batch (dir : string) (batch : list UploadedFile) (updated : bool)
  : M State bool :=
  match batch with
  | [] => pure updated
  | f :: rest =>
      written ← store dir f;
      store_batch dir rest (updated || written)
  end.

(** [len(list(Path(dir).glob(pat))) if os.path.exists(dir) else 0] *)
Definition glob_count (matches : string -> bool) (dir : string) (w : Fs.t) : nat :=
  if Fs.exists_ w dir then
    match Fs.resolve w dir with
    | Ok k => length (filter (fun n => matches n = true) (Fs.listdir w k))
    | Raise _ => 0
    end
  else 0.

(** The pattern [*.[ch]] *)
Definition glob_ch (n : string) : bool := endswith ".c" n || endswith ".h" n.

(** The loop body shared by the "Clear Knowledge Base" handlers:
    [if os.path.exists(folder): try: rmtree; info  except: warning]. *)
Definition delete_folder (pol : Fs.RmPolicy) (folder : string) : M State unit :=
  present ← os_path_exists folder;
  when present
    (try_except
       (shutil_rmtree pol folder;;
        emit (Info ("Deleted " +:+ folder)))
       (fun e => emit (Warning ("Could not fully delete " +:+ folder +:+ ": " +:+ e)))).

(** ** code-analysis.py *)

Module CodeAnalysis.

Definition code_knowledge : KnowledgeBase :=
  mkKb "code_knowledge" [("text", "uploaded_code")] "code_review_docs".

(** Lines 109-124: create the upload directory, save the uploaded code,
    load the knowledge base. *)
Definition upload_section (sv : Services) (code_files : list UploadedFile)
  : M State unit :=
  os_makedirs "uploaded_code";;
  when (nonempty code_files)
    (for_each code_files (fun code_file =>
       write_file (os_path_join "uploaded_code" (name code_file))
                  (getbuffer code_file));;
     emit (Success ("Uploaded " +:+ str_of_nat (length code_files) +:+ " code file(s)"));;
     try_except
       (kb_load sv code_knowledge false true;;
        emit (Success "Knowledge base updated!"))
       (fun e => emit (Error ("Error loading knowledge base: " +:+ e)))).

Definition append_history (query response : string) : M State unit :=
  modify (fun s =>
    let ss := session s in
    set_session (mkSession (review_history ss ++ [[("query", query); ("response", response)]])
                           (generation_history ss) (kb_cleared ss) (kb_loaded ss)
                           (uploader_key ss)) s).

(** Lines 133-151: the "Analyze Code" button. *)
Definition analyze_button (sv : Services) (analysis_query : string) : M State unit :=
  s ← get;
  let code_count := glob_count glob_ch "uploaded_code" (fs s) in
  if code_count =? 0 then emit (Warning "Please upload code files first!")
  else if PyStr.is_empty analysis_query then
    emit (Warning "Please enter an analysis request")
  else
    try_except
      (response ← run_agent sv "Code Analyzer" analysis_query;
       emit (Markdown response);;
       append_history analysis_query response)
      (fun e => emit (Error ("Error: " +:+ e));; emit (Traceback e)).

End CodeAnalysis.

(** ** code-reviewer.py *)

Module CodeReviewer.

Definition code_knowledge : KnowledgeBase :=
  mkKb "code_knowledge" [("text", "uploaded_code")] "code_review_docs".

Definition docs_knowledge : KnowledgeBase :=
  mkKb "docs_knowledge" [("pdf", "uploaded_docs")] "code_review_docs".

Definition VECTOR_DB_PATH : string := "./chroma_db".

Definition set_cleared (key : nat) (cleared : bool) : M State unit :=
  modify (fun s =>
    let ss := session s in
    set_session (mkSession (review_history ss) (generation_history ss) cleared
                           (kb_loaded ss) key) s).

(** Lines 185-214: the "Clear Knowledge Base" button.  [remove_readonly]
    forces the permission and retries, and swallows what still fails. *)
Definition clear_button : M State unit :=
  try_except
    (try_except
       (delete_collection "code_review_docs";;
        emit (Info "ChromaDB collection deleted"))
       (fun e => emit (Warning ("Could not delete collection: " +:+ e)));;
     for_each ["uploaded_code"; "uploaded_docs"; VECTOR_DB_PATH]
       (delete_folder Fs.ChmodRetrySwallow);;
     s ← get;
     set_cleared (uploader_key (session s) + 1) true;;
     emit (Success "Knowledge base cleared!");;
     emit Rerun)
    (fun e => emit (Error ("Error clearing knowledge base: " +:+ e));;
              emit (Traceback e)).

(** Lines 221-223: create the directories. *)
Definition ensure_dirs : M State unit :=
  os_makedirs "uploaded_code";;
  os_makedirs "uploaded_docs".

(** Lines 229-254: store the uploads that are not on disk yet; the result
    is [files_updated]. *)
Definition store_uploads (code_files doc_files : list UploadedFile) : M State bool :=
  files_updated ←
    (if nonempty code_files then
       files_updated ← store_batch "uploaded_code" code_files false;
       when files_updated
         (emit (Success ("Uploaded " +:+ str_of_nat (length code_files) +:+ " code file(s)")));;
       pure files_updated
     else pure false);
  if nonempty doc_files then
    doc_updated ← store_batch "uploaded_docs" doc_files false;
    if doc_updated then
      emit (Success ("Uploaded " +:+ str_of_nat (length doc_files) +:+ " document(s)"));;
      pure true
    else pure files_updated
  else pure files_updated.

(** Lines 256-267: load into the knowledge base only if files were
    actually updated. *)
Definition load_if_updated (sv : Services) (code_files doc_files : list UploadedFile)
    (files_updated : bool) : M State unit :=
  when files_updated
    (try_except
       (when (nonempty code_files) (kb_load sv code_knowledge false true);;
        when (nonempty doc_files) (kb_load sv docs_knowledge false true);;
        emit (Success "Knowledge base updated!"))
       (fun e => emit (Error ("Error loading knowledge base: " +:+ e)))).

(** Lines 221-267, in page order. *)
Definition upload_section (sv : Services) (code_files doc_files : list UploadedFile)
  : M State unit :=
  ensure_dirs;;
  s ← get;
  when (kb_cleared (session s)) (set_cleared (uploader_key (session s)) false);;
  files_updated ← store_uploads code_files doc_files;
  load_if_updated sv code_files doc_files files_updated.

Definition append_history (type query response : string) : M State unit :=
  modify (fun s =>
    let ss := session s in
    set_session (mkSession (review_history ss ++
                              [[("type", type); ("query", query); ("response", response)]])
                           (generation_history ss) (kb_cleared ss) (kb_loaded ss)
                           (uploader_key ss)) s).

(** The four review buttons (lines 289-310, 324-343, 357-376, 390-409)
    differ only in the agent, the warning text, the record type and the
    messages. *)
Record Tab : Type := mkTab {
  tab_agent : string;
  tab_type : string;
  tab_empty_warning : string;
  tab_done : option string;
  tab_error_prefix : string
}.

Definition comprehensive : Tab :=
  mkTab "Code Review Team Lead" "Comprehensive" "Please enter a review request"
        (Some "Review Complete!") "Error during review: ".
Definition code_analysis : Tab :=
  mkTab "Code Analyzer" "Code Analysis" "Please enter an analysis request"
        None "Error: ".
Definition architecture : Tab :=
  mkTab "Architecture Reviewer" "Architecture"
        "Please enter an architecture review request" None "Error: ".
Definition safety : Tab :=
  mkTab "Safety & Standards Validator" "Safety"
        "Please enter a safety validation request" None "Error: ".

Definition review_button (sv : Services) (tab : Tab) (query : string) : M State unit :=
  if PyStr.is_empty query then emit (Warning (tab_empty_warning tab))
  else
    s ← get;
    let code_count := glob_count glob_ch "uploaded_code" (fs s) in
    if code_count =? 0 then emit (Warning "Please upload code files first!")
    else
      try_except
        (response ← run_agent sv (tab_agent tab) query;
         from_option (fun msg => emit (Success msg)) skip (tab_done tab);;
         emit (Markdown response);;
         append_history (tab_type tab) query response)
        (fun e => emit (Error (tab_error_prefix tab +:+ e));; emit (Traceback e)).

End CodeReviewer.

(** ** Paths and timestamps of the save tools *)

(** [pathlib.PurePosixPath]: a root and the list of components. *)
Module Path.

Record t : Type := mk { root : string; parts : list string }.

Definition is_part (c : string) : bool :=
  negb (bool_decide (c = EmptyString)) && negb (bool_decide (c = ".")).

Definition root_of (s : string) : string :=
  if PyStr.startswith "/" s then
    if PyStr.startswith "//" s && negb (PyStr.startswith "///" s) then "//" else "/"
  else EmptyString.

(** [Path(s)] *)
Definition parse (s : string) : t :=
  mk (root_of s) (filter (fun c => is_part c = true) (Fs.split_slash s)).

(** [str(p)] *)
Definition str (p : t) : string :=
  match root p, parts p with
  | EmptyString, [] => "."
  | r, ps => r +:+ PyStr.join "/" ps
  end.

(** [Path(raw) / key] *)
Definition joinpath (raw key : string) : t := parse (os_path_join raw key).

(** [p.parent] *)
Definition parent (p : t) : t := mk (root p) (removelast (parts p)).

(** [p.name] *)
Definition name (p : t) : string := List.last (parts p) EmptyString.

End Path.

(** The decimal digit of [n] at the units place. *)
Definition zdigit (n : Z) : ascii := ascii_of_N (Z.to_N (48 + n mod 10)).

(** [%02d] and [%04d] of a field in range. *)
Definition pad2 (n : Z) : string :=
  String (zdigit (n / 10)) (String (zdigit n) EmptyString).

Definition pad4 (n : Z) : string :=
  String (zdigit (n / 1000)) (String (zdigit (n / 100)) (pad2 n)).

(** A date and time as [datetime] keeps it. *)
Definition valid_datetime (d : DateTime) : Prop :=
  (1 <= year d <= 9999 /\ 1 <= month d <= 12 /\ 1 <= day d <= 31 /\
   0 <= hour d < 24 /\ 0 <= minute d < 60 /\ 0 <= second d < 60 /\
   0 <= microsecond d < 1000000)%Z.

(** [d.strftime("%Y%m%d_%H%M%S")] *)
Definition strftime_compact (d : DateTime) : string :=
  pad4 (year d) +:+ pad2 (month d) +:+ pad2 (day d) +:+ "_" +:+
  pad2 (hour d) +:+ pad2 (minute d) +:+ pad2 (second d).

(** [d.strftime("%Y-%m-%d %H:%M:%S")] *)
Definition strftime_iso (d : DateTime) : string :=
  pad4 (year d) +:+ "-" +:+ pad2 (month d) +:+ "-" +:+ pad2 (day d) +:+ " " +:+
  pad2 (hour d) +:+ ":" +:+ pad2 (minute d) +:+ ":" +:+ pad2 (second d).

Definition datetime_now : M State DateTime := fun s => (s, Ok (now s)).

Definition nl : string := String (ascii_of_nat 10) EmptyString.

(** ** pynvme.py *)

Module Pynvme.

Definition VECTOR_DB_PATH : string := "./pynvme_chroma_db".

Definition pynvme_knowledge : KnowledgeBase :=
  mkKb "pynvme_knowledge" [("pdf", "pynvme_docs"); ("text", "pynvme_docs")]
       "pynvme_docs".

(** The [validation_results] dict of [validate_test_syntax]. *)
Record ValidationResults : Type := mkValidation {
  is_valid : bool;
  errors : list string;
  warnings : list string;
  suggestions : list string
}.

Definition add_error (msg : string) (r : ValidationResults) : ValidationResults :=
  mkValidation false (errors r ++ [msg]) (warnings r) (suggestions r).

Definition add_warning (msg : string) (r : ValidationResults) : ValidationResults :=
  mkValidation (is_valid r) (errors r) (warnings r ++ [msg]) (suggestions r).

(** Lines 62-99. *)
Definition validate_test_syntax (test_code : string) : ValidationResults :=
  let validation_results := mkValidation true [] [] [] in
  let required_imports := ["pytest"; "pynvme"] in
  let validation_results :=
    foldl (fun r imp =>
             if negb (PyStr.contains imp test_code)
             then add_error ("Missing import: " +:+ imp) r
             else r)
          validation_results required_imports in
  let validation_results :=
    if negb (PyStr.contains "def test_" test_code)
    then add_error "No test function found (should start with 'def test_')"
                   validation_results
    else validation_results in
  let validation_results :=
    if negb (PyStr.contains "nvme" test_code) &&
       negb (PyStr.contains "subsystem" test_code)
    then add_warning "No PyNVMe fixture (nvme/subsystem) detected" validation_results
    else validation_results in
  let validation_results :=
    if negb (PyStr.contains "assert" test_code)
    then add_warning "No assertions found in test" validation_results
    else validation_results in
  validation_results.

(** Lines 183-219. *)
Definition save_test_case (test_name test_code category : string) : M State Dict :=
  try_except
    (let test_dir := "generated_tests/" +:+ category in
     os_makedirs (Path.str (Path.parse test_dir));;
     timestamp ← datetime_now;
     let filename := test_name +:+ "_" +:+ strftime_compact timestamp +:+ ".py" in
     let filepath := Path.joinpath test_dir filename in
     write_file (Path.str filepath) test_code;;
     pure [("status", "success");
           ("filepath", Path.str filepath);
           ("message", "Test saved successfully to " +:+ Path.str filepath)])
    (fun e =>
     pure [("status", "error");
           ("filepath", EmptyString);
           ("message", "Error saving test: " +:+ e)]).

Definition set_loaded (key : nat) (loaded : bool) : M State unit :=
  modify (fun s =>
    let ss := session s in
    set_session (mkSession (review_history ss) (generation_history ss)
                           (kb_cleared ss) loaded key) s).

(** Lines 395-413: store the uploads; the knowledge base is loaded when
    the "Load Documentation" button is pressed. *)
Definition sidebar_upload (sv : Services) (doc_files : list UploadedFile)
    (load_clicked : bool) : M State unit :=
  os_makedirs "pynvme_docs";;
  when (nonempty doc_files)
    (_ ← store_batch "pynvme_docs" doc_files false;
     when load_clicked
       (try_except
          (kb_load sv pynvme_knowledge false true;;
           s ← get;
           set_loaded (uploader_key (session s)) true;;
           emit (Success "Documentation loaded!"))
          (fun e => emit (Error ("Error loading documentation: " +:+ e))))).

(** Lines 415-433: the "Clear Knowledge Base" button. *)
Definition clear_button : M State unit :=
  try_except
    (delete_collection "pynvme_docs";;
     for_each ["pynvme_docs"; VECTOR_DB_PATH; "generated_tests"]
       (delete_folder Fs.IgnoreErrors);;
     s ← get;
     set_loaded (uploader_key (session s) + 1) false;;
     emit (Success "Knowledge base cleared!");;
     emit Rerun)
    (fun e => emit (Error ("Error clearing knowledge base: " +:+ e))).

Definition append_history (type requirement category response : string)
  : M State unit :=
  timestamp ← datetime_now;
  modify (fun s =>
    let ss := session s in
    set_session (mkSession (review_history ss)
                   (generation_history ss ++
                      [[("timestamp", strftime_iso timestamp);
                        ("type", type);
                        ("requirement", requirement);
                        ("category", category);
                        ("response", response)]])
                   (kb_cleared ss) (kb_loaded ss) (uploader_key ss)) s).

Definition indent : string := "                    ".

Definition enhanced_query (test_requirement test_category validation_level : string)
  : string :=
  nl +:+ indent +:+ "Generate and validate a PyNVMe test with these requirements:" +:+
  nl +:+ indent +:+ test_requirement +:+
  nl +:+ indent +:+
  nl +:+ indent +:+ "Category: " +:+ test_category +:+
  nl +:+ indent +:+ "Validation Level: " +:+ validation_level +:+
  nl +:+ indent +:+
  nl +:+ indent +:+ "Workflow:" +:+
  nl +:+ indent +:+ "1. Generate a complete test case following PyNVMe best practices" +:+
  nl +:+ indent +:+ "2. Validate the generated test thoroughly" +:+
  nl +:+ indent +:+ "3. If issues found, regenerate and validate again" +:+
  nl +:+ indent +:+ "4. Save the final validated test" +:+
  nl +:+ indent +:+ "5. Provide a summary of the generation and validation process" +:+
  nl +:+ indent.

(** Lines 481-518: the "Generate & Validate Test" button. *)
Definition orchestrate_button (sv : Services)
    (test_requirement test_category validation_level : string) : M State unit :=
  if PyStr.is_empty test_requirement then
    emit (Warning "Please describe the test requirement")
  else
    try_except
      (response ← run_agent sv "Test Orchestrator"
                     (enhanced_query test_requirement test_category validation_level);
       emit (Success "Test Generated and Validated!");;
       emit (Markdown response);;
       append_history "Orchestrated" test_requirement test_category response)
      (fun e => emit (Error ("Error: " +:+ e));; emit (Traceback e)).

(** Lines 542-560: the "Generate Test" button. *)
Definition generate_button (sv : Services) (gen_query gen_category : string)
  : M State unit :=
  if PyStr.is_empty gen_query then emit (Warning "Please enter test specification")
  else
    try_except
      (response ← run_agent sv "Test Case Generator"
                     (gen_query +:+ nl +:+ "Category: " +:+ gen_category);
       emit (Success "Test Generated!");;
       emit (Markdown response);;
       append_history "Generation" gen_query gen_category response)
      (fun e => emit (Error ("Error: " +:+ e))).

(** Lines 580-599: the "Validate Test" button. *)
Definition validate_button (sv : Services) (test_code_input : string) : M State unit :=
  if PyStr.is_empty test_code_input then emit (Warning "Please paste test code")
  else
    try_except
      (response ← run_agent sv "Test Validator"
                     ("Validate this PyNVMe test and provide improvement suggestions:" +:+
                      nl +:+ nl +:+ test_code_input);
       emit (Markdown response);;
       append_history "Validation" "Code validation" "validation" response)
      (fun e => emit (Error ("Error: " +:+ e))).

(** Lines 613-622: the "Ask Expert" button. *)
Definition expert_button (sv : Services) (expert_query : string) : M State unit :=
  if PyStr.is_empty expert_query then emit (Warning "Please enter a question")
  else
    try_except
      (response ← run_agent sv "PyNVMe Expert" expert_query;
       emit (Markdown response))
      (fun e => emit (Error ("Error: " +:+ e))).

(** The three substrings whose absence is an error, with the error each
    one contributes. *)
Definition missing_error (needle msg test_code : string) : list string :=
  if PyStr.contains needle test_code then [] else [msg].

End Pynvme.

(** ** renode.py *)

Module Renode.

Definition VECTOR_DB_PATH : string := "./renode_chroma_db".

Definition renode_knowledge : KnowledgeBase :=
  mkKb "renode_knowledge" [("pdf", "renode_docs"); ("text", "renode_docs")]
       "renode_docs".

Definition set_loaded (key : nat) (loaded : bool) : M State unit :=
  modify (fun s =>
    let ss := session s in
    set_session (mkSession (review_history ss) (generation_history ss)
                           (kb_cleared ss) loaded key) s).

(** Lines 630-648: store the uploads; the knowledge base is loaded when
    the "Load Documentation" button is pressed. *)
Definition sidebar_upload (sv : Services) (doc_files : list UploadedFile)
    (load_clicked : bool) : M State unit :=
  os_makedirs "renode_docs";;
  when (nonempty doc_files)
    (_ ← store_batch "renode_docs" doc_files false;
     when load_clicked
       (try_except
          (kb_load sv renode_knowledge false true;;
           s ← get;
           set_loaded (uploader_key (session s)) true;;
           emit (Success "Documentation loaded!"))
          (fun e => emit (Error ("Error loading documentation: " +:+ e))))).

(** Lines 650-668: the "Clear Knowledge Base" button. *)
Definition clear_button : M State unit :=
  try_except
    (delete_collection "renode_docs";;
     for_each ["renode_docs"; VECTOR_DB_PATH; "generated_renode"]
       (delete_folder Fs.IgnoreErrors);;
     s ← get;
     set_loaded (uploader_key (session s) + 1) false;;
     emit (Success "Knowledge base cleared!");;
     emit Rerun)
    (fun e => emit (Error ("Error clearing knowledge base: " +:+ e))).

Definition in_range (lo hi : nat) (c : ascii) : bool :=
  (lo <=? nat_of_ascii c) && (nat_of_ascii c <=? hi).

Section Sanitize.

(** Which characters beyond ASCII the regular expression class [\w]
    accepts is decided by the Unicode tables of the interpreter. *)
Variable unicode_word : ascii -> bool.

(** [\w] *)
Definition is_word (c : ascii) : bool :=
  if nat_of_ascii c <? 128 then
    in_range 48 57 c || in_range 65 90 c || in_range 97 122 c ||
    Ascii.eqb c "_"
  else unicode_word c.

(** The class [[^\w\-_]] *)
Definition is_unsafe (c : ascii) : bool :=
  negb (is_word c || Ascii.eqb c "-" || Ascii.eqb c "_").

(** [re.sub(r'[^\w\-_]', '_', filename)] *)
Fixpoint sanitize (filename : string) : string :=
  match filename with
  | EmptyString => EmptyString
  | String c rest => String (if is_unsafe c then "_"%char else c) (sanitize rest)
  end.

(** [extensions.get(code_type, ".txt")] *)
Definition extension (code_type : string) : string :=
  default ".txt"
    (dict_get code_type
       [("resc", ".resc"); ("repl", ".repl"); ("cs", ".cs"); ("platform", ".repl")]).

(** Lines 262-309. *)
Definition save_renode_code (filename code code_type category : string)
  : M State Dict :=
  try_except
    (let ext := extension code_type in
     let code_dir := "generated_renode/" +:+ category +:+ "/" +:+ code_type in
     os_makedirs (Path.str (Path.parse code_dir));;
     timestamp ← datetime_now;
     let safe_filename := sanitize filename in
     let full_filename :=
       safe_filename +:+ "_" +:+ strftime_compact timestamp +:+ ext in
     let filepath := Path.joinpath code_dir full_filename in
     write_file (Path.str filepath) code;;
     pure [("status", "success");
           ("filepath", Path.str filepath);
           ("message", "Code saved successfully to " +:+ Path.str filepath)])
    (fun e =>
     pure [("status", "error");
           ("filepath", EmptyString);
           ("message", "Error saving code: " +:+ e)]).

End Sanitize.

End Renode.

(** ** Reference worlds used by the examples *)

Module Examples.

(** A model endpoint that answers every query. *)
Definition echo : Services :=
  mkServices (fun agent query w => (w, Ok ("answer to: " +:+ query)))
             (fun reader name data => [VectorIndex.mkDoc name data])
             (fun _ => false).

(** A model endpoint that is down. *)
Definition down : Services :=
  mkServices (fun agent query w => (w, Raise "Connection refused"))
             (fun reader name data => [VectorIndex.mkDoc name data])
             (fun _ => true).

Definition noon : DateTime := mkDateTime 2025 1 15 12 0 0 0.

Definition state0 : State := mkState Fs.empty ∅ noon session0 [].

(** Only the ASCII word characters count as [\w]. *)
Definition ascii_only : ascii -> bool := fun _ => false.

End Examples.

(** ** Properties of page sections *)

(** Every run of [m] relates the state before to the state after by [R],
    whether it returns or raises. *)
Definition preserves {A} (R : State -> State -> Prop) (m : M State A) : Prop :=
  forall s, R s (m s).1.

(** What a run added to the log. *)
Definition new_events (s s' : State) : list Event :=
  drop (length (log s)) (log s').

Definition is_load (e : Event) : bool :=
  match e with Call (KbLoad _ _ _) => true | _ => false end.

(** A name as a browser or a caller gives it to a file: one non-empty path
    component. *)
Definition plain_name (n : string) : Prop :=
  n <> EmptyString /\ n <> "." /\ n <> ".." /\
  PyStr.has_char Fs.slash n = false /\ PyStr.has_char Fs.nul n = false.

(** First write wins: a run never changes the content of a file that is
    on disk. *)
Definition FirstWriteWins (section : M State unit) : Prop :=
  forall s p data,
    Fs.read (fs s) p = Some data -> Fs.read (fs (section s).1) p = Some data.

(** No knowledge-base load is made for a batch whose names are all on disk
    in the upload directory [dir]. *)
Definition NoLoadForDuplicates (dir : string)
    (section : list UploadedFile -> M State unit) : Prop :=
  forall s batch,
    (forall f, f ∈ batch -> Fs.exists_ (fs s) (os_path_join dir (name f)) = true) ->
    forall e, e ∈ new_events s (section batch s).1 -> is_load e = false.

(** Frames: what a run leaves alone. *)
Definition fs_grows (s s' : State) : Prop := Fs.extends (fs s) (fs s').
Definition same_fs (s s' : State) : Prop := fs s = fs s'.
Definition same_session (s s' : State) : Prop := session s = session s'.
Definition same_log (s s' : State) : Prop := log s = log s'.
Definition same_index (s s' : State) : Prop := index s = index s'.

(** The log only gets longer. *)
Definition log_grows (s s' : State) : Prop :=
  exists post, log s' = log s ++ post.

(** The first thing a run does to the log is to add [e]. *)
Definition starts_with {A} (e : Event) (m : M State A) : Prop :=
  forall s, exists post, log (m s).1 = log s ++ e :: post.

(** Whether the upload is on disk in the upload directory [dir]. *)
Definition on_disk (dir : string) (w : Fs.t) (f : UploadedFile) : bool :=
  Fs.exists_ w (os_path_join dir (name f)).

(** Whether a batch of code files and documents brings a name that is not
    on disk. *)
Definition has_new (w : Fs.t) (code_files doc_files : list UploadedFile) : bool :=
  existsb (fun f => negb (on_disk "uploaded_code" w f)) code_files ||
  existsb (fun f => negb (on_disk "uploaded_docs" w f)) doc_files.

Definition is_success (e : Event) : bool :=
  match e with Success _ => true | _ => false end.

(** The log only gets longer, and only by confirmations. *)
Definition confirms (s s' : State) : Prop :=
  exists pre, log s' = log s ++ pre /\ Forall (fun e => is_success e = true) pre.

(** ** Sequences of ingestion runs *)

(** One page run of an upload section, of any of the four front-ends. *)
Inductive IngestRun : Type :=
| RunCodeAnalysis (code_files : list UploadedFile)
| RunCodeReviewer (code_files doc_files : list UploadedFile)
| RunPynvme (doc_files : list UploadedFile) (load_clicked : bool)
| RunRenode (doc_files : list UploadedFile) (load_clicked : bool).

Definition ingest (sv : Services) (r : IngestRun) : M State unit :=
  match r with
  | RunCodeAnalysis code_files => CodeAnalysis.upload_section sv code_files
  | RunCodeReviewer code_files doc_files =>
      CodeReviewer.upload_section sv code_files doc_files
  | RunPynvme doc_files clicked => Pynvme.sidebar_upload sv doc_files clicked
  | RunRenode doc_files clicked => Renode.sidebar_upload sv doc_files clicked
  end.

(** Page runs follow one another; a run that raises ends there and the
    next one starts from what it left. *)
Fixpoint ingest_all (sv : Services) (rs : list IngestRun) (s : State) : State :=
  match rs with
  | [] => s
  | r :: rs' => ingest_all sv rs' (ingest sv r s).1
  end.

(** An event of an incremental ingestion: a load is non-recreating and
    upserting, and no collection is deleted. *)
Definition incremental (e : Event) : Prop :=
  match e with
  | Call (KbLoad _ recreate upsert) => recreate = false /\ upsert = true
  | Call (DeleteCollection _) => False
  | _ => True
  end.

Definition incremental_log (s s' : State) : Prop :=
  exists post, log s' = log s ++ post /\ Forall incremental post.

(** The index keeps what it has: no collection disappears, no chunk id
    disappears from a collection, and a collection without duplicate ids
    stays so. *)
Definition index_kept (s s' : State) : Prop :=
  (forall coll, is_Some (index s !! coll) -> is_Some (index s' !! coll)) /\
  (forall coll id,
     id ∈ VectorIndex.ids (VectorIndex.get coll (index s)) ->
     id ∈ VectorIndex.ids (VectorIndex.get coll (index s'))) /\
  (forall coll,
     NoDup (VectorIndex.ids (VectorIndex.get coll (index s))) ->
     NoDup (VectorIndex.ids (VectorIndex.get coll (index s')))).

(** ** The clear handlers *)

(** What the deletion loop shows for one folder that was on disk when the
    button was pressed. *)
Definition deletion_attempt (w : Fs.t) (folder : string) : list Event :=
  if Fs.exists_ w folder
  then [Call (Rmtree folder); Info ("Deleted " +:+ folder)]
  else [].

(** A world in which [uploaded_code] holds a file that cannot be deleted. *)
Definition locked_world : Fs.t :=
  Fs.mk {[ ["driver.c"; "uploaded_code"] := Fs.mkFile Fs.Locked "int a;" ]}
        {[ ["uploaded_code"] ]}.

(** Folders given with the location each resolves to, none of which is
    equal to or lies below one listed before it. *)
Fixpoint independent (fl : list (string * list string)) : Prop :=
  match fl with
  | [] => True
  | fk :: rest =>
      Forall (fun gl => gl.2 <> fk.2 /\ ~ Fs.under fk.2 gl.2) rest /\ independent rest
  end.

Definition resolves_to (fk : string * list string) : Prop :=
  forall w, Fs.resolve w fk.1 = Ok fk.2.

(** Documents were uploaded to pynvme.py but never loaded: the directory
    is on disk, the collection does not exist. *)
Definition pynvme_unloaded : State :=
  mkState (Fs.mk {[ ["nvme.pdf"; "pynvme_docs"] := Fs.mkFile Fs.Writable "%PDF" ]}
                 {[ ["pynvme_docs"] ]})
          ∅ Examples.noon session0 [].

(** The same for renode.py. *)
Definition renode_unloaded : State :=
  mkState (Fs.mk {[ ["renode.pdf"; "renode_docs"] := Fs.mkFile Fs.Writable "%PDF" ]}
                 {[ ["renode_docs"] ]})
          ∅ Examples.noon session0 [].

(** code-reviewer.py with a file that cannot be deleted. *)
Definition code_reviewer_locked : State :=
  mkState locked_world ∅ Examples.noon session0 [].

(** ** The respond handlers *)

(** A run that only shows one warning: nothing else is logged, no call is
    made, and disk, index and session are as before. *)
Definition warns_only (m : M State unit) (s : State) : Prop :=
  exists msg, m s = (set_log (log s ++ [Warning msg]) s, Ok tt).

(** The number of code files on disk, as the review buttons count them. *)
Definition code_count (s : State) : nat := glob_count glob_ch "uploaded_code" (fs s).

(** The respond handlers of pynvme.py, each with its inputs. *)
Inductive PynvmeButton : Type :=
| Orchestrate (test_requirement test_category validation_level : string)
| Generate (gen_query gen_category : string)
| Validate (test_code_input : string)
| AskExpert (expert_query : string).

Definition pynvme_query (b : PynvmeButton) : string :=
  match b with
  | Orchestrate q _ _ | Generate q _ | Validate q | AskExpert q => q
  end.

Definition pynvme_button (sv : Services) (b : PynvmeButton) : M State unit :=
  match b with
  | Orchestrate q c l => Pynvme.orchestrate_button sv q c l
  | Generate q c => Pynvme.generate_button sv q c
  | Validate q => Pynvme.validate_button sv q
  | AskExpert q => Pynvme.expert_button sv q
  end.

(** The session with one more record at the end of the review history, and
    at the end of the generation history; everything else as it is. *)
Definition with_review (record : Dict) (ss : Session) : Session :=
  mkSession (review_history ss ++ [record]) (generation_history ss)
            (kb_cleared ss) (kb_loaded ss) (uploader_key ss).

Definition with_generation (record : Dict) (ss : Session) : Session :=
  mkSession (review_history ss) (generation_history ss ++ [record])
            (kb_cleared ss) (kb_loaded ss) (uploader_key ss).

(** What the session must look like after a respond action whose agent run
    gave [outcome]: on success one more record in the history and nothing
    else changed, on failure the whole session as it was. *)
Definition history_after (append : Dict -> Session -> Session)
    (before after : Session) (record : string -> Dict)
    (outcome : result string) : Prop :=
  match outcome with
  | Ok response => after = append (record response) before
  | Raise _ => after = before
  end.

(** code-reviewer.py with [driver.c] uploaded. *)
Definition code_reviewer_loaded : State :=
  (CodeReviewer.upload_section Examples.echo [mkUpload "driver.c" "int a;"] []
     Examples.state0).1.

(** ** The save tools *)

(** Two instants in the same second: [strftime] with a format down to
    [%S] cannot tell them apart. *)
Definition same_second (d d' : DateTime) : Prop :=
  year d = year d' /\ month d = month d' /\ day d = day d' /\
  hour d = hour d' /\ minute d = minute d' /\ second d = second d'.

(** The clock moves on. *)
Definition set_now (d : DateTime) (s : State) : State :=
  mkState (fs s) (index s) d (session s) (log s).

(** The status and the file path of the dict a save tool returns. *)
Definition status_of (r : result Dict) : option string :=
  match r with Ok d => dict_get "status" d | Raise _ => None end.

Definition filepath_of (r : result Dict) : option string :=
  match r with Ok d => dict_get "filepath" d | Raise _ => None end.

(** The part of a name after its last slash. *)
Definition last_segment (n : string) : string :=
  List.last (Fs.split_slash n) EmptyString.

(** What a save does to the disk: create the directory, then write the
    file; the path written on success, the exception met otherwise. *)
Definition save_outcome (dir filename code : string) (s : State)
  : State * (string + string) :=
  match Fs.makedirs (Path.str (Path.parse dir)) (fs s) with
  | (w1, Raise e) => (set_fs w1 s, inr e)
  | (w1, Ok _) =>
      let p := Path.str (Path.joinpath dir filename) in
      match Fs.open_write p code w1 with
      | (w2, Ok _) => (set_fs w2 s, inl p)
      | (w2, Raise e) => (set_fs w2 s, inr e)
      end
  end.

(** The dict a save tool returns. *)
Definition save_result (ok_msg err_msg : string) (r : string + string) : Dict :=
  match r with
  | inl p => [("status", "success"); ("filepath", p); ("message", ok_msg +:+ p)]
  | inr e => [("status", "error"); ("filepath", EmptyString); ("message", err_msg +:+ e)]
  end.

(** The file names the two save tools build. *)
Definition test_filename (test_name : string) (d : DateTime) : string :=
  test_name +:+ "_" +:+ strftime_compact d +:+ ".py".

Definition renode_filename (unicode_word : ascii -> bool) (filename code_type : string)
    (d : DateTime) : string :=
  Renode.sanitize unicode_word filename +:+ "_" +:+ strftime_compact d +:+
  Renode.extension code_type.

Definition renode_dir (category code_type : string) : string :=
  "generated_renode/" +:+ category +:+ "/" +:+ code_type.

(** What the dict of a save tool says and what is on disk: a success names
    the file that now holds the code; an error carries an empty path. *)
Definition reports_faithfully (code : string) (out : State * result Dict) : Prop :=
  exists d, out.2 = Ok d /\
    ((dict_get "status" d = Some "success" /\
      exists p, dict_get "filepath" d = Some p /\ Fs.read (fs out.1) p = Some code) \/
     (dict_get "status" d = Some "error" /\
      dict_get "filepath" d = Some EmptyString)).

(** Two saves that both report success left two distinct files, each with
    its own code. *)
Definition both_kept (code1 code2 : string) (out1 out2 : State * result Dict) : Prop :=
  status_of out1.2 = Some "success" -> status_of out2.2 = Some "success" ->
  exists p1 p2,
    filepath_of out1.2 = Some p1 /\ filepath_of out2.2 = Some p2 /\ p1 <> p2 /\
    Fs.read (fs out2.1) p1 = Some code1 /\ Fs.read (fs out2.1) p2 = Some code2.

(** One second, and half a second, after [Examples.noon]. *)
Definition noon_plus_1s : DateTime := mkDateTime 2025 1 15 12 0 1 0.
Definition noon_plus_half : DateTime := mkDateTime 2025 1 15 12 0 0 500000.

(** A disk on which [/tmp] exists. *)
Definition with_tmp : State :=
  mkState (Fs.mk ∅ {[ ["tmp"; "/"] ]}) ∅ Examples.noon session0 [].

(** An index that holds a chunk of a file that is no longer on disk. *)
Definition indexed_only : State :=
  mkState Fs.empty {[ "code_review_docs" := [VectorIndex.mkDoc "old.c" "int old;"] ]}
          Examples.noon session0 [].

(** ** More of Python's [str] *)

Module PyText.

Definition in_range (lo hi : N) (c : ascii) : bool :=
  ((lo <=? N_of_ascii c) && (N_of_ascii c <=? hi))%N.

Definition is_ascii (c : ascii) : bool := (N_of_ascii c <? 128)%N.

(** What the interpreter's Unicode tables say about the characters beyond
    ASCII: whether [\w] accepts one, whether it is white space
    ([str.isspace], [\s]), and what [lower()] and [upper()] make of it. *)
Record Unicode : Type := mkUnicode {
  word_char : ascii -> bool;
  space_char : ascii -> bool;
  lower_char : ascii -> string;
  upper_char : ascii -> string
}.

Definition ascii_lower (c : ascii) : ascii :=
  if in_range 65 90 c then ascii_of_N (N_of_ascii c + 32) else c.

Definition ascii_upper (c : ascii) : ascii :=
  if in_range 97 122 c then ascii_of_N (N_of_ascii c - 32) else c.

(** The double quote, and three of them. *)
Definition dq : string := String (ascii_of_nat 34) EmptyString.
Definition dq3 : string := dq +:+ dq +:+ dq.

(** [s.split(sep)] for a separator of one character. *)
Fixpoint split (sep : ascii) (s : string) : list string :=
  match s with
  | EmptyString => [EmptyString]
  | String c s' =>
      if Ascii.eqb c sep then EmptyString :: split sep s'
      else match split sep s' with
           | x :: r => String c x :: r
           | [] => [String c EmptyString]
           end
  end.


(** Every character of [s] passes [p]. *)
Fixpoint all_chars (p : ascii -> bool) (s : string) : bool :=
  match s with
  | EmptyString => true
  | String c s' => p c && all_chars p s'
  end.


Section WithUnicode.

Variable U : Unicode.

(** [c.isspace()], which is also the class [\s] *)
Definition is_space (c : ascii) : bool :=
  if is_ascii c then in_range 9 13 c || in_range 28 32 c else space_char U c.

(** [s.lower()] *)
Fixpoint lower (s : string) : string :=
  match s with
  | EmptyString => EmptyString
  | String c s' =>
      (if is_ascii c then String (ascii_lower c) EmptyString else lower_char U c)
      +:+ lower s'
  end.

(** [s.upper()] *)
Fixpoint upper (s : string) : string :=
  match s with
  | EmptyString => EmptyString
  | String c s' =>
      (if is_ascii c then String (ascii_upper c) EmptyString else upper_char U c)
      +:+ upper s'
  end.

(** [s.lstrip()], [s.rstrip()] and [s.strip()] *)
Fixpoint lstrip (s : string) : string :=
  match s with
  | EmptyString => EmptyString
  | String c s' => if is_space c then lstrip s' else s
  end.

Fixpoint rstrip (s : string) : string :=
  match s with
  | EmptyString => EmptyString
  | String c s' =>
      match rstrip s' with
      | EmptyString => if is_space c then EmptyString else String c EmptyString
      | r => String c r
      end
  end.

Definition strip (s : string) : string := rstrip (lstrip s).

End WithUnicode.

End PyText.

(** ** Regular expressions *)

(** The fragment of [re] the programs use: character classes, sequence,
    repetition.  [re.search(p, s)] is truthy exactly when some substring of
    [s] matches [p]; which substring the engine would report plays no role
    in the programs, which only test the result. *)
Module Re.

Inductive t : Type :=
| Nothing
| Epsilon
| Chr (p : ascii -> bool)
| Cat (r1 r2 : t)
| Or (r1 r2 : t)
| Star (r : t).

(** [r+] *)
Definition Plus (r : t) : t := Cat r (Star r).

(** A literal text. *)
Fixpoint Lit (s : string) : t :=
  match s with
  | EmptyString => Epsilon
  | String c s' => Cat (Chr (Ascii.eqb c)) (Lit s')
  end.

(** The strings a pattern matches as a whole. *)
Inductive Matches : t -> string -> Prop :=
| MEpsilon : Matches Epsilon EmptyString
| MChr (p : ascii -> bool) (c : ascii) :
    p c = true -> Matches (Chr p) (String c EmptyString)
| MCat (r1 r2 : t) (s1 s2 : string) :
    Matches r1 s1 -> Matches r2 s2 -> Matches (Cat r1 r2) (s1 +:+ s2)
| MOrL (r1 r2 : t) (s : string) : Matches r1 s -> Matches (Or r1 r2) s
| MOrR (r1 r2 : t) (s : string) : Matches r2 s -> Matches (Or r1 r2) s
| MStar0 (r : t) : Matches (Star r) EmptyString
| MStarS (r : t) (s1 s2 : string) :
    Matches r s1 -> Matches (Star r) s2 -> Matches (Star r) (s1 +:+ s2).

Fixpoint nullable (r : t) : bool :=
  match r with
  | Nothing => false
  | Epsilon => true
  | Chr _ => false
  | Cat r1 r2 => nullable r1 && nullable r2
  | Or r1 r2 => nullable r1 || nullable r2
  | Star _ => true
  end.

(** What is left of [r] to match after the character [c]. *)
Fixpoint deriv (c : ascii) (r : t) : t :=
  match r with
  | Nothing => Nothing
  | Epsilon => Nothing
  | Chr p => if p c then Epsilon else Nothing
  | Cat r1 r2 =>
      if nullable r1 then Or (Cat (deriv c r1) r2) (deriv c r2)
      else Cat (deriv c r1) r2
  | Or r1 r2 => Or (deriv c r1) (deriv c r2)
  | Star r1 => Cat (deriv c r1) (Star r1)
  end.

(** [re.match(r, s)]: some prefix of [s] matches. *)
Fixpoint match_ (r : t) (s : string) : bool :=
  nullable r ||
  match s with
  | EmptyString => false
  | String c s' => match_ (deriv c r) s'
  end.

(** [re.search(r, s)]: a match starts somewhere in [s]. *)
Fixpoint search (r : t) (s : string) : bool :=
  match_ r s ||
  match s with
  | EmptyString => false
  | String _ s' => search r s'
  end.

(** The flag [re.IGNORECASE], for the characters whose case variants are
    ASCII letters: a class accepts a character when it accepts one of its
    case variants. *)
Fixpoint ignorecase (r : t) : t :=
  match r with
  | Nothing => Nothing
  | Epsilon => Epsilon
  | Chr p =>
      Chr (fun c => p c || p (PyText.ascii_lower c) || p (PyText.ascii_upper c))
  | Cat r1 r2 => Cat (ignorecase r1) (ignorecase r2)
  | Or r1 r2 => Or (ignorecase r1) (ignorecase r2)
  | Star r1 => Star (ignorecase r1)
  end.

Section Classes.

Variable U : PyText.Unicode.

(** [\w], [\s], [[\w\.]], [[.\w]] and [[0-9A-Fa-f]] *)
Definition word : t := Chr (Renode.is_word (PyText.word_char U)).
Definition space : t := Chr (PyText.is_space U).
Definition word_or_dot : t :=
  Chr (fun c => Renode.is_word (PyText.word_char U) c || Ascii.eqb c ".").
Definition hex : t :=
  Chr (fun c => PyText.in_range 48 57 c || PyText.in_range 65 70 c ||
                PyText.in_range 97 102 c).

End Classes.

End Re.

(** ** The tool functions of pynvme.py besides the validator and the save tool *)

Module PynvmeTools.

(** The [recommendations] dict of the best-practice checks. *)
Record Recommendations : Type := mkRecommendations {
  good_practices : list string;
  improvements_needed : list string
}.

Definition add_good (msg : string) (r : Recommendations) : Recommendations :=
  mkRecommendations (good_practices r ++ [msg]) (improvements_needed r).

Definition add_needed (msg : string) (r : Recommendations) : Recommendations :=
  mkRecommendations (good_practices r) (improvements_needed r ++ [msg]).

Section WithUnicode.

Variable U : PyText.Unicode.

(** Lines 102-149. *)
Definition check_pynvme_best_practices (test_code : string) : Recommendations :=
  let recommendations := mkRecommendations [] [] in
  let recommendations :=
    if PyStr.contains "nvme.close()" test_code || PyStr.contains "with " test_code
    then add_good "Proper resource cleanup detected" recommendations
    else add_needed "Add proper cleanup: use context managers or explicit nvme.close()"
                    recommendations in
  let recommendations :=
    if PyStr.contains "try:" test_code || PyStr.contains "pytest.raises" test_code
    then add_good "Error handling present" recommendations
    else add_needed "Consider adding error handling for robustness" recommendations in
  let recommendations :=
    if PyStr.contains "timeout" (PyText.lower U test_code)
    then add_good "Timeout handling present" recommendations
    else add_needed "Consider adding timeout parameters for long operations"
                    recommendations in
  let recommendations :=
    if PyStr.contains PyText.dq3 test_code || PyStr.contains "'''" test_code
    then add_good "Test documentation present" recommendations
    else add_needed "Add docstring to explain test purpose and expected behavior"
                    recommendations in
  recommendations.

End WithUnicode.

(** Lines 152-180; [validation_results] is a dict as [validate_test_syntax]
    returns it. *)
Definition suggest_test_improvements (test_code : string)
    (validation_results : Pynvme.ValidationResults) : string :=
  let suggestions : list string := [] in
  let suggestions :=
    if negb (Pynvme.is_valid validation_results) then
      suggestions ++ ["CRITICAL: Fix validation errors first"] ++
      ((fun err => "  - " +:+ err) <$> Pynvme.errors validation_results)
    else suggestions in
  let suggestions :=
    if nonempty (Pynvme.warnings validation_results) then
      suggestions ++ [nl +:+ "WARNINGS:"] ++
      ((fun warn => "  - " +:+ warn) <$> Pynvme.warnings validation_results)
    else suggestions in
  let suggestions :=
    if negb (PyStr.contains "pytest.mark" test_code) then
      suggestions ++
      [nl +:+ "Consider adding pytest markers (@pytest.mark.parametrize, etc.)"]
    else suggestions in
  let suggestions :=
    if negb (PyStr.contains "logging" test_code) then
      suggestions ++ [nl +:+ "Add logging for better debugging"]
    else suggestions in
  if nonempty suggestions then PyStr.join nl suggestions else "Test looks good!".

(** The three templates of [get_test_template]. *)
Definition read_template : string :=
  nl +:+
  "import pytest" +:+ nl +:+
  "import pynvme as nvme" +:+ nl +:+
  nl +:+
  "def test_sequential_read(nvme0):" +:+ nl +:+
  "    " +:+ PyText.dq3 +:+ "Test sequential read operations." +:+ PyText.dq3 +:+ nl +:+
  "    # Test implementation here" +:+ nl +:+
  "    pass" +:+ nl.

Definition write_template : string :=
  nl +:+
  "import pytest" +:+ nl +:+
  "import pynvme as nvme" +:+ nl +:+
  nl +:+
  "def test_sequential_write(nvme0):" +:+ nl +:+
  "    " +:+ PyText.dq3 +:+ "Test sequential write operations." +:+ PyText.dq3 +:+ nl +:+
  "    # Test implementation here" +:+ nl +:+
  "    pass" +:+ nl.

Definition admin_template : string :=
  nl +:+
  "import pytest" +:+ nl +:+
  "import pynvme as nvme" +:+ nl +:+
  nl +:+
  "def test_admin_command(nvme0):" +:+ nl +:+
  "    " +:+ PyText.dq3 +:+ "Test NVMe admin commands." +:+ PyText.dq3 +:+ nl +:+
  "    # Test implementation here" +:+ nl +:+
  "    pass" +:+ nl.

Definition templates : Dict :=
  [("read", read_template); ("write", write_template); ("admin", admin_template)].

(** Lines 222-261: [templates.get(test_type, templates["read"])]. *)
Definition get_test_template (test_type : string) : string :=
  default read_template (dict_get test_type templates).

End PynvmeTools.

(** ** The tool functions of renode.py besides the save tool *)

Module RenodeTools.

(** The [validation_results] dict of [validate_renode_syntax]. *)
Record ValidationResults : Type := mkValidation {
  is_valid : bool;
  errors : list string;
  warnings : list string;
  suggestions : list string;
  code_type : string
}.

Definition add_error (msg : string) (r : ValidationResults) : ValidationResults :=
  mkValidation false (errors r ++ [msg]) (warnings r) (suggestions r) (code_type r).

Definition add_warning (msg : string) (r : ValidationResults) : ValidationResults :=
  mkValidation (is_valid r) (errors r) (warnings r ++ [msg]) (suggestions r)
               (code_type r).

Definition add_suggestion (msg : string) (r : ValidationResults) : ValidationResults :=
  mkValidation (is_valid r) (errors r) (warnings r) (suggestions r ++ [msg])
               (code_type r).

(** The [recommendations] dict of [check_renode_best_practices]. *)
Record Recommendations : Type := mkRecommendations {
  good_practices : list string;
  improvements_needed : list string
}.

Definition add_good (msg : string) (r : Recommendations) : Recommendations :=
  mkRecommendations (good_practices r ++ [msg]) (improvements_needed r).

Definition add_needed (msg : string) (r : Recommendations) : Recommendations :=
  mkRecommendations (good_practices r) (improvements_needed r ++ [msg]).

(** The [analysis] dict of [analyze_platform_compatibility]. *)
Record Analysis : Type := mkAnalysis {
  compatible : bool;
  architecture : string;
  detected_peripherals : list string;
  issues : list string;
  recommendations : list string
}.

Section WithUnicode.

Variable U : PyText.Unicode.

(** [\w+:\s*([\w\.]+)] *)
Definition peripheral_definition : Re.t :=
  Re.Cat (Re.Plus (Re.word U))
    (Re.Cat (Re.Lit ":")
       (Re.Cat (Re.Star (Re.space U)) (Re.Plus (Re.word_or_dot U)))).

(** [<\s*0x[0-9A-Fa-f]+\s*,\s*\+0x[0-9A-Fa-f]+\s*>] *)
Definition address_range : Re.t :=
  Re.Cat (Re.Lit "<")
    (Re.Cat (Re.Star (Re.space U))
       (Re.Cat (Re.Lit "0x")
          (Re.Cat (Re.Plus Re.hex)
             (Re.Cat (Re.Star (Re.space U))
                (Re.Cat (Re.Lit ",")
                   (Re.Cat (Re.Star (Re.space U))
                      (Re.Cat (Re.Lit "+0x")
                         (Re.Cat (Re.Plus Re.hex)
                            (Re.Cat (Re.Star (Re.space U)) (Re.Lit ">")))))))))).

(** Lines 63-132. *)
Definition validate_renode_syntax (code code_type : string) : ValidationResults :=
  let validation_results := mkValidation true [] [] [] code_type in
  let validation_results :=
    if bool_decide (code_type = "resc") then
      let validation_results :=
        if negb (PyStr.contains "mach create" code) &&
           negb (PyStr.contains "using sysbus" code)
        then add_warning "No machine creation or sysbus usage found" validation_results
        else validation_results in
      let common_commands := ["sysbus LoadELF"; "machine StartGdbServer"; "start"] in
      let found_commands :=
        filter (fun cmd => PyStr.contains cmd code = true) common_commands in
      if negb (nonempty found_commands)
      then add_suggestion "Consider adding common RENODE commands like LoadELF or start"
                          validation_results
      else validation_results
    else if bool_decide (code_type = "repl") then
      let validation_results :=
        if negb (Re.search peripheral_definition code)
        then add_error "Invalid REPL syntax - missing peripheral definitions"
                       validation_results
        else validation_results in
      let validation_results :=
        if negb (PyStr.contains "@" code)
        then add_warning "No memory addresses (@) specified" validation_results
        else validation_results in
      if negb (PyStr.contains "size:" (PyText.lower U code))
      then add_suggestion "Consider specifying sizes for memory regions"
                          validation_results
      else validation_results
    else if bool_decide (code_type = "cs") then
      let validation_results :=
        if negb (PyStr.contains "using Antmicro.Renode" code)
        then add_error "Missing RENODE namespace imports" validation_results
        else validation_results in
      let validation_results :=
        if negb (PyStr.contains "class" code)
        then add_error "No class definition found" validation_results
        else validation_results in
      if negb (PyStr.contains ": IDoubleWordPeripheral" code) &&
         negb (PyStr.contains ": IBytePeripheral" code)
      then add_warning "Consider implementing IDoubleWordPeripheral or IBytePeripheral"
                       validation_results
      else validation_results
    else if bool_decide (code_type = "platform") then
      let validation_results :=
        if negb (PyStr.contains "cpu:" (PyText.lower U code)) &&
           negb (PyStr.contains "nvic:" (PyText.lower U code))
        then add_warning "No CPU or NVIC defined" validation_results
        else validation_results in
      if negb (PyStr.contains "uart" (PyText.lower U code)) &&
         negb (PyStr.contains "usart" (PyText.lower U code))
      then add_suggestion "Consider adding UART for debugging" validation_results
      else validation_results
    else validation_results in
  if String.length (PyText.strip U code) <? 10
  then add_error "Code is too short or empty" validation_results
  else validation_results.

(** Lines 135-206. *)
Definition check_renode_best_practices (code code_type : string) : Recommendations :=
  let recommendations := mkRecommendations [] [] in
  let recommendations :=
    if bool_decide (code_type = "resc") then
      let recommendations :=
        if PyStr.contains "# " code || PyStr.contains "//" code
        then add_good "Code includes comments" recommendations
        else add_needed "Add comments to explain script purpose" recommendations in
      let recommendations :=
        if PyStr.contains "logLevel" code
        then add_good "Logging configuration present" recommendations
        else add_needed "Consider setting appropriate logLevel" recommendations in
      if PyStr.contains "showAnalyzer" code || PyStr.contains "CreateTerminalTester" code
      then add_good "Output/analysis tools configured" recommendations
      else add_needed "Add analyzer or terminal tester for debugging" recommendations
    else if bool_decide (code_type = "repl") then
      let recommendations :=
        if PyStr.contains "///" code
        then add_good "Documentation comments present" recommendations
        else add_needed "Add /// documentation comments for peripherals"
                        recommendations in
      let recommendations :=
        if Re.search address_range code
        then add_good "Proper address range syntax used" recommendations
        else recommendations in
      if PyStr.contains "IRQ" code || PyStr.contains "-> " code
      then add_good "Interrupt connections defined" recommendations
      else add_needed "Consider defining interrupt connections" recommendations
    else if bool_decide (code_type = "cs") then
      let recommendations :=
        if PyStr.contains "[Constructor]" code
        then add_good "Constructor attribute used correctly" recommendations
        else recommendations in
      let recommendations :=
        if PyStr.contains "this.Log" code || PyStr.contains "this.DebugLog" code
        then add_good "Logging implemented" recommendations
        else add_needed "Add logging for debugging (this.Log)" recommendations in
      let recommendations :=
        if PyStr.contains "Reset()" code
        then add_good "Reset method implemented" recommendations
        else add_needed "Implement Reset() method" recommendations in
      if PyStr.contains "private" code && PyStr.contains "public" code
      then add_good "Proper access modifiers used" recommendations
      else recommendations
    else recommendations in
  let lines := PyText.split (ascii_of_nat 10) code in
  if (100 <? length lines) &&
     bool_decide (code_type ∈ ["resc"; "cs"])
  then add_needed "Consider breaking large files into smaller modules" recommendations
  else recommendations.

(** The decorative marks of the texts of [suggest_code_improvements] are
    characters outside the 8-bit range; they stand here as the bytes the
    source file has for them. *)
Definition code_looks_good : string := "‚úÖ Code looks good!".

(** Lines 209-259; [validation_results] is a dict as [validate_renode_syntax]
    returns it. *)
Definition suggest_code_improvements (code code_type : string)
    (validation_results : ValidationResults) : string :=
  let suggestions : list string := [] in
  let suggestions :=
    suggestions ++
    ["=== Improvements for " +:+ PyText.upper U code_type +:+ (" Code ===" +:+ nl)] in
  let suggestions :=
    if negb (is_valid validation_results) then
      (suggestions ++ ["üî¥ CRITICAL ERRORS - Must fix:"] ++
       ((fun err => "  ‚ùå " +:+ err) <$> errors validation_results)) ++
      [EmptyString]
    else suggestions in
  let suggestions :=
    if nonempty (warnings validation_results) then
      (suggestions ++ ["‚ö†Ô∏è  WARNINGS:"] ++
       ((fun warn => "  ‚ö†Ô∏è  " +:+ warn) <$> warnings validation_results)) ++
      [EmptyString]
    else suggestions in
  let suggestions :=
    if nonempty (RenodeTools.suggestions validation_results) then
      (suggestions ++ ["üí° SUGGESTIONS:"] ++
       ((fun sugg => "  üí° " +:+ sugg) <$> RenodeTools.suggestions validation_results)) ++
      [EmptyString]
    else suggestions in
  let suggestions :=
    if bool_decide (code_type = "resc") then
      suggestions ++
      ["üìã RESC Script Tips:";
       "  ‚Ä¢ Use 'include @path/to/platform.repl' to load platforms";
       "  ‚Ä¢ Add 'emulation CreateUartPtyTerminal " +:+ PyText.dq +:+ "term" +:+ PyText.dq +:+ " " +:+ PyText.dq +:+ "/tmp/uart" +:+ PyText.dq +:+ "' for serial";
       "  ‚Ä¢ Use 'machine StartGdbServer 3333' for debugging"]
    else if bool_decide (code_type = "repl") then
      suggestions ++
      ["üìã REPL Platform Tips:";
       "  ‚Ä¢ Use consistent indentation (4 spaces)";
       "  ‚Ä¢ Define memory regions with @ and size:";
       "  ‚Ä¢ Connect interrupts with '-> cpu@IRQ_NUMBER'"]
    else if bool_decide (code_type = "cs") then
      suggestions ++
      ["üìã C# Peripheral Tips:";
       "  ‚Ä¢ Inherit from BasicDoubleWordPeripheral for simplicity";
       "  ‚Ä¢ Use [Constructor] attribute for dependency injection";
       "  ‚Ä¢ Implement IDisposable if managing resources"]
    else suggestions in
  if nonempty suggestions then PyStr.join nl suggestions else code_looks_good.

(** The patterns of [peripheral_patterns], in the order of the dict. *)
Definition any_tail (name : string) : Re.t :=
  Re.Cat (Re.Lit name) (Re.Star (Re.word_or_dot U)).

Definition peripheral_patterns : list (string * Re.t) :=
  [("uart", any_tail "UART");
   ("gpio", any_tail "GPIO");
   ("timer", any_tail "Timer");
   ("spi", any_tail "SPI");
   ("i2c", any_tail "I2C")].

(** Lines 447-493. *)
Definition analyze_platform_compatibility (code target_arch : string) : Analysis :=
  let analysis := mkAnalysis true target_arch [] [] [] in
  let analysis :=
    foldl (fun analysis (item : string * Re.t) =>
             let '(periph_type, pattern) := item in
             if Re.search (Re.ignorecase pattern) code
             then mkAnalysis (compatible analysis) (architecture analysis)
                    (detected_peripherals analysis ++ [PyText.upper U periph_type])
                    (issues analysis) (recommendations analysis)
             else analysis)
          analysis peripheral_patterns in
  if bool_decide (target_arch = "ARM") then
    let analysis :=
      if negb (PyStr.contains "CortexM" code) && negb (PyStr.contains "CortexA" code)
      then mkAnalysis false (architecture analysis) (detected_peripherals analysis)
             (issues analysis ++ ["No ARM Cortex CPU defined"]) (recommendations analysis)
      else analysis in
    if negb (PyStr.contains "NVIC" code) && negb (PyStr.contains "GIC" code)
    then mkAnalysis (compatible analysis) (architecture analysis)
           (detected_peripherals analysis) (issues analysis)
           (recommendations analysis ++
              ["Consider adding interrupt controller (NVIC/GIC)"])
    else analysis
  else if bool_decide (target_arch = "RISC-V") then
    if negb (PyStr.contains "RiscV" code)
    then mkAnalysis false (architecture analysis) (detected_peripherals analysis)
           (issues analysis ++ ["No RISC-V CPU defined"]) (recommendations analysis)
    else analysis
  else analysis.

End WithUnicode.

End RenodeTools.

(** Unicode tables under which no character beyond ASCII is a word
    character or white space, or has a case variant. *)
Definition ascii_tables : PyText.Unicode :=
  PyText.mkUnicode (fun _ => false) (fun _ => false)
                   (fun c => String c EmptyString) (fun c => String c EmptyString).

(** ** renode.py: the respond handlers *)

Module RenodePage.

Definition append_history (type code_type requirement category response : string)
  : M State unit :=
  timestamp ← datetime_now;
  modify (fun s =>
    let ss := session s in
    set_session (mkSession (review_history ss)
                   (generation_history ss ++
                      [[("timestamp", strftime_iso timestamp);
                        ("type", type);
                        ("code_type", code_type);
                        ("requirement", requirement);
                        ("category", category);
                        ("response", response)]])
                   (kb_cleared ss) (kb_loaded ss) (uploader_key ss)) s).

Definition indent : string := "                    ".

Definition enhanced_query (code_requirement code_type category architecture : string)
  : string :=
  nl +:+ indent +:+ "Generate and validate RENODE code with these requirements:" +:+
  nl +:+ indent +:+ code_requirement +:+
  nl +:+ indent +:+
  nl +:+ indent +:+ "Code Type: " +:+ code_type +:+
  nl +:+ indent +:+ "Category: " +:+ category +:+
  nl +:+ indent +:+ "Target Architecture: " +:+ architecture +:+
  nl +:+ indent +:+
  nl +:+ indent +:+ "Workflow:" +:+
  nl +:+ indent +:+ "1. Generate complete " +:+ code_type +:+
                    " code following RENODE best practices" +:+
  nl +:+ indent +:+ "2. Validate the generated code thoroughly" +:+
  nl +:+ indent +:+ "3. Check architecture compatibility" +:+
  nl +:+ indent +:+ "4. If issues found, regenerate and validate again" +:+
  nl +:+ indent +:+ "5. Save the final validated code" +:+
  nl +:+ indent +:+ "6. Provide a summary with usage instructions" +:+
  nl +:+ indent.

(** Lines 728-767: the "Generate & Validate" button. *)
Definition orchestrate_button (sv : Services)
    (code_requirement code_type category architecture : string) : M State unit :=
  if PyStr.is_empty code_requirement then
    emit (Warning "Please describe your requirements")
  else
    try_except
      (response ← run_agent sv "RENODE Code Orchestrator"
                     (enhanced_query code_requirement code_type category architecture);
       emit (Success "Code Generated and Validated!");;
       emit (Markdown response);;
       append_history "Orchestrated" code_type code_requirement category response)
      (fun e => emit (Error ("Error: " +:+ e));; emit (Traceback e)).

(** Lines 814-835: the "Generate Code" button. *)
Definition generate_button (sv : Services)
    (gen_query gen_code_type gen_category : string) : M State unit :=
  if PyStr.is_empty gen_query then emit (Warning "Please enter code specification")
  else
    try_except
      (response ← run_agent sv "RENODE Code Generator"
                     (gen_query +:+ nl +:+ "Code Type: " +:+ gen_code_type +:+
                      nl +:+ "Category: " +:+ gen_category);
       emit (Success "Code Generated!");;
       emit (Markdown response);;
       append_history "Generation" gen_code_type gen_query gen_category response)
      (fun e => emit (Error ("Error: " +:+ e))).

(** Lines 876-896: the "Validate Code" button. *)
Definition validate_button (sv : Services)
    (code_input val_code_type val_arch : string) : M State unit :=
  if PyStr.is_empty code_input then emit (Warning "Please paste code to validate")
  else
    try_except
      (response ← run_agent sv "RENODE Code Validator"
                     ("Validate this " +:+ val_code_type +:+ " code for " +:+
                      val_arch +:+
                      " architecture and provide improvement suggestions:" +:+
                      nl +:+ nl +:+ code_input);
       emit (Markdown response);;
       append_history "Validation" val_code_type "Code validation" "validation"
                      response)
      (fun e => emit (Error ("Error: " +:+ e))).

End RenodePage.

(** What a respond handler leaves behind apart from the session: the disk
    is as the agent run left it, the index is untouched, and the agent
    run is the one external call, made before anything is shown. *)
Definition only_agent_call (sv : Services) (agent query : string)
    (before after : State) : Prop :=
  fs after = (agent_run sv agent query (fs before)).1 /\
  index after = index before /\
  exists shown,
    log after = log before ++ Call (AgentRun agent query) :: shown /\
    Forall (fun ev => forall c, ev <> Call c) shown.

(** * Facts *)

#[local] Arguments Ascii.eqb : simpl never.

(** ** Strings *)

Module PyStrFacts.

Lemma app_nil_l (s : string) : EmptyString +:+ s = s.
Proof. reflexivity. Qed.

Lemma app_cons (a : ascii) (s t : string) :
  String a s +:+ t = String a (s +:+ t).
Proof. reflexivity. Qed.

Ltac str_simpl := rewrite ?app_cons, ?app_nil_l in *.

Lemma app_nil_r (s : string) : s +:+ EmptyString = s.
Proof. induction s as [|a s IH]; str_simpl; [reflexivity | now f_equal]. Qed.

Lemma app_assoc (a b c : string) : (a +:+ b) +:+ c = a +:+ b +:+ c.
Proof. induction a as [|x a IH]; str_simpl; [reflexivity | now f_equal]. Qed.

Lemma length_app (a b : string) :
  String.length (a +:+ b) = String.length a + String.length b.
Proof.
  induction a as [|x a IH]; str_simpl; simpl; [reflexivity | now f_equal].
Qed.

Lemma startswith_spec (p s : string) :
  PyStr.startswith p s = true <-> exists post, s = p +:+ post.
Proof.
  revert s. induction p as [|a p IH]; intros s; simpl.
  - split; [intros _; now exists s | reflexivity].
  - destruct s as [|b s].
    + split; [discriminate | intros [post H]; discriminate].
    + destruct (Ascii.eqb_spec a b) as [->|Hne].
      * rewrite IH. split; intros [post H]; exists post; str_simpl.
        -- now rewrite H.
        -- now injection H.
      * split; [discriminate |].
        intros [post H]; str_simpl; injection H; congruence.
Qed.

Lemma contains_spec (needle hay : string) :
  PyStr.contains needle hay = true <-> PyStr.Substring needle hay.
Proof.
  unfold PyStr.Substring. induction hay as [|b hay IH]; simpl.
  - rewrite orb_false_r, startswith_spec. split.
    + intros [post H]. now exists EmptyString, post.
    + intros [pre [post H]]. destruct pre; [now exists post | discriminate].
  - rewrite orb_true_iff, startswith_spec, IH. split.
    + intros [[post H] | [pre [post H]]].
      * now exists EmptyString, post.
      * exists (String b pre), post. str_simpl. now rewrite H.
    + intros [pre [post H]]. destruct pre as [|c pre]; str_simpl.
      * left. now exists post.
      * right. exists pre, post. now injection H.
Qed.

Lemma has_char_app (c : ascii) (a b : string) :
  PyStr.has_char c (a +:+ b) = PyStr.has_char c a || PyStr.has_char c b.
Proof.
  induction a as [|x a IH]; str_simpl; simpl; [reflexivity|].
  now rewrite IH, orb_assoc.
Qed.

End PyStrFacts.

(** ** validate_test_syntax *)

Lemma validate_test_syntax_errors (test_code : string) :
  Pynvme.errors (Pynvme.validate_test_syntax test_code) =
    Pynvme.missing_error "pytest" "Missing import: pytest" test_code ++
    Pynvme.missing_error "pynvme" "Missing import: pynvme" test_code ++
    Pynvme.missing_error "def test_" "No test function found (should start with 'def test_')"
                  test_code.
Proof.
  unfold Pynvme.validate_test_syntax, Pynvme.missing_error. simpl.
  destruct (PyStr.contains "pytest" test_code),
           (PyStr.contains "pynvme" test_code),
           (PyStr.contains "def test_" test_code),
           (PyStr.contains "nvme" test_code),
           (PyStr.contains "subsystem" test_code),
           (PyStr.contains "assert" test_code); reflexivity.
Qed.

Lemma validate_test_syntax_is_valid (test_code : string) :
  Pynvme.is_valid (Pynvme.validate_test_syntax test_code) =
    PyStr.contains "pytest" test_code && PyStr.contains "pynvme" test_code &&
    PyStr.contains "def test_" test_code.
Proof.
  unfold Pynvme.validate_test_syntax. simpl.
  destruct (PyStr.contains "pytest" test_code),
           (PyStr.contains "pynvme" test_code),
           (PyStr.contains "def test_" test_code),
           (PyStr.contains "nvme" test_code),
           (PyStr.contains "subsystem" test_code),
           (PyStr.contains "assert" test_code); reflexivity.
Qed.

(** C9.  [validate_test_syntax] is a total function of its string argument;
    the result has [is_valid = true] exactly when the code contains all of
    "pytest", "pynvme" and "def test_"; and the [errors] list holds, in
    this order, one entry for each of the three that is missing and nothing
    else. *)
Theorem C9_validate_test_syntax_postcondition (test_code : string) :
  let r := Pynvme.validate_test_syntax test_code in
  (Pynvme.is_valid r = true <->
     PyStr.Substring "pytest" test_code /\
     PyStr.Substring "pynvme" test_code /\
     PyStr.Substring "def test_" test_code) /\
  Pynvme.errors r =
    Pynvme.missing_error "pytest" "Missing import: pytest" test_code ++
    Pynvme.missing_error "pynvme" "Missing import: pynvme" test_code ++
    Pynvme.missing_error "def test_" "No test function found (should start with 'def test_')"
                  test_code /\
  length (Pynvme.errors r) =
    length (filter (fun needle => PyStr.contains needle test_code = false)
                   ["pytest"; "pynvme"; "def test_"]).
Proof.
  cbv zeta. split; [|split].
  - rewrite validate_test_syntax_is_valid, !andb_true_iff,
      !PyStrFacts.contains_spec. tauto.
  - apply validate_test_syntax_errors.
  - rewrite validate_test_syntax_errors. unfold Pynvme.missing_error.
    rewrite !filter_cons, filter_nil.
    destruct (PyStr.contains "pytest" test_code),
             (PyStr.contains "pynvme" test_code),
             (PyStr.contains "def test_" test_code); reflexivity.
Qed.

(** ** The file system *)

Module FsFacts.
Import Fs.

Lemma extends_refl (w : t) : extends w w.
Proof. split; reflexivity. Qed.

Lemma extends_trans (w1 w2 w3 : t) :
  extends w1 w2 -> extends w2 w3 -> extends w1 w3.
Proof. intros [? ?] [? ?]. split; etrans; eauto. Qed.

Lemma is_dir_mono (w w' : t) (l : loc) :
  extends w w' -> is_dir w l = true -> is_dir w' l = true.
Proof.
  intros [_ Hd]. unfold is_dir. rewrite !orb_true_iff, !bool_decide_eq_true.
  intros [[?|?]|?]; auto.
Qed.

Lemma walk_mono (w w' : t) (comps : list string) (cur l : loc) :
  extends w w' -> walk w cur comps = Ok l -> walk w' cur comps = Ok l.
Proof.
  intros Hext. revert cur. induction comps as [|c rest IH]; intros cur; simpl.
  - auto.
  - destruct (is_dir w cur) eqn:Hdir; simpl; [|discriminate].
    rewrite (is_dir_mono _ _ _ Hext Hdir). simpl.
    repeat case_match; auto.
Qed.

Lemma resolve_mono (w w' : t) (p : string) (l : loc) :
  extends w w' -> resolve w p = Ok l -> resolve w' p = Ok l.
Proof.
  unfold resolve. intros Hext. repeat case_match; try discriminate.
  apply walk_mono, Hext.
Qed.

Lemma read_mono (w w' : t) (p data : string) :
  extends w w' -> read w p = Some data -> read w' p = Some data.
Proof.
  intros Hext. unfold read.
  destruct (resolve w p) as [l|] eqn:Hres; [|discriminate].
  rewrite (resolve_mono _ _ _ _ Hext Hres).
  destruct (files w !! l) as [f|] eqn:Hf; [|discriminate].
  destruct Hext as [Hfiles _].
  now rewrite (lookup_weaken _ _ _ _ Hf Hfiles).
Qed.

Lemma exists_mono (w w' : t) (p : string) :
  extends w w' -> exists_ w p = true -> exists_ w' p = true.
Proof.
  intros Hext. unfold exists_.
  destruct (resolve w p) as [l|] eqn:Hres; [|discriminate].
  rewrite (resolve_mono _ _ _ _ Hext Hres).
  rewrite !orb_true_iff. intros [Hd|Hf].
  - left. eapply is_dir_mono; eauto.
  - right. unfold is_file in *. rewrite bool_decide_eq_true in *.
    destruct Hf as [f Hf]. destruct Hext as [Hfiles _].
    exists f. eapply lookup_weaken; eauto.
Qed.

Lemma ensure_dir_extends (l : loc) (w : t) : extends w (ensure_dir l w).1.
Proof.
  unfold ensure_dir. repeat case_match; simpl; try apply extends_refl.
  split; simpl; [reflexivity | set_solver].
Qed.

Lemma mkdir_walk_extends (comps : list string) (cur : loc) (w : t) :
  extends w (mkdir_walk cur comps w).1.
Proof.
  revert cur w. induction comps as [|c rest IH]; intros cur w; simpl;
    pose proof (ensure_dir_extends cur w) as He;
    destruct (ensure_dir cur w) as [w1 [[]|e]]; simpl in *; auto.
  repeat case_match; eapply extends_trans; eauto.
Qed.

Lemma makedirs_extends (p : string) (w : t) : extends w (makedirs p w).1.
Proof.
  unfold makedirs. case_match; [apply extends_refl | apply mkdir_walk_extends].
Qed.

(** Writing to a path where nothing exists only adds a file. *)
Lemma open_write_new (p data : string) (w : t) :
  exists_ w p = false -> extends w (open_write p data w).1.
Proof.
  unfold exists_, open_write.
  destruct (resolve w p) as [l|] eqn:Hres; [|intros _; apply extends_refl].
  rewrite orb_false_iff. intros [Hd Hf]. rewrite Hd.
  unfold is_file in Hf. rewrite bool_decide_eq_false in Hf.
  destruct (files w !! l) as [f|] eqn:Hl; [exfalso; apply Hf; eauto|].
  split; simpl; [now apply insert_subseteq | reflexivity].
Qed.

End FsFacts.

(** ** Frame reasoning for the monad *)

Section Preserves.
Context (R : State -> State -> Prop) `{!PreOrder R}.

Lemma pres_ret {A} (a : A) : preserves R (ret a).
Proof. intros s. simpl. reflexivity. Qed.

Lemma pres_pure {A} (a : A) : preserves R (pure a).
Proof. apply pres_ret. Qed.

Lemma pres_skip : preserves R skip.
Proof. apply pres_ret. Qed.

Lemma pres_raise {A} (e : string) : preserves R (@raise State A e).
Proof. intros s. simpl. reflexivity. Qed.

Lemma pres_get : preserves R (@get State).
Proof. intros s. simpl. reflexivity. Qed.

Lemma pres_bind {A B} (m : M State A) (k : A -> M State B) :
  preserves R m -> (forall a, preserves R (k a)) -> preserves R (bind m k).
Proof.
  intros Hm Hk s. unfold bind. specialize (Hm s).
  destruct (m s) as [s1 [a|e]]; simpl in *; [|exact Hm].
  etrans; [exact Hm | apply Hk].
Qed.

Lemma pres_try {A} (m : M State A) (h : string -> M State A) :
  preserves R m -> (forall e, preserves R (h e)) -> preserves R (try_except m h).
Proof.
  intros Hm Hh s. unfold try_except. specialize (Hm s).
  destruct (m s) as [s1 [a|e]]; simpl in *; [exact Hm|].
  etrans; [exact Hm | apply Hh].
Qed.

Lemma pres_when (c : bool) (m : M State unit) :
  preserves R m -> preserves R (when c m).
Proof. intros Hm. destruct c; simpl; [exact Hm | apply pres_ret]. Qed.

Lemma pres_if {A} (c : bool) (m1 m2 : M State A) :
  preserves R m1 -> preserves R m2 -> preserves R (if c then m1 else m2).
Proof. now destruct c. Qed.

Lemma pres_for_each {A} (l : list A) (body : A -> M State unit) :
  (forall x, preserves R (body x)) -> preserves R (for_each l body).
Proof.
  intros Hb. induction l as [|x l IH]; simpl.
  - apply pres_ret.
  - apply pres_bind; auto.
Qed.

Lemma pres_modify (f : State -> State) :
  (forall s, R s (f s)) -> preserves R (modify f).
Proof. intros Hf s. apply Hf. Qed.

Lemma pres_on_fs {A} (op : Fs.t -> Fs.t * result A) :
  (forall s, R s (set_fs (op (fs s)).1 s)) -> preserves R (on_fs op).
Proof.
  intros Hop s. unfold on_fs. specialize (Hop s).
  now destruct (op (fs s)).
Qed.

Lemma pres_on_index {A} (op : VectorIndex.t -> VectorIndex.t * result A) :
  (forall s, R s (set_index (op (index s)).1 s)) -> preserves R (on_index op).
Proof.
  intros Hop s. unfold on_index. specialize (Hop s).
  now destruct (op (index s)).
Qed.

Lemma pres_exists (p : string) : preserves R (os_path_exists p).
Proof. intros s. simpl. reflexivity. Qed.

Lemma pres_now : preserves R datetime_now.
Proof. intros s. simpl. reflexivity. Qed.

End Preserves.

Global Instance fs_grows_po : PreOrder fs_grows.
Proof.
  split; [intros s; apply FsFacts.extends_refl|].
  intros s1 s2 s3. apply FsFacts.extends_trans.
Qed.
Global Instance same_fs_po : PreOrder same_fs.
Proof. split; unfold same_fs; [now intros s | intros s1 s2 s3; congruence]. Qed.
Global Instance same_session_po : PreOrder same_session.
Proof. split; unfold same_session; [now intros s | intros s1 s2 s3; congruence]. Qed.
Global Instance same_log_po : PreOrder same_log.
Proof. split; unfold same_log; [now intros s | intros s1 s2 s3; congruence]. Qed.
Global Instance same_index_po : PreOrder same_index.
Proof. split; unfold same_index; [now intros s | intros s1 s2 s3; congruence]. Qed.

(** Decompose a program into its primitives. *)
Ltac pres_step :=
  lazymatch goal with
  | |- preserves _ (on_fs _) => apply pres_on_fs
  | |- preserves _ (on_index _) => apply pres_on_index
  | |- preserves _ (modify _) => apply pres_modify
  | |- preserves _ (os_path_exists _) => apply pres_exists
  | |- preserves _ datetime_now => apply pres_now
  | |- preserves _ get => apply pres_get
  | |- preserves _ (raise _) => apply pres_raise
  | |- preserves _ (ret _) => apply pres_ret
  | |- preserves _ (pure _) => apply pres_pure
  | |- preserves _ skip => apply pres_skip
  | |- preserves _ (bind _ _) => apply pres_bind
  | |- preserves _ (try_except _ _) => apply pres_try
  | |- preserves _ (when _ _) => apply pres_when
  | |- preserves _ (for_each _ _) => apply pres_for_each
  | |- preserves _ (if _ then _ else _) => apply pres_if
  end.

Ltac pres_intro := repeat match goal with |- forall _, _ => intro end.

Ltac pres := repeat (pres_intro; pres_step); pres_intro; try typeclasses eauto.

Create HintDb frames.

Lemma fs_grows_same (s s' : State) : fs s = fs s' -> fs_grows s s'.
Proof. unfold fs_grows. intros <-. apply FsFacts.extends_refl. Qed.

#[export] Hint Resolve fs_grows_same : frames.
#[export] Hint Unfold same_fs same_session same_log same_index : frames.

Lemma emit_pres (R : State -> State -> Prop) (e : Event) :
  (forall s, R s (set_log (log s ++ [e]) s)) -> preserves R (emit e).
Proof. intros H. apply pres_modify, H. Qed.

Lemma makedirs_grows (p : string) : preserves fs_grows (os_makedirs p).
Proof.
  intros s. unfold os_makedirs, on_fs.
  pose proof (FsFacts.makedirs_extends p (fs s)) as H.
  now destruct (Fs.makedirs p (fs s)).
Qed.

Lemma store_grows (dir : string) (f : UploadedFile) :
  preserves fs_grows (store dir f).
Proof.
  intros s. unfold store, bind, os_path_exists. simpl.
  destruct (Fs.exists_ (fs s) (os_path_join dir (name f))) eqn:Hex; simpl.
  - apply FsFacts.extends_refl.
  - unfold write_file, on_fs.
    pose proof (FsFacts.open_write_new _ (getbuffer f) _ Hex) as H.
    destruct (Fs.open_write _ _ _) as [w [[]|e]]; exact H.
Qed.

Lemma store_batch_grows (dir : string) (batch : list UploadedFile) (updated : bool) :
  preserves fs_grows (store_batch dir batch updated).
Proof.
  revert updated. induction batch as [|f rest IH]; intros updated; simpl.
  - apply pres_pure; apply _.
  - apply pres_bind; [apply _ | apply store_grows | intros; apply IH].
Qed.

(** Loading a knowledge base touches neither the disk nor the session. *)
Lemma kb_load_same_fs (sv : Services) (kb : KnowledgeBase) (recreate upsert : bool) :
  preserves same_fs (kb_load sv kb recreate upsert).
Proof.
  unfold kb_load, kb_load_doc.
  pres; try apply emit_pres; try (case_match; pres); auto with frames.
Qed.

Lemma preserves_weaken {A} (R R' : State -> State -> Prop) (m : M State A) :
  (forall s s', R s s' -> R' s s') -> preserves R m -> preserves R' m.
Proof. intros HR Hm s. apply HR, Hm. Qed.

Lemma kb_load_grows (sv : Services) (kb : KnowledgeBase) (recreate upsert : bool) :
  preserves fs_grows (kb_load sv kb recreate upsert).
Proof.
  eapply preserves_weaken; [|apply kb_load_same_fs].
  intros s s'. apply fs_grows_same.
Qed.

Ltac grows :=
  pres;
  try apply emit_pres; try apply makedirs_grows; try apply store_batch_grows;
  try apply kb_load_grows; intros; auto with frames.

Lemma code_reviewer_upload_grows (sv : Services) (code_files doc_files : list UploadedFile) :
  preserves fs_grows (CodeReviewer.upload_section sv code_files doc_files).
Proof.
  unfold CodeReviewer.upload_section, CodeReviewer.ensure_dirs,
    CodeReviewer.store_uploads, CodeReviewer.load_if_updated,
    CodeReviewer.set_cleared.
  grows.
Qed.

Lemma pynvme_upload_grows (sv : Services) (doc_files : list UploadedFile) (clicked : bool) :
  preserves fs_grows (Pynvme.sidebar_upload sv doc_files clicked).
Proof. unfold Pynvme.sidebar_upload, Pynvme.set_loaded. grows. Qed.

Lemma renode_upload_grows (sv : Services) (doc_files : list UploadedFile) (clicked : bool) :
  preserves fs_grows (Renode.sidebar_upload sv doc_files clicked).
Proof. unfold Renode.sidebar_upload, Renode.set_loaded. grows. Qed.

Lemma grows_first_write_wins (section : M State unit) :
  preserves fs_grows section -> FirstWriteWins section.
Proof. intros H s p data. apply FsFacts.read_mono, H. Qed.

(** ** Plain names and the paths built from them *)

Lemma split_slash_plain (n : string) :
  PyStr.has_char Fs.slash n = false -> Fs.split_slash n = [n].
Proof.
  induction n as [|c n IH]; simpl; [reflexivity|].
  rewrite orb_false_iff. intros [Hc Hn]. rewrite Hc, (IH Hn). reflexivity.
Qed.

Lemma split_slash_app (a b : string) :
  PyStr.has_char Fs.slash a = false ->
  Fs.split_slash (a +:+ String Fs.slash b) = a :: Fs.split_slash b.
Proof.
  induction a as [|c a IH]; simpl.
  - intros _. reflexivity.
  - rewrite orb_false_iff. intros [Hc Ha].
    rewrite Hc, (IH Ha). reflexivity.
Qed.

Lemma endswith_slash (d : string) :
  PyStr.has_char Fs.slash d = false -> endswith "/" d = false.
Proof.
  induction d as [|c d IH]; simpl; [intros _; reflexivity|].
  rewrite orb_false_iff. intros [Hc Hd]. rewrite (IH Hd), orb_false_r.
  apply bool_decide_eq_false. intros E. injection E as -> ->.
  discriminate.
Qed.

Lemma join_plain (d n : string) :
  plain_name d -> plain_name n -> os_path_join d n = d +:+ String Fs.slash n.
Proof.
  intros (Hd0 & _ & _ & Hds & _) (Hn0 & _ & _ & Hns & _). unfold os_path_join.
  destruct n as [|c n]; [congruence|]. simpl in Hns |- *.
  rewrite orb_false_iff in Hns. destruct Hns as [Hc _].
  rewrite Ascii.eqb_sym in Hc. unfold Fs.slash in Hc.
  rewrite Hc. rewrite (endswith_slash d Hds), orb_false_r.
  destruct d; [congruence|]. reflexivity.
Qed.

Lemma start_plain (d rest : string) :
  plain_name d -> Fs.start (d +:+ rest) = [] /\ PyStr.is_empty (d +:+ rest) = false.
Proof.
  intros (Hd0 & _ & _ & Hds & _). destruct d as [|c d]; [congruence|].
  simpl in Hds. rewrite orb_false_iff in Hds. destruct Hds as [Hc _].
  rewrite Ascii.eqb_sym in Hc. unfold Fs.start. rewrite PyStrFacts.app_cons. simpl.
  unfold Fs.slash in Hc. now rewrite Hc.
Qed.

Lemma walk_push (w : Fs.t) (cur : Fs.loc) (c : string) (rest : list string) :
  c <> EmptyString -> c <> "." -> c <> ".." ->
  Fs.walk w cur (c :: rest) =
    if Fs.is_dir w cur then Fs.walk w (c :: cur) rest
    else Raise (if Fs.is_file w cur then "NotADirectoryError" else "FileNotFoundError").
Proof.
  intros H0 H1 H2. cbn [Fs.walk]. unfold Fs.is_dotdot.
  rewrite !bool_decide_eq_false_2 by congruence.
  now destruct (Fs.is_dir w cur).
Qed.

Lemma resolve_plain (w : Fs.t) (d n : string) :
  plain_name d -> plain_name n ->
  Fs.resolve w (os_path_join d n) =
    if Fs.is_dir w [d] then Ok [n; d]
    else Raise (if Fs.is_file w [d] then "NotADirectoryError" else "FileNotFoundError").
Proof.
  intros Hd Hn. rewrite (join_plain d n Hd Hn).
  destruct (start_plain d (String Fs.slash n) Hd) as [Hstart Hempty].
  destruct Hd as (Hd0 & Hd1 & Hd2 & Hds & Hdn), Hn as (Hn0 & Hn1 & Hn2 & Hns & Hnn).
  unfold Fs.resolve.
  rewrite PyStrFacts.has_char_app, Hdn, Hempty, Hstart.
  replace (PyStr.has_char Fs.nul (String Fs.slash n)) with false
    by (simpl; now rewrite Hnn).
  rewrite (split_slash_app d n Hds), (split_slash_plain n Hns).
  cbn [orb].
  rewrite (walk_push w [] d [n] Hd0 Hd1 Hd2).
  replace (Fs.is_dir w []) with true by reflexivity.
  rewrite (walk_push w [d] n [] Hn0 Hn1 Hn2).
  reflexivity.
Qed.

(** ** Upload: first write wins (C1) *)

Lemma store_existing (dir : string) (f : UploadedFile) (s : State) :
  Fs.exists_ (fs s) (os_path_join dir (name f)) = true ->
  store dir f s = (s, Ok false).
Proof. intros H. unfold store, bind, os_path_exists. now rewrite H. Qed.

Lemma store_new (dir : string) (f : UploadedFile) (s : State) :
  plain_name dir -> plain_name (name f) ->
  Fs.is_dir (fs s) [dir] = true ->
  Fs.exists_ (fs s) (os_path_join dir (name f)) = false ->
  let s' := set_fs (Fs.mk (<[[name f; dir] := Fs.mkFile Fs.Writable (getbuffer f)]>
                             (Fs.files (fs s)))
                          (Fs.dirs (fs s))) s in
  store dir f s = (s', Ok true) /\
  Fs.read (fs s') (os_path_join dir (name f)) = Some (getbuffer f) /\
  Fs.exists_ (fs s') (os_path_join dir (name f)) = true.
Proof.
  intros Hd Hn Hdir Hex s'.
  pose proof (resolve_plain (fs s) dir (name f) Hd Hn) as Hres.
  rewrite Hdir in Hres.
  assert (Hres' : Fs.resolve (fs s') (os_path_join dir (name f)) = Ok [name f; dir]).
  { rewrite (resolve_plain (fs s') dir (name f) Hd Hn).
    replace (Fs.is_dir (fs s') [dir]) with (Fs.is_dir (fs s) [dir]) by reflexivity.
    now rewrite Hdir. }
  unfold Fs.exists_ in Hex. rewrite Hres in Hex.
  apply orb_false_iff in Hex. destruct Hex as [Hnd Hnf].
  unfold Fs.is_file in Hnf. rewrite bool_decide_eq_false in Hnf.
  assert (Hnone : Fs.files (fs s) !! [name f; dir] = None).
  { destruct (Fs.files (fs s) !! [name f; dir]) eqn:E; [|reflexivity].
    exfalso. apply Hnf. eauto. }
  split; [|split].
  - unfold store, bind, os_path_exists, write_file, on_fs, Fs.exists_, Fs.open_write.
    rewrite Hres. unfold Fs.is_file. rewrite Hnd, Hnone.
    rewrite bool_decide_eq_false_2 by (intros [? ?]; discriminate).
    cbn [negb orb]. rewrite Hres, Hnd, Hnone. reflexivity.
  - unfold Fs.read. rewrite Hres'. subst s'. simpl.
    now rewrite lookup_insert_eq.
  - unfold Fs.exists_. rewrite Hres'. apply orb_true_iff. right.
    unfold Fs.is_file. apply bool_decide_eq_true. subst s'. simpl.
    rewrite lookup_insert_eq. eauto.
Qed.

(** C1 (as the guarded upload loops have it).  In the upload loops of
    code-reviewer.py, pynvme.py and renode.py, whose body is [store]:
    storing a name that is on disk changes nothing and reports
    written = false; the first store of a new plain name into an existing
    upload directory writes the bytes and reports written = true, and any
    later store of that name, with any bytes, is again a no-op; and no run
    of these upload sections changes the content of a file that is on
    disk. *)
Theorem C1_guarded_upload_first_write_wins
    (sv : Services) (dir : string) (f : UploadedFile) (s : State) :
  let path := os_path_join dir (name f) in
  (Fs.exists_ (fs s) path = true -> store dir f s = (s, Ok false)) /\
  (plain_name dir -> plain_name (name f) -> Fs.is_dir (fs s) [dir] = true ->
   Fs.exists_ (fs s) path = false ->
   exists s',
     store dir f s = (s', Ok true) /\
     Fs.read (fs s') path = Some (getbuffer f) /\
     forall bytesB, store dir (mkUpload (name f) bytesB) s' = (s', Ok false)) /\
  (forall code_files doc_files,
     FirstWriteWins (CodeReviewer.upload_section sv code_files doc_files)) /\
  (forall doc_files clicked,
     FirstWriteWins (Pynvme.sidebar_upload sv doc_files clicked)) /\
  (forall doc_files clicked,
     FirstWriteWins (Renode.sidebar_upload sv doc_files clicked)).
Proof.
  cbv zeta. split; [|split; [|split; [|split]]].
  - apply store_existing.
  - intros Hd Hn Hdir Hex.
    destruct (store_new dir f s Hd Hn Hdir Hex) as (Hst & Hrd & Hex').
    eexists. split; [exact Hst|]. split; [exact Hrd|].
    intros bytesB. now apply store_existing.
  - intros. apply grows_first_write_wins, code_reviewer_upload_grows.
  - intros. apply grows_first_write_wins, pynvme_upload_grows.
  - intros. apply grows_first_write_wins, renode_upload_grows.
Qed.

Lemma plain_name_intro (n : string) :
  (bool_decide (n <> EmptyString) && bool_decide (n <> ".") && bool_decide (n <> "..") &&
   negb (PyStr.has_char Fs.slash n) && negb (PyStr.has_char Fs.nul n)) = true ->
  plain_name n.
Proof.
  rewrite !andb_true_iff, !bool_decide_eq_true, !negb_true_iff.
  unfold plain_name. tauto.
Qed.

(** The first upload of [driver.c] into the freshly created
    [uploaded_code] writes it; uploading other bytes under the same name
    leaves it alone. *)
Lemma C1_guarded_upload_first_write_wins_witness :
  let s0 := (CodeReviewer.ensure_dirs Examples.state0).1 in
  exists s',
    store "uploaded_code" (mkUpload "driver.c" "int a;") s0 = (s', Ok true) /\
    Fs.read (fs s') "uploaded_code/driver.c" = Some "int a;" /\
    forall bytesB,
      store "uploaded_code" (mkUpload "driver.c" bytesB) s' = (s', Ok false).
Proof.
  cbv zeta.
  apply (C1_guarded_upload_first_write_wins Examples.echo "uploaded_code"
           (mkUpload "driver.c" "int a;")).
  - apply plain_name_intro. vm_compute. reflexivity.
  - apply plain_name_intro. vm_compute. reflexivity.
  - vm_compute. reflexivity.
  - vm_compute. reflexivity.
Defined.

(** C1 fails for code-analysis.py, whose upload loop opens every uploaded
    file for writing without looking at the disk: the second upload of
    [driver.c] replaces the bytes of the first. *)
Lemma C1_counterexample :
  let first := CodeAnalysis.upload_section Examples.echo [mkUpload "driver.c" "int a;"] in
  let again := CodeAnalysis.upload_section Examples.echo [mkUpload "driver.c" "int b;"] in
  let s1 := (first Examples.state0).1 in
  let s2 := (again s1).1 in
  Fs.read (fs s1) "uploaded_code/driver.c" = Some "int a;" /\
  Fs.read (fs s2) "uploaded_code/driver.c" = Some "int b;" /\
  ~ FirstWriteWins again.
Proof.
  cbv zeta. split; [vm_compute; reflexivity|]. split; [vm_compute; reflexivity|].
  intros H.
  specialize (H (CodeAnalysis.upload_section Examples.echo
                   [mkUpload "driver.c" "int a;"] Examples.state0).1
                "uploaded_code/driver.c" "int a;").
  vm_compute in H. specialize (H eq_refl). discriminate.
Qed.

(** ** Ingestion is triggered by a write (C2) *)

Global Instance log_grows_po : PreOrder log_grows.
Proof.
  split.
  - intros s. exists []. now rewrite app_nil_r.
  - intros s1 s2 s3 [p1 H1] [p2 H2]. exists (p1 ++ p2).
    now rewrite H2, H1, app_assoc.
Qed.

Lemma log_grows_same (s s' : State) : log s = log s' -> log_grows s s'.
Proof. intros H. exists []. now rewrite app_nil_r. Qed.

#[export] Hint Resolve log_grows_same : frames.

Lemma emit_grows (e : Event) : preserves log_grows (emit e).
Proof. apply emit_pres. intros s. now exists [e]. Qed.

Ltac logs :=
  pres; try apply emit_grows; intros; try (apply log_grows_same; reflexivity).

Lemma new_events_app (s s' : State) (evs : list Event) :
  log s' = log s ++ evs -> new_events s s' = evs.
Proof. intros H. unfold new_events. rewrite H. apply drop_app_length. Qed.

Lemma new_events_same (s s' : State) : log s' = log s -> new_events s s' = [].
Proof. intros H. apply new_events_app. now rewrite app_nil_r. Qed.

Lemma starts_emit (e : Event) : starts_with e (emit e).
Proof. intros s. now exists []. Qed.

Lemma starts_bind {A B} (e : Event) (m : M State A) (k : A -> M State B) :
  starts_with e m -> (forall a, preserves log_grows (k a)) ->
  starts_with e (bind m k).
Proof.
  intros Hm Hk s. unfold bind. destruct (Hm s) as [post Hpost].
  destruct (m s) as [s1 [a|x]]; simpl in *; [|eauto].
  destruct (Hk a s1) as [post' Hpost']. exists (post ++ post').
  rewrite Hpost', Hpost. now rewrite <- app_assoc.
Qed.

Lemma starts_try {A} (e : Event) (m : M State A) (h : string -> M State A) :
  starts_with e m -> (forall x, preserves log_grows (h x)) ->
  starts_with e (try_except m h).
Proof.
  intros Hm Hh s. unfold try_except. destruct (Hm s) as [post Hpost].
  destruct (m s) as [s1 [a|x]]; simpl in *; [eauto|].
  destruct (Hh x s1) as [post' Hpost']. exists (post ++ post').
  rewrite Hpost', Hpost. now rewrite <- app_assoc.
Qed.

Lemma kb_load_grows_log (sv : Services) (kb : KnowledgeBase) (recreate upsert : bool) :
  preserves log_grows (kb_load sv kb recreate upsert).
Proof. unfold kb_load, kb_load_doc. logs; case_match; logs. Qed.

Lemma kb_load_starts (sv : Services) (kb : KnowledgeBase) (recreate upsert : bool) :
  starts_with (Call (KbLoad (kb_name kb) recreate upsert))
              (kb_load sv kb recreate upsert).
Proof.
  unfold kb_load. apply starts_bind; [apply starts_emit|].
  unfold kb_load_doc. logs; case_match; logs.
Qed.

(** The guarded loop leaves everything but the disk alone, and leaves the
    disk alone too unless it reports a write. *)
Lemma store_false (dir : string) (f : UploadedFile) (s s' : State) :
  store dir f s = (s', Ok false) -> s' = s.
Proof.
  unfold store, bind, os_path_exists. simpl.
  destruct (Fs.exists_ (fs s) (os_path_join dir (name f))); simpl.
  - now intros [= <-].
  - destruct (write_file _ _ s) as [s1 [[]|e]]; simpl; discriminate.
Qed.

Lemma store_batch_false (dir : string) (batch : list UploadedFile) (u : bool)
    (s s' : State) :
  store_batch dir batch u s = (s', Ok false) -> s' = s /\ u = false.
Proof.
  revert u s. induction batch as [|f rest IH]; intros u s; simpl.
  - unfold pure, ret. now intros [= <- <-].
  - unfold bind. destruct (store dir f s) as [s1 [w|e]] eqn:Hst; [|discriminate].
    intros H. apply IH in H. destruct H as [-> Hu].
    apply orb_false_iff in Hu. destruct Hu as [-> ->].
    split; [|reflexivity]. now apply store_false in Hst.
Qed.

Lemma store_batch_flag (dir : string) (batch : list UploadedFile) (u b : bool)
    (s s' : State) :
  store_batch dir batch u s = (s', Ok b) ->
  b = u || existsb (fun f => negb (on_disk dir (fs s) f)) batch.
Proof.
  revert u s. induction batch as [|f rest IH]; intros u s; simpl.
  - unfold pure, ret. intros [= _ <-]. now rewrite orb_false_r.
  - unfold bind, on_disk. destruct (store dir f s) as [s1 [w|e]] eqn:Hst; [|discriminate].
    intros H. pose proof (IH _ _ H) as Hb.
    unfold store, bind, os_path_exists in Hst. simpl in Hst.
    destruct (Fs.exists_ (fs s) (os_path_join dir (name f))); simpl in *.
    + injection Hst as <- <-. now rewrite orb_false_r in Hb.
    + destruct (write_file _ _ s) as [s2 [[]|e]]; simpl in Hst; [|discriminate].
      injection Hst as <- <-. rewrite Hb.
      now rewrite !orb_true_r.
Qed.

Lemma store_batch_duplicates (dir : string) (batch : list UploadedFile) (u : bool)
    (s : State) :
  (forall f, f ∈ batch -> on_disk dir (fs s) f = true) ->
  store_batch dir batch u s = (s, Ok u).
Proof.
  revert u. induction batch as [|f rest IH]; intros u Hall; simpl; [reflexivity|].
  unfold bind. rewrite store_existing by (apply Hall; left).
  rewrite orb_false_r. apply IH. intros g Hg. apply Hall. now right.
Qed.

Lemma store_batch_same_log (dir : string) (batch : list UploadedFile) (u : bool) :
  preserves same_log (store_batch dir batch u).
Proof.
  revert u. induction batch as [|f rest IH]; intros u; simpl.
  - apply pres_pure; apply _.
  - apply pres_bind; [apply _ | | intros; apply IH].
    unfold store, write_file. pres; reflexivity.
Qed.

Global Instance confirms_po : PreOrder confirms.
Proof.
  split.
  - intros s. exists []. split; [now rewrite app_nil_r | constructor].
  - intros s1 s2 s3 (p1 & H1 & F1) (p2 & H2 & F2). exists (p1 ++ p2). split.
    + now rewrite H2, H1, app_assoc.
    + now apply Forall_app.
Qed.

Lemma confirms_same (s s' : State) : log s = log s' -> confirms s s'.
Proof. intros H. exists []. split; [now rewrite app_nil_r | constructor]. Qed.

Lemma store_batch_confirms (dir : string) (batch : list UploadedFile) (u : bool) :
  preserves confirms (store_batch dir batch u).
Proof.
  eapply preserves_weaken; [|apply store_batch_same_log].
  intros s s'. apply confirms_same.
Qed.

Lemma emit_success_confirms (msg : string) : preserves confirms (emit (Success msg)).
Proof.
  apply emit_pres. intros s. exists [Success msg]. split; [reflexivity|].
  now repeat constructor.
Qed.

Lemma store_uploads_confirms (code_files doc_files : list UploadedFile) :
  preserves confirms (CodeReviewer.store_uploads code_files doc_files).
Proof.
  unfold CodeReviewer.store_uploads.
  pres; try apply store_batch_confirms; try apply emit_success_confirms.
Qed.

Lemma nonempty_false {A} (l : list A) : nonempty l = false -> l = [].
Proof. now destruct l. Qed.

Lemma when_true (m : M State unit) : when true m = m.
Proof. reflexivity. Qed.

Lemma store_uploads_flag (code_files doc_files : list UploadedFile) (s s' : State)
    (b : bool) :
  CodeReviewer.store_uploads code_files doc_files s = (s', Ok b) ->
  b = has_new (fs s) code_files doc_files /\ (b = false -> s' = s).
Proof.
  unfold CodeReviewer.store_uploads, has_new, bind.
  (* the code files *)
  destruct (nonempty code_files) eqn:Hc.
  - destruct (store_batch "uploaded_code" code_files false s) as [s1 [fu|e]] eqn:Hsb;
      [|discriminate].
    pose proof (store_batch_flag _ _ _ _ _ _ Hsb) as Hfu. simpl in Hfu.
    destruct fu.
    + (* something was written: the flag stays up *)
      rewrite <- Hfu. simpl.
      destruct (nonempty doc_files).
      * destruct (store_batch "uploaded_docs" doc_files false _) as [s2 [du|e]];
          [|discriminate].
        destruct du; simpl; intros [= <- <-]; (split; [reflexivity|discriminate]).
      * simpl. intros [= <- <-]. split; [reflexivity|discriminate].
    + apply store_batch_false in Hsb. destruct Hsb as [-> _].
      rewrite <- Hfu. simpl.
      destruct (nonempty doc_files) eqn:Hd.
      * destruct (store_batch "uploaded_docs" doc_files false s) as [s2 [du|e]] eqn:Hsd;
          [|discriminate].
        pose proof (store_batch_flag _ _ _ _ _ _ Hsd) as Hdu. simpl in Hdu.
        destruct du; simpl; intros [= <- <-].
        -- split; [exact Hdu | discriminate].
        -- apply store_batch_false in Hsd. destruct Hsd as [-> _].
           split; [exact Hdu | reflexivity].
      * simpl. intros [= <- <-]. rewrite (nonempty_false _ Hd). now split.
  - rewrite (nonempty_false _ Hc). simpl.
    destruct (nonempty doc_files) eqn:Hd.
    + destruct (store_batch "uploaded_docs" doc_files false s) as [s2 [du|e]] eqn:Hsd;
        [|discriminate].
      pose proof (store_batch_flag _ _ _ _ _ _ Hsd) as Hdu. simpl in Hdu.
      destruct du; simpl; intros [= <- <-].
      * split; [exact Hdu | discriminate].
      * apply store_batch_false in Hsd. destruct Hsd as [-> _].
        split; [exact Hdu | reflexivity].
    + simpl. intros [= <- <-]. rewrite (nonempty_false _ Hd). now split.
Qed.

Lemma has_new_nonempty (w : Fs.t) (code_files doc_files : list UploadedFile) :
  has_new w code_files doc_files = true ->
  nonempty code_files = true \/ nonempty doc_files = true.
Proof.
  unfold has_new. destruct code_files, doc_files; simpl; auto.
Qed.

Lemma load_if_updated_starts (sv : Services) (code_files doc_files : list UploadedFile)
    (s : State) :
  nonempty code_files = true \/ nonempty doc_files = true ->
  exists kb post,
    log (CodeReviewer.load_if_updated sv code_files doc_files true s).1 =
      log s ++ Call (KbLoad kb false true) :: post.
Proof.
  intros Hne. unfold CodeReviewer.load_if_updated. rewrite when_true.
  destruct (nonempty code_files) eqn:Hc.
  - exists "code_knowledge".
    apply (starts_try _ _ _); [|intros; logs].
    apply starts_bind; [apply (kb_load_starts sv CodeReviewer.code_knowledge)|].
    intros. logs. apply kb_load_grows_log.
  - destruct Hne as [Hne|Hd]; [discriminate|]. rewrite Hd.
    exists "docs_knowledge".
    apply (starts_try _ _ _); [|intros; logs].
    unfold when at 1.
    intros s0. unfold bind at 1. simpl.
    assert (H : starts_with (Call (KbLoad "docs_knowledge" false true))
                  (bind (when true (kb_load sv CodeReviewer.docs_knowledge false true))
                        (fun _ => emit (Success "Knowledge base updated!")))).
    { apply starts_bind; [apply (kb_load_starts sv CodeReviewer.docs_knowledge)|].
      intros. logs. }
    apply H.
Qed.

Lemma ensure_dirs_same_log : preserves same_log CodeReviewer.ensure_dirs.
Proof. unfold CodeReviewer.ensure_dirs, os_makedirs. pres; reflexivity. Qed.

Lemma ensure_dirs_grows : preserves fs_grows CodeReviewer.ensure_dirs.
Proof. unfold CodeReviewer.ensure_dirs. grows. Qed.

Lemma store_uploads_duplicates (code_files doc_files : list UploadedFile) (s : State) :
  (forall f, f ∈ code_files -> on_disk "uploaded_code" (fs s) f = true) ->
  (forall f, f ∈ doc_files -> on_disk "uploaded_docs" (fs s) f = true) ->
  CodeReviewer.store_uploads code_files doc_files s = (s, Ok false).
Proof.
  intros Hc Hd. unfold CodeReviewer.store_uploads, bind.
  destruct (nonempty code_files); destruct (nonempty doc_files);
    rewrite ?(store_batch_duplicates _ _ _ _ Hc); simpl;
    rewrite ?(store_batch_duplicates _ _ _ _ Hd); reflexivity.
Qed.

(** The state in which the upload loops of code-reviewer.py start. *)
Lemma upload_section_unfold (sv : Services) (code_files doc_files : list UploadedFile)
    (s : State) :
  let s0 := (CodeReviewer.ensure_dirs s).1 in
  let s1 := if kb_cleared (session s0)
            then set_session (mkSession (review_history (session s0))
                                (generation_history (session s0)) false
                                (kb_loaded (session s0)) (uploader_key (session s0))) s0
            else s0 in
  CodeReviewer.upload_section sv code_files doc_files s =
    match (CodeReviewer.ensure_dirs s).2 with
    | Raise e => (s0, Raise e)
    | Ok _ =>
        match CodeReviewer.store_uploads code_files doc_files s1 with
        | (s2, Ok b) => CodeReviewer.load_if_updated sv code_files doc_files b s2
        | (s2, Raise e) => (s2, Raise e)
        end
    end.
Proof.
  cbv zeta. unfold CodeReviewer.upload_section, bind at 1.
  destruct (CodeReviewer.ensure_dirs s) as [s0 [[]|e]]; simpl; [|reflexivity].
  unfold bind at 1. simpl. unfold bind at 1.
  destruct (kb_cleared (session s0)); simpl; reflexivity.
Qed.

Lemma upload_section_outcome (sv : Services) (code_files doc_files : list UploadedFile)
    (s : State) :
  let s0 := (CodeReviewer.ensure_dirs s).1 in
  let out := CodeReviewer.upload_section sv code_files doc_files s in
  let evs := new_events s out.1 in
  (Forall (fun e => is_success e = true) evs /\
   (out.2 = Ok tt -> has_new (fs s0) code_files doc_files = false /\ evs = [])) \/
  (has_new (fs s0) code_files doc_files = true /\
   exists pre kb post,
     evs = pre ++ Call (KbLoad kb false true) :: post /\
     Forall (fun e => is_success e = true) pre).
Proof.
  cbv zeta. rewrite upload_section_unfold.
  pose proof (ensure_dirs_same_log s) as Hlog0. unfold same_log in Hlog0.
  destruct (CodeReviewer.ensure_dirs s) as [s0 [[]|e]]; simpl in *.
  2:{ left. rewrite (new_events_same s s0) by auto. split; [constructor|discriminate]. }
  set (s1 := if kb_cleared (session s0) then _ else s0).
  assert (Hfs1 : fs s1 = fs s0) by (subst s1; now destruct (kb_cleared (session s0))).
  assert (Hlog1 : log s1 = log s)
    by (subst s1; destruct (kb_cleared (session s0)); simpl; congruence).
  destruct (store_uploads_confirms code_files doc_files s1) as (pre & Hpre & Fpre).
  destruct (CodeReviewer.store_uploads code_files doc_files s1) as [s2 [b|e]] eqn:Hst;
    simpl in *.
  2:{ left. rewrite (new_events_app s s2 pre) by congruence.
      split; [exact Fpre | discriminate]. }
  destruct (store_uploads_flag _ _ _ _ _ Hst) as [Hb Hsame]. rewrite Hfs1 in Hb.
  destruct b.
  - right. split; [now symmetry|].
    destruct (load_if_updated_starts sv code_files doc_files s2
                (has_new_nonempty _ _ _ (eq_sym Hb))) as (kb & post & Hpost).
    exists pre, kb, post. split; [|exact Fpre].
    apply new_events_app. rewrite Hpost, Hpre, Hlog1. now rewrite <- app_assoc.
  - left. rewrite (Hsame eq_refl). simpl.
    rewrite (new_events_same s s1) by congruence.
    split; [constructor|]. intros _. split; [now symmetry | reflexivity].
Qed.

(** C2 (as code-reviewer.py has it).  For every page run of the upload
    section: when every uploaded name is already on disk, nothing is shown
    and no knowledge-base load is made; a load is made only if the batch
    brings a name that is not on disk when the loops start; and when the
    run completes and the batch brings such a name, a load with
    recreate = false and upsert = true follows in the same run, preceded
    only by the upload confirmations. *)
Theorem C2_code_reviewer_load_iff_written
    (sv : Services) (code_files doc_files : list UploadedFile) (s : State) :
  let s0 := (CodeReviewer.ensure_dirs s).1 in
  let out := CodeReviewer.upload_section sv code_files doc_files s in
  let evs := new_events s out.1 in
  ((forall f, f ∈ code_files -> on_disk "uploaded_code" (fs s) f = true) ->
   (forall f, f ∈ doc_files -> on_disk "uploaded_docs" (fs s) f = true) ->
   evs = []) /\
  (forall e, e ∈ evs -> is_load e = true ->
   has_new (fs s0) code_files doc_files = true) /\
  (out.2 = Ok tt -> has_new (fs s0) code_files doc_files = true ->
   exists pre kb post,
     evs = pre ++ Call (KbLoad kb false true) :: post /\
     Forall (fun e => is_success e = true) pre).
Proof.
  cbv zeta. split; [|split].
  - intros Hc Hd. rewrite upload_section_unfold.
    pose proof (ensure_dirs_same_log s) as Hlog0. unfold same_log in Hlog0.
    pose proof (ensure_dirs_grows s) as Hgrow. unfold fs_grows in Hgrow.
    destruct (CodeReviewer.ensure_dirs s) as [s0 [[]|e]]; simpl in *.
    2:{ now apply new_events_same. }
    set (s1 := if kb_cleared (session s0) then _ else s0).
    assert (Hfs1 : fs s1 = fs s0) by (subst s1; now destruct (kb_cleared (session s0))).
    assert (Hlog1 : log s1 = log s)
      by (subst s1; destruct (kb_cleared (session s0)); simpl; congruence).
    rewrite store_uploads_duplicates.
    + simpl. now apply new_events_same.
    + intros f Hf. unfold on_disk. rewrite Hfs1.
      eapply FsFacts.exists_mono; [exact Hgrow | now apply Hc].
    + intros f Hf. unfold on_disk. rewrite Hfs1.
      eapply FsFacts.exists_mono; [exact Hgrow | now apply Hd].
  - intros e He Hload.
    destruct (upload_section_outcome sv code_files doc_files s) as [[Hall _]|[Hnew _]];
      [|exact Hnew].
    rewrite Forall_forall in Hall. specialize (Hall e He).
    destruct e; simpl in *; discriminate.
  - intros Hok Hnew.
    destruct (upload_section_outcome sv code_files doc_files s) as [[_ Hno]|[_ H]];
      [|exact H].
    destruct (Hno Hok) as [Hfalse _]. congruence.
Qed.

(** Uploading [driver.c] again, while it is on disk, shows nothing and
    loads nothing. *)
Lemma C2_code_reviewer_load_iff_written_witness :
  let s1 := (CodeReviewer.upload_section Examples.echo
               [mkUpload "driver.c" "int a;"] [] Examples.state0).1 in
  new_events s1 (CodeReviewer.upload_section Examples.echo
                   [mkUpload "driver.c" "int b;"] [] s1).1 = [].
Proof.
  cbv zeta.
  apply (C2_code_reviewer_load_iff_written Examples.echo
           [mkUpload "driver.c" "int b;"] []).
  - intros f Hf. apply list_elem_of_singleton in Hf. subst f.
    vm_compute. reflexivity.
  - intros f Hf. inversion Hf.
Defined.

(** C2 fails for code-analysis.py, which loads the knowledge base after
    every non-empty batch: uploading [driver.c] while it is on disk still
    makes a load. *)
Lemma C2_counterexample :
  let first := CodeAnalysis.upload_section Examples.echo [mkUpload "driver.c" "int a;"] in
  let s1 := (first Examples.state0).1 in
  let s2 := (first s1).1 in
  on_disk "uploaded_code" (fs s1) (mkUpload "driver.c" "int a;") = true /\
  new_events s1 s2 =
    [Success "Uploaded 1 code file(s)";
     Call (KbLoad "code_knowledge" false true);
     Success "Knowledge base updated!"] /\
  ~ NoLoadForDuplicates "uploaded_code" (CodeAnalysis.upload_section Examples.echo).
Proof.
  cbv zeta. split; [vm_compute; reflexivity|]. split; [vm_compute; reflexivity|].
  intros H.
  specialize (H (CodeAnalysis.upload_section Examples.echo
                   [mkUpload "driver.c" "int a;"] Examples.state0).1
                [mkUpload "driver.c" "int a;"]).
  assert (Hall : forall f, f ∈ [mkUpload "driver.c" "int a;"] ->
            Fs.exists_ (fs (CodeAnalysis.upload_section Examples.echo
                              [mkUpload "driver.c" "int a;"] Examples.state0).1)
                       (os_path_join "uploaded_code" (name f)) = true).
  { intros f Hf. apply list_elem_of_singleton in Hf. subst f. vm_compute. reflexivity. }
  specialize (H Hall (Call (KbLoad "code_knowledge" false true))).
  assert (Hin : Call (KbLoad "code_knowledge" false true) ∈
            new_events
              (CodeAnalysis.upload_section Examples.echo
                 [mkUpload "driver.c" "int a;"] Examples.state0).1
              (CodeAnalysis.upload_section Examples.echo
                 [mkUpload "driver.c" "int a;"]
                 (CodeAnalysis.upload_section Examples.echo
                    [mkUpload "driver.c" "int a;"] Examples.state0).1).1).
  { vm_compute. apply list_elem_of_further, list_elem_of_here. }
  specialize (H Hin). discriminate.
Qed.

(** ** Ingestion is upsert, non-recreating (C3) *)

Lemma ids_upsert_doc (d : VectorIndex.Doc) (c : VectorIndex.Collection) :
  VectorIndex.ids (VectorIndex.upsert_doc d c) =
    if bool_decide (VectorIndex.doc_id d ∈ VectorIndex.ids c)
    then VectorIndex.ids c
    else VectorIndex.ids c ++ [VectorIndex.doc_id d].
Proof.
  unfold VectorIndex.ids. induction c as [|x c IH].
  - rewrite bool_decide_eq_false_2; [reflexivity | apply not_elem_of_nil].
  - cbn [VectorIndex.upsert_doc].
    destruct (decide (VectorIndex.doc_id x = VectorIndex.doc_id d)) as [E|NE].
    + rewrite (bool_decide_eq_true_2 _ E).
      rewrite bool_decide_eq_true_2 by (rewrite fmap_cons, E; left).
      rewrite !fmap_cons. now rewrite E.
    + rewrite (bool_decide_eq_false_2 _ NE). rewrite !fmap_cons, IH.
      destruct (decide (VectorIndex.doc_id d ∈ VectorIndex.doc_id <$> c)) as [I|NI].
      * rewrite (bool_decide_eq_true_2 _ I).
        rewrite bool_decide_eq_true_2 by (now right). reflexivity.
      * rewrite (bool_decide_eq_false_2 _ NI).
        rewrite bool_decide_eq_false_2; [reflexivity|].
        intros H. apply elem_of_cons in H. destruct H; congruence.
Qed.

Lemma upsert_doc_keeps (d : VectorIndex.Doc) (c : VectorIndex.Collection) (id : string) :
  id ∈ VectorIndex.ids c -> id ∈ VectorIndex.ids (VectorIndex.upsert_doc d c).
Proof.
  rewrite ids_upsert_doc. case_bool_decide; [auto|].
  intros Hid. apply elem_of_app. now left.
Qed.

Lemma upsert_doc_nodup (d : VectorIndex.Doc) (c : VectorIndex.Collection) :
  NoDup (VectorIndex.ids c) -> NoDup (VectorIndex.ids (VectorIndex.upsert_doc d c)).
Proof.
  rewrite ids_upsert_doc. case_bool_decide as Hin; [auto|].
  intros Hnd. apply NoDup_app. split; [exact Hnd|]. split.
  - intros x Hx Hx'. apply list_elem_of_singleton in Hx'. congruence.
  - apply NoDup_singleton.
Qed.

Global Instance index_kept_po : PreOrder index_kept.
Proof.
  split.
  - intros s. repeat split; auto.
  - intros s1 s2 s3 (A1 & B1 & C1) (A2 & B2 & C2). repeat split; auto.
Qed.

Lemma index_kept_same (s s' : State) : index s = index s' -> index_kept s s'.
Proof. intros H. unfold index_kept. rewrite H. repeat split; auto. Qed.

Lemma get_insert_eq (coll : string) (c : VectorIndex.Collection) (ix : VectorIndex.t) :
  VectorIndex.get coll (<[coll := c]> ix) = c.
Proof. unfold VectorIndex.get. now rewrite lookup_insert_eq. Qed.

Lemma get_insert_ne (coll coll' : string) (c : VectorIndex.Collection)
    (ix : VectorIndex.t) :
  coll <> coll' -> VectorIndex.get coll' (<[coll := c]> ix) = VectorIndex.get coll' ix.
Proof. intros H. unfold VectorIndex.get. now rewrite lookup_insert_ne. Qed.

Lemma index_kept_create (coll : string) (s : State) :
  index_kept s (set_index (VectorIndex.create coll (index s)) s).
Proof.
  unfold VectorIndex.create.
  destruct (index s !! coll) as [c|] eqn:E; [now apply index_kept_same|].
  assert (Hget : forall coll', VectorIndex.get coll' (<[coll := []]> (index s)) =
                               VectorIndex.get coll' (index s)).
  { intros coll'. destruct (decide (coll = coll')) as [<-|NE].
    - rewrite get_insert_eq. unfold VectorIndex.get. now rewrite E.
    - now apply get_insert_ne. }
  split; [|split]; simpl.
  - intros coll' H. destruct (decide (coll = coll')) as [<-|NE].
    + rewrite lookup_insert_eq. eauto.
    + now rewrite lookup_insert_ne.
  - intros coll' id. now rewrite Hget.
  - intros coll'. now rewrite Hget.
Qed.

Lemma index_kept_upsert (coll : string) (d : VectorIndex.Doc) (s : State) :
  index_kept s
    (set_index (<[coll := VectorIndex.load_doc true d (VectorIndex.get coll (index s))]>
                  (index s)) s).
Proof.
  simpl. split; [|split]; simpl.
  - intros coll' H. destruct (decide (coll = coll')) as [<-|NE].
    + rewrite lookup_insert_eq. eauto.
    + now rewrite lookup_insert_ne.
  - intros coll' id. destruct (decide (coll = coll')) as [<-|NE].
    + rewrite get_insert_eq. apply upsert_doc_keeps.
    + now rewrite get_insert_ne.
  - intros coll'. destruct (decide (coll = coll')) as [<-|NE].
    + rewrite get_insert_eq. apply upsert_doc_nodup.
    + now rewrite get_insert_ne.
Qed.

Lemma kb_load_index_kept (sv : Services) (kb : KnowledgeBase) :
  preserves index_kept (kb_load sv kb false true).
Proof.
  unfold kb_load, kb_load_doc. cbn [when]. pres.
  - apply emit_pres. intros. now apply index_kept_same.
  - apply index_kept_create.
  - apply index_kept_upsert.
Qed.

Global Instance incremental_log_po : PreOrder incremental_log.
Proof.
  split.
  - intros s. exists []. split; [now rewrite app_nil_r | constructor].
  - intros s1 s2 s3 (p1 & H1 & F1) (p2 & H2 & F2). exists (p1 ++ p2). split.
    + now rewrite H2, H1, app_assoc.
    + now apply Forall_app.
Qed.

Lemma incremental_same (s s' : State) : log s = log s' -> incremental_log s s'.
Proof. intros H. exists []. split; [now rewrite app_nil_r | constructor]. Qed.

Lemma emit_incremental (e : Event) : incremental e -> preserves incremental_log (emit e).
Proof.
  intros He. apply emit_pres. intros s. exists [e]. split; [reflexivity|].
  now repeat constructor.
Qed.

Lemma kb_load_incremental (sv : Services) (kb : KnowledgeBase) :
  preserves incremental_log (kb_load sv kb false true).
Proof.
  unfold kb_load, kb_load_doc. cbn [when]. pres;
    try (apply emit_incremental; simpl; auto);
    try (apply incremental_same; reflexivity).
Qed.

Lemma store_batch_same_index (dir : string) (batch : list UploadedFile) (u : bool) :
  preserves same_index (store_batch dir batch u).
Proof.
  revert u. induction batch as [|f rest IH]; intros u; simpl.
  - apply pres_pure; apply _.
  - apply pres_bind; [apply _ | | intros; apply IH].
    unfold store, write_file. pres; reflexivity.
Qed.

(** Every ingestion run keeps the index and logs only incremental events. *)
Ltac ingest_frame same_lemma :=
  pres;
  try (apply kb_load_index_kept || apply kb_load_incremental);
  try first
    [ eapply preserves_weaken; [|apply store_batch_same_index];
      intros ? ?; apply same_lemma
    | eapply preserves_weaken; [|apply store_batch_same_log];
      intros ? ?; apply same_lemma ];
  try (apply emit_incremental; simpl; auto);
  try (apply emit_pres; intros);
  try (apply same_lemma; reflexivity).

Lemma ingest_index_kept (sv : Services) (r : IngestRun) :
  preserves index_kept (ingest sv r).
Proof.
  destruct r; simpl;
    unfold CodeAnalysis.upload_section, CodeReviewer.upload_section,
      CodeReviewer.ensure_dirs, CodeReviewer.store_uploads,
      CodeReviewer.load_if_updated, CodeReviewer.set_cleared,
      Pynvme.sidebar_upload, Pynvme.set_loaded,
      Renode.sidebar_upload, Renode.set_loaded, os_makedirs, write_file;
    ingest_frame index_kept_same.
Qed.

Lemma ingest_incremental (sv : Services) (r : IngestRun) :
  preserves incremental_log (ingest sv r).
Proof.
  destruct r; simpl;
    unfold CodeAnalysis.upload_section, CodeReviewer.upload_section,
      CodeReviewer.ensure_dirs, CodeReviewer.store_uploads,
      CodeReviewer.load_if_updated, CodeReviewer.set_cleared,
      Pynvme.sidebar_upload, Pynvme.set_loaded,
      Renode.sidebar_upload, Renode.set_loaded, os_makedirs, write_file;
    ingest_frame incremental_same.
Qed.

Lemma ingest_all_pres (R : State -> State -> Prop) `{!PreOrder R} (sv : Services) :
  (forall r, preserves R (ingest sv r)) ->
  forall rs s, R s (ingest_all sv rs s).
Proof.
  intros H rs. induction rs as [|r rs IH]; intros s; simpl; [reflexivity|].
  etrans; [apply (H r s) | apply IH].
Qed.

(** C3.  Over every sequence of ingestion runs of the four front-ends,
    every knowledge-base load is made with recreate = false and
    upsert = true and no collection is deleted; hence (the index being an
    upserting store) no collection that exists is dropped, no chunk id
    that is indexed disappears, and a collection whose chunk ids are
    distinct keeps them distinct. *)
Theorem C3_ingestion_is_upsert_non_recreating
    (sv : Services) (rs : list IngestRun) (s : State) :
  let s' := ingest_all sv rs s in
  (forall kb recreate upsert,
     Call (KbLoad kb recreate upsert) ∈ new_events s s' ->
     recreate = false /\ upsert = true) /\
  (forall coll, Call (DeleteCollection coll) ∉ new_events s s') /\
  (forall coll, is_Some (index s !! coll) -> is_Some (index s' !! coll)) /\
  (forall coll id,
     id ∈ VectorIndex.ids (VectorIndex.get coll (index s)) ->
     id ∈ VectorIndex.ids (VectorIndex.get coll (index s'))) /\
  (forall coll,
     NoDup (VectorIndex.ids (VectorIndex.get coll (index s))) ->
     NoDup (VectorIndex.ids (VectorIndex.get coll (index s')))).
Proof.
  cbv zeta.
  destruct (ingest_all_pres incremental_log sv (ingest_incremental sv) rs s)
    as (post & Hpost & Fpost).
  destruct (ingest_all_pres index_kept sv (ingest_index_kept sv) rs s)
    as (Hkeep & Hids & Hnodup).
  rewrite (new_events_app _ _ _ Hpost). rewrite Forall_forall in Fpost.
  split; [|split; [|split; [|split]]]; auto.
  - intros kb recreate upsert Hin. exact (Fpost _ Hin).
  - intros coll Hin. exact (Fpost _ Hin).
Qed.

(** After [driver.c] was indexed, a second run that uploads [uart.c] keeps
    the chunk of [driver.c]. *)
Lemma C3_ingestion_is_upsert_non_recreating_witness :
  let s1 := ingest_all Examples.echo
              [RunCodeReviewer [mkUpload "driver.c" "int a;"] []] Examples.state0 in
  let s2 := ingest_all Examples.echo
              [RunCodeReviewer [mkUpload "uart.c" "int u;"] []] s1 in
  "driver.c" ∈ VectorIndex.ids (VectorIndex.get "code_review_docs" (index s2)).
Proof.
  cbv zeta.
  apply (C3_ingestion_is_upsert_non_recreating Examples.echo
           [RunCodeReviewer [mkUpload "uart.c" "int u;"] []]).
  vm_compute. apply list_elem_of_here.
Defined.

(** ** Clearing the knowledge base (C4) *)

Lemma not_under_short (k l : Fs.loc) : length l <= length k -> ~ Fs.under k l.
Proof.
  intros Hlen (pre & Hne & ->). rewrite length_app in Hlen.
  destruct pre; [congruence | simpl in Hlen; lia].
Qed.

(** Deleting a tree leaves every location outside it as it was. *)
Lemma rmtree_outside (pol : Fs.RmPolicy) (p : string) (w : Fs.t) (k l : Fs.loc) :
  Fs.resolve w p = Ok k -> l <> k -> ~ Fs.under k l ->
  Fs.is_dir (Fs.rmtree pol p w).1 l = Fs.is_dir w l /\
  Fs.is_file (Fs.rmtree pol p w).1 l = Fs.is_file w l.
Proof.
  intros Hres Hne Hnu. unfold Fs.rmtree. rewrite Hres. simpl. split.
  - unfold Fs.is_dir. f_equal. apply bool_decide_ext. simpl.
    unfold Fs.rm_dirs. rewrite elem_of_filter. split; [tauto|].
    intros Hin. split; [|exact Hin]. intros [[?|?] _]; contradiction.
  - unfold Fs.is_file. apply bool_decide_ext. simpl.
    unfold Fs.rm_files. split; intros [f Hf]; exists f.
    + apply map_lookup_filter_Some in Hf. tauto.
    + apply map_lookup_filter_Some. split; [exact Hf|].
      simpl. intros [? _]. contradiction.
Qed.

Lemma exists_after_rmtree (pol : Fs.RmPolicy) (p g : string) (w : Fs.t) (k l : Fs.loc) :
  Fs.resolve w p = Ok k -> (forall w', Fs.resolve w' g = Ok l) ->
  l <> k -> ~ Fs.under k l ->
  Fs.exists_ (Fs.rmtree pol p w).1 g = Fs.exists_ w g.
Proof.
  intros Hres Hg Hne Hnu. unfold Fs.exists_. rewrite !Hg.
  destruct (rmtree_outside pol p w k l Hres Hne Hnu) as [-> ->]. reflexivity.
Qed.

Lemma rmtree_ok (pol : Fs.RmPolicy) (p : string) (w : Fs.t) :
  (Fs.rmtree pol p w).2 = Ok tt.
Proof. unfold Fs.rmtree. now destruct (Fs.resolve w p). Qed.

(** One turn of the deletion loop. *)
Lemma delete_folder_spec (pol : Fs.RmPolicy) (folder : string) (s : State) :
  delete_folder pol folder s =
    (if Fs.exists_ (fs s) folder
     then set_log (log s ++ deletion_attempt (fs s) folder)
                  (set_fs (Fs.rmtree pol folder (fs s)).1 s)
     else s, Ok tt).
Proof.
  unfold delete_folder, deletion_attempt, bind at 1, os_path_exists.
  destruct (Fs.exists_ (fs s) folder) eqn:Hex; [|reflexivity].
  unfold when, try_except, shutil_rmtree, bind, emit, modify, on_fs. simpl.
  pose proof (rmtree_ok pol folder (fs s)) as Hok.
  destruct (Fs.rmtree pol folder (fs s)) as [w r]. simpl in *. subst r.
  unfold set_log, set_fs. simpl. now rewrite <- app_assoc.
Qed.

(** The deletion loop: every listed folder that is on disk when the loop
    starts gets its deletion attempt, in list order. *)
Lemma delete_loop_spec (pol : Fs.RmPolicy) (fl : list (string * list string)) (s : State) :
  Forall resolves_to fl -> independent fl ->
  let out := for_each fl.*1 (delete_folder pol) s in
  out.2 = Ok tt /\
  log out.1 = log s ++ flat_map (deletion_attempt (fs s)) fl.*1 /\
  session out.1 = session s /\ index out.1 = index s.
Proof.
  revert s. induction fl as [|[f k] rest IH]; intros s Hres Hind; cbv zeta.
  - simpl. now rewrite app_nil_r.
  - rewrite fmap_cons. cbn [for_each flat_map fst]. unfold bind.
    rewrite delete_folder_spec.
    apply Forall_cons in Hres. destruct Hres as [Hf Hres].
    destruct Hind as [Hout Hind].
    set (s1 := if Fs.exists_ (fs s) f then _ else s).
    assert (Hatt : forall g, g ∈ rest.*1 ->
              deletion_attempt (fs s1) g = deletion_attempt (fs s) g).
    { intros g Hg. apply list_elem_of_fmap in Hg. destruct Hg as ([g' l] & -> & Hgl).
      rewrite Forall_forall in Hout, Hres.
      destruct (Hout _ Hgl) as [Hne Hnu]. specialize (Hres _ Hgl).
      unfold deletion_attempt. subst s1.
      destruct (Fs.exists_ (fs s) f); [|reflexivity]. cbn [fs set_log set_fs fst].
      now rewrite (exists_after_rmtree pol f g' (fs s) k l (Hf (fs s)) Hres Hne Hnu). }
    destruct (IH s1 Hres Hind) as (Hok & Hlog & Hss & Hix).
    destruct (for_each rest.*1 (delete_folder pol) s1) as [s2 r2]. cbn [fst snd] in *.
    subst r2. cbn [fst snd]. split; [reflexivity|].
    assert (Hflat : flat_map (deletion_attempt (fs s1)) rest.*1 =
                    flat_map (deletion_attempt (fs s)) rest.*1).
    { clear -Hatt. induction (rest.*1) as [|g gs IHg]; [reflexivity|].
      cbn [flat_map]. rewrite Hatt by left. f_equal. apply IHg.
      intros g' Hg'. apply Hatt. now right. }
    rewrite Hlog, Hss, Hix, Hflat. subst s1.
    destruct (Fs.exists_ (fs s) f) eqn:E; cbn [log session index set_log set_fs].
    + rewrite <- app_assoc. auto.
    + replace (deletion_attempt (fs s) f) with (@nil Event)
        by (unfold deletion_attempt; now rewrite E).
      auto.
Qed.

Lemma code_reviewer_folders :
  let fl := [("uploaded_code", ["uploaded_code"]); ("uploaded_docs", ["uploaded_docs"]);
             (CodeReviewer.VECTOR_DB_PATH, ["chroma_db"])] in
  Forall resolves_to fl /\ independent fl.
Proof.
  cbv zeta. split.
  - repeat constructor.
  - cbn [independent]. repeat split; repeat constructor; cbn [fst snd];
      try discriminate; apply not_under_short; simpl; lia.
Qed.

(** Running a sequence whose first part returns. *)
Lemma bind_ok {A B} (m : M State A) (k : A -> M State B) (s s1 : State) (a : A) :
  m s = (s1, Ok a) -> bind m k s = k a s1.
Proof. intros H. unfold bind. now rewrite H. Qed.

Lemma try_ok {A} (m : M State A) (h : string -> M State A) (s s1 : State) (a : A) :
  m s = (s1, Ok a) -> try_except m h s = (s1, Ok a).
Proof. intros H. unfold try_except. now rewrite H. Qed.

(** The guarded collection delete of code-reviewer.py: the outcome is
    shown and the handler goes on. *)
Lemma guarded_delete_collection (s : State) :
  try_except
    (bind (delete_collection "code_review_docs")
          (fun _ => emit (Info "ChromaDB collection deleted")))
    (fun e => emit (Warning ("Could not delete collection: " +:+ e))) s =
  (set_log (log s ++
              [Call (DeleteCollection "code_review_docs");
               match index s !! "code_review_docs" with
               | Some _ => Info "ChromaDB collection deleted"
               | None => Warning "Could not delete collection: Collection code_review_docs does not exist."
               end])
           (set_index (delete "code_review_docs" (index s)) s), Ok tt).
Proof.
  unfold try_except, delete_collection, bind, emit, modify, on_index,
    VectorIndex.delete_collection. cbn [index set_log fst snd].
  destruct (index s !! "code_review_docs") as [c|] eqn:Hc; cbn [fst snd].
  - unfold set_log, set_index. cbn. now rewrite <- app_assoc.
  - unfold set_log, set_index. cbn. rewrite <- app_assoc.
    rewrite delete_id by exact Hc. reflexivity.
Qed.

(** C4 (as code-reviewer.py has it).  The "Clear Knowledge Base" handler
    of code-reviewer.py never ends in its error report: whether the
    collection delete succeeds or raises (the collection is absent), the
    outcome is shown (an info or a warning) and every listed directory that
    is on disk when the button is pressed gets its deletion attempt, in
    list order and whatever happened to the directories before it; then
    the uploader key is advanced, the success message is shown and the
    page is rerun. *)
Theorem C4_code_reviewer_clear_is_best_effort (s : State) :
  let folders := ["uploaded_code"; "uploaded_docs"; CodeReviewer.VECTOR_DB_PATH] in
  let out := CodeReviewer.clear_button s in
  out.2 = Ok tt /\
  new_events s out.1 =
    Call (DeleteCollection "code_review_docs") ::
    match index s !! "code_review_docs" with
    | Some _ => Info "ChromaDB collection deleted"
    | None => Warning "Could not delete collection: Collection code_review_docs does not exist."
    end ::
    flat_map (deletion_attempt (fs s)) folders ++
    [Success "Knowledge base cleared!"; Rerun] /\
  uploader_key (session out.1) = uploader_key (session s) + 1 /\
  kb_cleared (session out.1) = true.
Proof.
  cbv zeta.
  destruct (delete_loop_spec Fs.ChmodRetrySwallow _
              (set_log (log s ++
                 [Call (DeleteCollection "code_review_docs");
                  match index s !! "code_review_docs" with
                  | Some _ => Info "ChromaDB collection deleted"
                  | None => Warning "Could not delete collection: Collection code_review_docs does not exist."
                  end])
                 (set_index (delete "code_review_docs" (index s)) s))
              (proj1 code_reviewer_folders) (proj2 code_reviewer_folders))
    as (Hok & Hlog & Hss & _).
  cbn [fmap list_fmap fst] in Hok, Hlog, Hss.
  destruct (for_each _ _ _) as [s3 r3] eqn:Hloop in Hok, Hlog, Hss.
  cbn [fst snd] in Hok, Hlog, Hss. subst r3.
  assert (Hrun : CodeReviewer.clear_button s =
            (set_log (log s3 ++ [Success "Knowledge base cleared!"; Rerun])
               (set_session
                  (mkSession (review_history (session s3))
                     (generation_history (session s3)) true
                     (kb_loaded (session s3)) (uploader_key (session s3) + 1)) s3),
             Ok tt)).
  { unfold CodeReviewer.clear_button.
    erewrite try_ok; [reflexivity|].
    erewrite bind_ok; [|apply guarded_delete_collection].
    erewrite bind_ok; [|exact Hloop].
    unfold bind, get, CodeReviewer.set_cleared, emit, modify, set_log, set_session.
    cbn. now rewrite <- app_assoc. }
  rewrite Hrun. cbn [fst snd]. split; [reflexivity|]. split; [|split].
  - apply new_events_app. cbn [log set_log set_session].
    rewrite Hlog. cbn [log fs set_log set_index].
    rewrite <- !app_assoc. reflexivity.
  - cbn. now rewrite Hss.
  - reflexivity.
Qed.

(** C4 fails in two ways.  In pynvme.py and renode.py the collection
    delete is not guarded: when the collection is absent the handler goes
    straight to its error report and no directory is deleted.  And a
    directory that cannot be fully deleted is not reported anywhere:
    [remove_readonly] in code-reviewer.py swallows the failure (as
    [ignore_errors=True] does in the other two), the directory stays and
    the page says it was deleted. *)
Lemma C4_counterexample :
  (index pynvme_unloaded !! "pynvme_docs" = None /\
   Fs.exists_ (fs pynvme_unloaded) "pynvme_docs" = true /\
   new_events pynvme_unloaded (Pynvme.clear_button pynvme_unloaded).1 =
     [Call (DeleteCollection "pynvme_docs");
      Error "Error clearing knowledge base: Collection pynvme_docs does not exist."] /\
   Fs.exists_ (fs (Pynvme.clear_button pynvme_unloaded).1) "pynvme_docs" = true) /\
  (new_events renode_unloaded (Renode.clear_button renode_unloaded).1 =
     [Call (DeleteCollection "renode_docs");
      Error "Error clearing knowledge base: Collection renode_docs does not exist."] /\
   Fs.exists_ (fs (Renode.clear_button renode_unloaded).1) "renode_docs" = true) /\
  (new_events code_reviewer_locked (CodeReviewer.clear_button code_reviewer_locked).1 =
     [Call (DeleteCollection "code_review_docs");
      Warning "Could not delete collection: Collection code_review_docs does not exist.";
      Call (Rmtree "uploaded_code");
      Info "Deleted uploaded_code";
      Success "Knowledge base cleared!";
      Rerun] /\
   Fs.exists_ (fs (CodeReviewer.clear_button code_reviewer_locked).1) "uploaded_code" = true).
Proof. vm_compute. repeat split. Qed.

(** ** Preconditions of the respond handlers (C5) *)

(** C5 (as the handlers have it).  The review buttons of code-analysis.py
    and code-reviewer.py show one warning and do nothing else (no agent
    run, no change of disk, index or session) when no code file is on disk
    or the query is empty; the buttons of pynvme.py, which do not look at
    the uploaded documents, do so when the query is empty. *)
Theorem C5_precondition_warning_without_agent_run
    (sv : Services) (query : string) (tab : CodeReviewer.Tab) (b : PynvmeButton)
    (s : State) :
  (code_count s = 0 \/ query = EmptyString ->
   warns_only (CodeAnalysis.analyze_button sv query) s /\
   warns_only (CodeReviewer.review_button sv tab query) s) /\
  (pynvme_query b = EmptyString -> warns_only (pynvme_button sv b) s).
Proof.
  split.
  - intros Hpre. split.
    + unfold warns_only, CodeAnalysis.analyze_button.
      rewrite (bind_ok get _ s s s eq_refl). fold (code_count s).
      destruct (code_count s =? 0) eqn:Hc; [eexists; reflexivity|].
      destruct Hpre as [H0| ->]; [rewrite H0 in Hc; discriminate|].
      eexists; reflexivity.
    + unfold warns_only, CodeReviewer.review_button.
      destruct (PyStr.is_empty query) eqn:Hq; [eexists; reflexivity|].
      rewrite (bind_ok get _ s s s eq_refl). fold (code_count s).
      destruct Hpre as [H0| ->]; [|discriminate].
      rewrite H0. eexists; reflexivity.
  - intros Hq. destruct b; simpl in *; subst;
      unfold Pynvme.orchestrate_button, Pynvme.generate_button,
        Pynvme.validate_button, Pynvme.expert_button, warns_only;
      eexists; reflexivity.
Qed.

(** With nothing uploaded, "Analyze Code" only warns. *)
Lemma C5_precondition_warning_without_agent_run_witness :
  warns_only (CodeAnalysis.analyze_button Examples.echo "check for buffer overflow")
             Examples.state0 /\
  warns_only (CodeReviewer.review_button Examples.echo CodeReviewer.code_analysis
                "check for buffer overflow") Examples.state0.
Proof.
  apply (C5_precondition_warning_without_agent_run Examples.echo
           "check for buffer overflow" CodeReviewer.code_analysis
           (AskExpert EmptyString) Examples.state0).
  left. vm_compute. reflexivity.
Defined.

(** C5 fails for pynvme.py: with no document uploaded, a non-empty
    requirement goes to the orchestrator. *)
Lemma C5_counterexample :
  let button := Pynvme.orchestrate_button Examples.echo
                  "sequential 4K read" "performance" "Standard" in
  glob_count (fun _ => true) "pynvme_docs" (fs Examples.state0) = 0 /\
  Call (AgentRun "Test Orchestrator"
          (Pynvme.enhanced_query "sequential 4K read" "performance" "Standard"))
    ∈ new_events Examples.state0 (button Examples.state0).1 /\
  ~ warns_only button Examples.state0.
Proof.
  cbv zeta. split; [vm_compute; reflexivity|]. split.
  - vm_compute. apply list_elem_of_here.
  - intros [msg H]. apply (f_equal (fun x => length (log x.1))) in H.
    vm_compute in H. discriminate.
Qed.

(** ** The session history (C8) *)

Lemma run_agent_eq (sv : Services) (agent query : string) (s : State) :
  run_agent sv agent query s =
    (set_fs (agent_run sv agent query (fs s)).1
            (set_log (log s ++ [Call (AgentRun agent query)]) s),
     (agent_run sv agent query (fs s)).2).
Proof.
  unfold run_agent, bind, emit, modify, on_fs. cbn [fst snd fs set_log].
  now destruct (agent_run sv agent query (fs s)).
Qed.

Ltac respond_cases sv agent query s :=
  unfold try_except, bind; rewrite run_agent_eq;
  destruct (agent_run sv agent query (fs s)) as [w [response|e]];
  cbn; try reflexivity.

(** C8 (as the handlers have it).  With a query that is not empty, the
    orchestrate and generate buttons of pynvme.py, and, when a code file is
    on disk, the review buttons of code-analysis.py and code-reviewer.py,
    append exactly one record holding the user's query text and the
    response text to the session history and change nothing else in the
    session when the agent run returns, and leave the whole session as it
    was when the agent run raises. *)
Theorem C8_history_appended_on_success
    (sv : Services) (query : string) (tab : CodeReviewer.Tab)
    (category level : string) (s : State) :
  query <> EmptyString ->
  (code_count s <> 0 ->
   history_after with_review (session s)
     (session (CodeAnalysis.analyze_button sv query s).1)
     (fun response => [("query", query); ("response", response)])
     (agent_run sv "Code Analyzer" query (fs s)).2 /\
   history_after with_review (session s)
     (session (CodeReviewer.review_button sv tab query s).1)
     (fun response => [("type", CodeReviewer.tab_type tab); ("query", query);
                       ("response", response)])
     (agent_run sv (CodeReviewer.tab_agent tab) query (fs s)).2) /\
  history_after with_generation (session s)
    (session (Pynvme.orchestrate_button sv query category level s).1)
    (fun response => [("timestamp", strftime_iso (now s)); ("type", "Orchestrated");
                      ("requirement", query); ("category", category);
                      ("response", response)])
    (agent_run sv "Test Orchestrator" (Pynvme.enhanced_query query category level)
       (fs s)).2 /\
  history_after with_generation (session s)
    (session (Pynvme.generate_button sv query category s).1)
    (fun response => [("timestamp", strftime_iso (now s)); ("type", "Generation");
                      ("requirement", query); ("category", category);
                      ("response", response)])
    (agent_run sv "Test Case Generator" (query +:+ nl +:+ "Category: " +:+ category)
       (fs s)).2.
Proof.
  intros Hquery.
  assert (Hq : PyStr.is_empty query = false) by now destruct query.
  unfold history_after, with_review, with_generation. split; [|split].
  - intros Hcount.
    assert (Hc : (code_count s =? 0) = false) by now apply Nat.eqb_neq.
    split.
    + unfold CodeAnalysis.analyze_button.
      rewrite (bind_ok get _ s s s eq_refl). fold (code_count s). rewrite Hc, Hq.
      respond_cases sv "Code Analyzer" query s.
    + unfold CodeReviewer.review_button. rewrite Hq.
      rewrite (bind_ok get _ s s s eq_refl). fold (code_count s). rewrite Hc.
      respond_cases sv (CodeReviewer.tab_agent tab) query s.
      destruct (CodeReviewer.tab_done tab); reflexivity.
  - unfold Pynvme.orchestrate_button. rewrite Hq.
    respond_cases sv "Test Orchestrator" (Pynvme.enhanced_query query category level) s.
  - unfold Pynvme.generate_button. rewrite Hq.
    respond_cases sv "Test Case Generator" (query +:+ nl +:+ "Category: " +:+ category) s.
Qed.

(** With [driver.c] uploaded, the query of the end-to-end scenario is
    recorded under "Code Analysis" with the response and the rest of the
    session stays; in pynvme.py, with nothing uploaded at all, a test
    specification is recorded with its time stamp. *)
Lemma C8_history_appended_on_success_witness :
  session (CodeReviewer.review_button Examples.echo CodeReviewer.code_analysis
             "check for buffer overflow" code_reviewer_loaded).1 =
  with_review
    [("type", "Code Analysis"); ("query", "check for buffer overflow");
     ("response", "answer to: check for buffer overflow")]
    (session code_reviewer_loaded) /\
  session (Pynvme.generate_button Examples.echo "sequential 4K read" "performance"
             Examples.state0).1 =
  with_generation
    [("timestamp", "2025-01-15 12:00:00"); ("type", "Generation");
     ("requirement", "sequential 4K read"); ("category", "performance");
     ("response", "answer to: sequential 4K read" +:+ nl +:+ "Category: performance")]
    (session Examples.state0).
Proof.
  assert (Hcount : code_count code_reviewer_loaded <> 0)
    by (vm_compute; discriminate).
  split.
  - assert (Hquery : "check for buffer overflow" <> EmptyString) by discriminate.
    exact (proj2 (proj1 (C8_history_appended_on_success Examples.echo
                           "check for buffer overflow" CodeReviewer.code_analysis
                           "performance" "Standard" code_reviewer_loaded Hquery)
                    Hcount)).
  - assert (Hquery : "sequential 4K read" <> EmptyString) by discriminate.
    exact (proj2 (proj2 (C8_history_appended_on_success Examples.echo
                           "sequential 4K read" CodeReviewer.code_analysis
                           "performance" "Standard" Examples.state0 Hquery))).
Defined.

(** C8 fails for the "Ask Expert" button of pynvme.py: the agent run
    returns and nothing is appended to the history. *)
Lemma C8_counterexample :
  let out := Pynvme.expert_button Examples.echo "How do I use the qpair fixture?"
               Examples.state0 in
  out.2 = Ok tt /\
  new_events Examples.state0 out.1 =
    [Call (AgentRun "PyNVMe Expert" "How do I use the qpair fixture?");
     Markdown "answer to: How do I use the qpair fixture?"] /\
  session out.1 = session Examples.state0.
Proof. vm_compute. repeat split. Qed.

(** ** Timestamps *)

Lemma zdigit_inj (a b : Z) : zdigit a = zdigit b -> (a mod 10 = b mod 10)%Z.
Proof.
  unfold zdigit. intros H.
  apply (f_equal N_of_ascii) in H.
  rewrite !N_ascii_embedding in H by
    (apply N2Z.inj_lt; rewrite Z2N.id by (pose proof (Z.mod_pos_bound a 10);
       pose proof (Z.mod_pos_bound b 10); lia);
     pose proof (Z.mod_pos_bound a 10); pose proof (Z.mod_pos_bound b 10);
     simpl; lia).
  apply (f_equal Z.of_N) in H.
  rewrite !Z2N.id in H by
    (pose proof (Z.mod_pos_bound a 10); pose proof (Z.mod_pos_bound b 10); lia).
  lia.
Qed.

Lemma pad2_inj (a b : Z) :
  (0 <= a < 100)%Z -> (0 <= b < 100)%Z -> pad2 a = pad2 b -> a = b.
Proof.
  intros Ha Hb H. unfold pad2 in H. injection H as H1 H0.
  apply zdigit_inj in H1, H0.
  Z.to_euclidean_division_equations. lia.
Qed.

Lemma pad4_inj (a b : Z) :
  (0 <= a < 10000)%Z -> (0 <= b < 10000)%Z -> pad4 a = pad4 b -> a = b.
Proof.
  intros Ha Hb H. unfold pad4, pad2 in H. injection H as H3 H2 H1 H0.
  apply zdigit_inj in H3, H2, H1, H0.
  Z.to_euclidean_division_equations. lia.
Qed.

Lemma zdigit_cases (n : Z) :
  zdigit n ∈ ["0"; "1"; "2"; "3"; "4"; "5"; "6"; "7"; "8"; "9"]%char.
Proof.
  unfold zdigit.
  assert (H : (n mod 10 = 0 \/ n mod 10 = 1 \/ n mod 10 = 2 \/ n mod 10 = 3 \/
               n mod 10 = 4 \/ n mod 10 = 5 \/ n mod 10 = 6 \/ n mod 10 = 7 \/
               n mod 10 = 8 \/ n mod 10 = 9)%Z)
    by (pose proof (Z.mod_pos_bound n 10); lia).
  repeat destruct H as [H|H]; rewrite H; cbn; set_solver.
Qed.

Lemma zdigit_neq (n : Z) (c : ascii) :
  c ∉ ["0"; "1"; "2"; "3"; "4"; "5"; "6"; "7"; "8"; "9"]%char ->
  Ascii.eqb (zdigit n) c = false.
Proof.
  intros Hc. apply Ascii.eqb_neq. intros E. apply Hc. rewrite <- E.
  apply zdigit_cases.
Qed.

(** A timestamp is made of digits and one underscore. *)
Lemma strftime_compact_has_char (c : ascii) (d : DateTime) :
  c ∉ ["0"; "1"; "2"; "3"; "4"; "5"; "6"; "7"; "8"; "9"]%char -> c <> "_"%char ->
  PyStr.has_char c (strftime_compact d) = false.
Proof.
  intros Hc Hu. unfold strftime_compact, pad4, pad2.
  rewrite !PyStrFacts.has_char_app. cbn [PyStr.has_char].
  rewrite !(zdigit_neq _ c Hc).
  replace (Ascii.eqb "_" c) with false by (symmetry; apply Ascii.eqb_neq; congruence).
  reflexivity.
Qed.

Lemma not_digit_slash :
  Fs.slash ∉ ["0"; "1"; "2"; "3"; "4"; "5"; "6"; "7"; "8"; "9"]%char.
Proof. intros H. repeat (apply elem_of_cons in H; destruct H as [H|H]; [discriminate|]). inversion H. Qed.

Lemma not_digit_nul :
  Fs.nul ∉ ["0"; "1"; "2"; "3"; "4"; "5"; "6"; "7"; "8"; "9"]%char.
Proof. intros H. repeat (apply elem_of_cons in H; destruct H as [H|H]; [discriminate|]). inversion H. Qed.

(** ** Splitting and walking paths *)

Lemma split_slash_nonempty (s : string) : Fs.split_slash s <> [].
Proof.
  destruct s as [|c s]; simpl; [discriminate|].
  destruct (Ascii.eqb c Fs.slash); [discriminate|].
  destruct (Fs.split_slash s); discriminate.
Qed.

Lemma split_slash_cons_other (c : ascii) (s : string) :
  Ascii.eqb c Fs.slash = false ->
  exists x r, Fs.split_slash s = x :: r /\ Fs.split_slash (String c s) = String c x :: r.
Proof.
  intros Hc. simpl. rewrite Hc.
  destruct (Fs.split_slash s) as [|x r] eqn:E; [now apply split_slash_nonempty in E|].
  eauto.
Qed.

Lemma split_slash_app_slash (a b : string) :
  Fs.split_slash (a +:+ String Fs.slash b) = Fs.split_slash a ++ Fs.split_slash b.
Proof.
  induction a as [|c a IH].
  - reflexivity.
  - rewrite PyStrFacts.app_cons.
    destruct (Ascii.eqb c Fs.slash) eqn:Hc.
    + simpl. rewrite Hc, IH. reflexivity.
    + destruct (split_slash_cons_other c a Hc) as (x & r & Hs & Hs').
      destruct (split_slash_cons_other c (a +:+ String Fs.slash b) Hc)
        as (x' & r' & Ht & Ht').
      rewrite Hs', Ht'. rewrite IH, Hs in Ht. simpl in Ht.
      injection Ht as <- <-. reflexivity.
Qed.

Lemma split_slash_snoc (a b : string) :
  PyStr.has_char Fs.slash b = false ->
  Fs.split_slash (a +:+ b) =
    removelast (Fs.split_slash a) ++ [List.last (Fs.split_slash a) EmptyString +:+ b].
Proof.
  intros Hb. induction a as [|c a IH].
  - rewrite PyStrFacts.app_nil_l. now rewrite split_slash_plain.
  - rewrite PyStrFacts.app_cons.
    pose proof (split_slash_nonempty a) as Hne.
    destruct (Ascii.eqb c Fs.slash) eqn:Hc.
    + simpl. rewrite Hc, IH.
      destruct (Fs.split_slash a) as [|x r]; [congruence|]. reflexivity.
    + destruct (split_slash_cons_other c a Hc) as (x & r & Hs & Hs').
      destruct (split_slash_cons_other c (a +:+ b) Hc) as (x' & r' & Ht & Ht').
      rewrite Hs', Ht'. rewrite IH, Hs in Ht.
      destruct r as [|y r].
      * simpl in Ht. injection Ht as <- <-. reflexivity.
      * simpl in Ht. injection Ht as <- <-. reflexivity.
Qed.

Lemma walk_app (w : Fs.t) (c1 c2 : list string) (cur : Fs.loc) :
  Fs.walk w cur (c1 ++ c2) =
    match Fs.walk w cur c1 with
    | Ok l => Fs.walk w l c2
    | Raise e => Raise e
    end.
Proof.
  revert cur. induction c1 as [|c c1 IH]; intros cur; [reflexivity|].
  rewrite <- app_comm_cons. cbn [Fs.walk].
  destruct (negb (Fs.is_dir w cur)); [reflexivity|].
  destruct (bool_decide (c = EmptyString) || bool_decide (c = ".")); [apply IH|].
  destruct (Fs.is_dotdot c); apply IH.
Qed.

Lemma walk_last (w : Fs.t) (C : list string) (L : string) (cur l : Fs.loc) :
  L <> EmptyString -> L <> "." -> L <> ".." ->
  Fs.walk w cur (C ++ [L]) = Ok l -> exists c, l = L :: c.
Proof.
  intros H0 H1 H2. rewrite walk_app.
  destruct (Fs.walk w cur C) as [c|]; [|discriminate].
  rewrite walk_push by assumption.
  destruct (Fs.is_dir w c); [|discriminate]. simpl. intros [= <-]. eauto.
Qed.

(** The compact timestamp tells apart any two valid instants that are not
    in the same second, whatever follows it. *)
Lemma strftime_compact_inj_app (d d' : DateTime) (x x' : string) :
  valid_datetime d -> valid_datetime d' ->
  strftime_compact d +:+ x = strftime_compact d' +:+ x' -> same_second d d'.
Proof.
  intros (Hy & Hm & Hd & Hh & Hmi & Hs & _) (Hy' & Hm' & Hd' & Hh' & Hmi' & Hs' & _) H.
  unfold strftime_compact, pad4, pad2 in H. cbn in H.
  injection H as Y3 Y2 Y1 Y0 M1 M0 D1 D0 h1 h0 m1 m0 s1 s0 _.
  unfold same_second. repeat split.
  - apply pad4_inj; [lia | lia |]. unfold pad4, pad2. congruence.
  - apply pad2_inj; [lia | lia |]. unfold pad2. congruence.
  - apply pad2_inj; [lia | lia |]. unfold pad2. congruence.
  - apply pad2_inj; [lia | lia |]. unfold pad2. congruence.
  - apply pad2_inj; [lia | lia |]. unfold pad2. congruence.
  - apply pad2_inj; [lia | lia |]. unfold pad2. congruence.
Qed.

Lemma split_slash_comps (s c : string) :
  c ∈ Fs.split_slash s -> PyStr.has_char Fs.slash c = false.
Proof.
  revert c. induction s as [|a s IH]; intros c Hc.
  - apply list_elem_of_singleton in Hc. now subst.
  - destruct (Ascii.eqb a Fs.slash) eqn:Ha.
    + simpl in Hc. rewrite Ha in Hc. apply elem_of_cons in Hc.
      destruct Hc as [->|Hc]; [reflexivity | now apply IH].
    + destruct (split_slash_cons_other a s Ha) as (x & r & Hs & Hs').
      rewrite Hs' in Hc. apply elem_of_cons in Hc. destruct Hc as [->|Hc].
      * simpl. rewrite Ha. apply IH. rewrite Hs. left.
      * apply IH. rewrite Hs. now right.
Qed.

Lemma last_in {A} (l : list A) (d : A) : l <> [] -> List.last l d ∈ l.
Proof.
  induction l as [|x l IH]; [congruence|]. intros _.
  destruct l as [|y l]; [left|]. right. apply IH. discriminate.
Qed.

Lemma last_segment_no_slash (n : string) :
  PyStr.has_char Fs.slash (last_segment n) = false.
Proof.
  apply (split_slash_comps n). apply last_in, split_slash_nonempty.
Qed.

Lemma last_app {A} (l1 l2 : list A) (d : A) :
  l2 <> [] -> List.last (l1 ++ l2) d = List.last l2 d.
Proof.
  intros H. induction l1 as [|x l1 IH]; [reflexivity|].
  rewrite <- app_comm_cons. cbn [List.last].
  destruct (l1 ++ l2) eqn:E; [|exact IH].
  apply app_eq_nil in E. destruct E. congruence.
Qed.

Lemma endswith_slash_inv (a : string) :
  endswith "/" a = true -> exists a', a = a' +:+ "/".
Proof.
  induction a as [|c a IH]; simpl.
  - intros H. discriminate.
  - rewrite orb_true_iff. intros [H|H].
    + apply bool_decide_eq_true in H. exists EmptyString. exact H.
    + destruct (IH H) as [a' ->]. exists (String c a'). reflexivity.
Qed.

(** Joining a directory with a name that carries a suffix: the suffix stays
    at the end, and the last path segment is that of the name with the
    suffix. *)
Lemma join_suffix (a n r : string) :
  os_path_join a (n +:+ String "_" r) = os_path_join a n +:+ String "_" r.
Proof.
  unfold os_path_join.
  assert (Hs : PyStr.startswith "/" (n +:+ String "_" r) = PyStr.startswith "/" n).
  { destruct n as [|c n]; [reflexivity|]. rewrite PyStrFacts.app_cons. simpl.
    now destruct (Ascii.eqb "/" c). }
  rewrite Hs. destruct (PyStr.startswith "/" n); [reflexivity|].
  destruct (PyStr.is_empty a || endswith "/" a);
    now rewrite ?PyStrFacts.app_assoc.
Qed.

Lemma join_last_segment (a n : string) :
  last_segment (os_path_join a n) = last_segment n.
Proof.
  unfold os_path_join, last_segment.
  destruct (PyStr.startswith "/" n); [reflexivity|].
  destruct (PyStr.is_empty a) eqn:Ha.
  - destruct a; [|discriminate]. reflexivity.
  - cbn [orb]. destruct (endswith "/" a) eqn:He.
    + destruct (endswith_slash_inv a He) as [a' ->].
      rewrite PyStrFacts.app_assoc.
      change ("/" +:+ n) with (String Fs.slash n).
      rewrite split_slash_app_slash. apply last_app, split_slash_nonempty.
    + change ("/" +:+ n) with (String Fs.slash n).
      rewrite split_slash_app_slash. apply last_app, split_slash_nonempty.
Qed.

Lemma join_snoc (P : list string) (L : string) :
  PyStr.join "/" (P ++ [L]) =
    match P with
    | [] => L
    | _ => PyStr.join "/" P +:+ "/" +:+ L
    end.
Proof.
  induction P as [|x P IH]; [reflexivity|].
  destruct P as [|y P]; [reflexivity|].
  change (PyStr.join "/" ((x :: y :: P) ++ [L]))
    with (x +:+ "/" +:+ PyStr.join "/" ((y :: P) ++ [L])).
  rewrite IH.
  change (PyStr.join "/" (x :: y :: P)) with (x +:+ "/" +:+ PyStr.join "/" (y :: P)).
  now rewrite !PyStrFacts.app_assoc.
Qed.

Lemma root_of_cases (s : string) :
  Path.root_of s = EmptyString \/ Path.root_of s = "/" \/ Path.root_of s = "//".
Proof. unfold Path.root_of. repeat case_match; auto. Qed.

(** The components of a printed path whose last part is [L]. *)
Lemma split_str_snoc (root : string) (P : list string) (L : string) :
  root = EmptyString \/ root = "/" \/ root = "//" ->
  PyStr.has_char Fs.slash L = false ->
  exists C, Fs.split_slash (Path.str (Path.mk root (P ++ [L]))) = C ++ [L].
Proof.
  intros Hroot HL.
  assert (Hstr : Path.str (Path.mk root (P ++ [L])) = root +:+ PyStr.join "/" (P ++ [L])).
  { unfold Path.str. cbn [Path.root Path.parts].
    destruct root; [|reflexivity]. destruct P; reflexivity. }
  rewrite Hstr, join_snoc. destruct P as [|x P].
  - rewrite (split_slash_snoc root L HL).
    exists (removelast (Fs.split_slash root)).
    destruct Hroot as [->|[->| ->]]; reflexivity.
  - rewrite <- PyStrFacts.app_assoc.
    change ("/" +:+ L) with (String Fs.slash L).
    rewrite split_slash_app_slash, (split_slash_plain L HL). eauto.
Qed.

Lemma has_char_here (c : ascii) (a b : string) :
  PyStr.has_char c (a +:+ String c b) = true.
Proof.
  rewrite PyStrFacts.has_char_app. simpl. rewrite Ascii.eqb_refl.
  now rewrite orb_true_r.
Qed.

Lemma suffixed_is_part (seg r : string) :
  let L := seg +:+ String "_" r in
  L <> EmptyString /\ L <> "." /\ L <> "..".
Proof.
  cbv zeta. pose proof (has_char_here "_" seg r) as H.
  repeat split; intros E; rewrite E in H; discriminate.
Qed.

(** Where a save goes: the location of [Path(a) / (n + "_" + r)] is an
    entry named after the last segment of [n] followed by the suffix. *)
Lemma save_loc_head (w : Fs.t) (a n r : string) (l : Fs.loc) :
  PyStr.has_char Fs.slash r = false ->
  Fs.resolve w (Path.str (Path.joinpath a (n +:+ String "_" r))) = Ok l ->
  exists c, l = (last_segment n +:+ String "_" r) :: c.
Proof.
  intros Hr Hres.
  assert (Hsfx : PyStr.has_char Fs.slash (String "_" r) = false)
    by (simpl; now rewrite Hr).
  unfold Path.joinpath in Hres. rewrite join_suffix in Hres.
  set (J := os_path_join a n) in *.
  assert (HJ : last_segment J = last_segment n) by apply join_last_segment.
  unfold Path.parse in Hres.
  rewrite (split_slash_snoc J _ Hsfx) in Hres.
  fold (last_segment J) in Hres. rewrite HJ in Hres.
  destruct (suffixed_is_part (last_segment n) r) as (L0 & L1 & L2).
  rewrite filter_app in Hres.
  assert (Hpart : filter (fun c => Path.is_part c = true)
                         [last_segment n +:+ String "_" r] =
                  [last_segment n +:+ String "_" r]).
  { rewrite filter_cons, filter_nil. unfold Path.is_part.
    rewrite !bool_decide_eq_false_2 by assumption. reflexivity. }
  rewrite Hpart in Hres.
  assert (HL : PyStr.has_char Fs.slash (last_segment n +:+ String "_" r) = false).
  { rewrite PyStrFacts.has_char_app, last_segment_no_slash, Hsfx. reflexivity. }
  destruct (split_str_snoc _ (filter (fun c => Path.is_part c = true)
                                     (removelast (Fs.split_slash J)))
              _ (root_of_cases (J +:+ String "_" r)) HL) as [C HC].
  unfold Fs.resolve in Hres.
  destruct (PyStr.has_char Fs.nul _); [discriminate|].
  destruct (PyStr.is_empty _); [discriminate|].
  rewrite HC in Hres.
  eapply walk_last; eauto.
Qed.

(** ** The save tools (C6, C7, C10) *)

Lemma save_test_case_eq (test_name test_code category : string) (s : State) :
  Pynvme.save_test_case test_name test_code category s =
    let '(s', r) := save_outcome ("generated_tests/" +:+ category)
                      (test_filename test_name (now s)) test_code s in
    (s', Ok (save_result "Test saved successfully to " "Error saving test: " r)).
Proof.
  unfold Pynvme.save_test_case, save_outcome, test_filename, try_except, bind,
    os_makedirs, write_file, on_fs, datetime_now, pure, ret.
  destruct (Fs.makedirs _ (fs s)) as [w1 [[]|e]]; cbn [fst snd now fs set_fs];
    [|reflexivity].
  destruct (Fs.open_write _ test_code w1) as [w2 [[]|e]]; reflexivity.
Qed.

Lemma save_renode_code_eq (uw : ascii -> bool) (filename code code_type category : string)
    (s : State) :
  Renode.save_renode_code uw filename code code_type category s =
    let '(s', r) := save_outcome (renode_dir category code_type)
                      (renode_filename uw filename code_type (now s)) code s in
    (s', Ok (save_result "Code saved successfully to " "Error saving code: " r)).
Proof.
  unfold Renode.save_renode_code, save_outcome, renode_filename, renode_dir,
    try_except, bind, os_makedirs, write_file, on_fs, datetime_now, pure, ret.
  destruct (Fs.makedirs _ (fs s)) as [w1 [[]|e]]; cbn [fst snd now fs set_fs];
    [|reflexivity].
  destruct (Fs.open_write _ code w1) as [w2 [[]|e]]; reflexivity.
Qed.

Lemma is_dir_dirs (w w' : Fs.t) (l : Fs.loc) :
  Fs.dirs w ⊆ Fs.dirs w' -> Fs.is_dir w l = true -> Fs.is_dir w' l = true.
Proof.
  intros Hd. unfold Fs.is_dir. rewrite !orb_true_iff, !bool_decide_eq_true.
  intros [[?|?]|?]; auto.
Qed.

Lemma walk_dirs (w w' : Fs.t) (comps : list string) (cur l : Fs.loc) :
  Fs.dirs w ⊆ Fs.dirs w' -> Fs.walk w cur comps = Ok l -> Fs.walk w' cur comps = Ok l.
Proof.
  intros Hd. revert cur. induction comps as [|c rest IH]; intros cur; simpl.
  - auto.
  - destruct (Fs.is_dir w cur) eqn:Hdir; simpl; [|discriminate].
    rewrite (is_dir_dirs _ _ _ Hd Hdir). simpl.
    repeat case_match; auto.
Qed.

(** Resolution looks at directories only. *)
Lemma resolve_dirs (w w' : Fs.t) (p : string) (l : Fs.loc) :
  Fs.dirs w ⊆ Fs.dirs w' -> Fs.resolve w p = Ok l -> Fs.resolve w' p = Ok l.
Proof.
  unfold Fs.resolve. intros Hd. repeat case_match; try discriminate.
  now apply walk_dirs.
Qed.

Lemma ensure_dir_files (l : Fs.loc) (w : Fs.t) :
  Fs.files (Fs.ensure_dir l w).1 = Fs.files w.
Proof. unfold Fs.ensure_dir. repeat case_match; reflexivity. Qed.

Lemma mkdir_walk_files (comps : list string) (cur : Fs.loc) (w : Fs.t) :
  Fs.files (Fs.mkdir_walk cur comps w).1 = Fs.files w.
Proof.
  revert cur w. induction comps as [|c rest IH]; intros cur w; simpl;
    pose proof (ensure_dir_files cur w) as He;
    destruct (Fs.ensure_dir cur w) as [w1 [[]|e]]; simpl in *; auto.
  repeat case_match; rewrite IH; auto.
Qed.

Lemma makedirs_files (p : string) (w : Fs.t) :
  Fs.files (Fs.makedirs p w).1 = Fs.files w.
Proof. unfold Fs.makedirs. case_match; [reflexivity | apply mkdir_walk_files]. Qed.

Lemma open_write_ok (p data : string) (w w' : Fs.t) :
  Fs.open_write p data w = (w', Ok tt) ->
  exists l, Fs.resolve w p = Ok l /\
            w' = Fs.mk (<[l := Fs.mkFile Fs.Writable data]> (Fs.files w)) (Fs.dirs w).
Proof.
  unfold Fs.open_write. destruct (Fs.resolve w p) as [l|e]; [|discriminate].
  destruct (Fs.is_dir w l); [discriminate|].
  destruct (Fs.files w !! l) as [f|].
  - destruct (bool_decide (Fs.f_mode f = Fs.Writable)); [|discriminate].
    intros [= <-]. eauto.
  - intros [= <-]. eauto.
Qed.

(** A successful write can be read back under the same path. *)
Lemma open_write_read (p data : string) (w w' : Fs.t) :
  Fs.open_write p data w = (w', Ok tt) -> Fs.read w' p = Some data.
Proof.
  intros H. destruct (open_write_ok _ _ _ _ H) as (l & Hres & ->).
  unfold Fs.read. rewrite (resolve_dirs w _ p l) by (simpl; auto).
  simpl. now rewrite lookup_insert_eq.
Qed.

Lemma save_outcome_success (dir filename code : string) (s s' : State) (p : string) :
  save_outcome dir filename code s = (s', inl p) ->
  p = Path.str (Path.joinpath dir filename) /\ Fs.read (fs s') p = Some code.
Proof.
  unfold save_outcome.
  destruct (Fs.makedirs _ (fs s)) as [w1 [[]|e]]; [|discriminate].
  destruct (Fs.open_write _ code w1) as [w2 [[]|e]] eqn:Hw; [|discriminate].
  intros [= <- <-]. split; [reflexivity|]. simpl. eapply open_write_read, Hw.
Qed.

Lemma save_result_reports (ok_msg err_msg code dir filename : string) (s : State) :
  reports_faithfully code
    (let '(s', r) := save_outcome dir filename code s in
     (s', Ok (save_result ok_msg err_msg r))).
Proof.
  destruct (save_outcome dir filename code s) as [s' [p|e]] eqn:Hout;
    eexists; (split; [reflexivity|]).
  - left. split; [reflexivity|]. exists p. split; [reflexivity|].
    now destruct (save_outcome_success _ _ _ _ _ _ Hout).
  - right. split; reflexivity.
Qed.

(** C10.  [save_test_case] and [save_renode_code] return a dict on every
    input and in every state of the disk, they never raise; its status is
    "success" or "error"; whatever is raised inside (by the directory
    creation or by the write) comes back as status "error" with an empty
    file path; and on status "success" the returned file path names a file
    that holds the code that was to be saved. *)
Theorem C10_save_tools_report_errors_as_values
    (uw : ascii -> bool) (name code code_type category : string) (s : State) :
  reports_faithfully code (Pynvme.save_test_case name code category s) /\
  reports_faithfully code (Renode.save_renode_code uw name code code_type category s).
Proof.
  split.
  - rewrite save_test_case_eq. apply save_result_reports.
  - rewrite save_renode_code_eq. apply save_result_reports.
Qed.

(** Two saves into one directory whose file names share their stem and
    differ in the suffix go to two files, and both are there afterwards. *)
Lemma save_twice (dir n r1 r2 code1 code2 : string) (s s1 s1' s2 : State) (p1 p2 : string) :
  PyStr.has_char Fs.slash r1 = false -> PyStr.has_char Fs.slash r2 = false ->
  r1 <> r2 ->
  save_outcome dir (n +:+ String "_" r1) code1 s = (s1, inl p1) ->
  fs s1' = fs s1 ->
  save_outcome dir (n +:+ String "_" r2) code2 s1' = (s2, inl p2) ->
  p1 <> p2 /\ Fs.read (fs s2) p1 = Some code1 /\ Fs.read (fs s2) p2 = Some code2.
Proof.
  intros Hr1 Hr2 Hne H1 Hfs H2.
  destruct (save_outcome_success _ _ _ _ _ _ H2) as [Hp2 Hread2].
  unfold save_outcome in H1, H2. rewrite Hfs in H2.
  (* the first save *)
  pose proof (FsFacts.makedirs_extends (Path.str (Path.parse dir)) (fs s)) as [_ Hd1].
  destruct (Fs.makedirs _ (fs s)) as [w1 [[]|e]]; [|discriminate].
  destruct (Fs.open_write _ code1 w1) as [w2 [[]|e]] eqn:Hw1; [|discriminate].
  injection H1 as <- <-. cbn [fs set_fs fst] in *.
  destruct (open_write_ok _ _ _ _ Hw1) as (l1 & Hres1 & ->).
  destruct (save_loc_head _ _ _ _ _ Hr1 Hres1) as [c1 ->].
  (* the second save *)
  match type of H2 with context [Fs.makedirs ?p ?w] =>
    pose proof (FsFacts.makedirs_extends p w) as [_ Hd2];
    pose proof (makedirs_files p w) as Hf2;
    destruct (Fs.makedirs p w) as [w3 [[]|e]]; [|discriminate]
  end.
  destruct (Fs.open_write _ code2 w3) as [w4 [[]|e]] eqn:Hw2; [|discriminate].
  injection H2 as <- <-. cbn [fs set_fs fst snd] in *.
  destruct (open_write_ok _ _ _ _ Hw2) as (l2 & Hres2 & ->).
  destruct (save_loc_head _ _ _ _ _ Hr2 Hres2) as [c2 ->].
  assert (Hloc : (last_segment n +:+ String "_" r1) :: c1 <>
                 (last_segment n +:+ String "_" r2) :: c2).
  { intros [= E _]. apply String.app_inj in E. congruence. }
  assert (Hres1' : Fs.resolve w3 (Path.str (Path.joinpath dir (n +:+ String "_" r1))) =
                   Ok ((last_segment n +:+ String "_" r1) :: c1)).
  { eapply resolve_dirs; [|exact Hres1]. exact Hd2. }
  split; [|split].
  - intros E. rewrite E in Hres1'. rewrite Hres1' in Hres2. congruence.
  - unfold Fs.read.
    match goal with |- context [Fs.resolve ?w _] =>
      rewrite (resolve_dirs w3 w _ _ (reflexivity _) Hres1')
    end. cbn [Fs.files].
    rewrite lookup_insert_ne by congruence.
    rewrite Hf2. cbn [Fs.files]. now rewrite lookup_insert_eq.
  - exact Hread2.
Qed.

Lemma extension_no_slash (code_type : string) :
  PyStr.has_char Fs.slash (Renode.extension code_type) = false.
Proof.
  unfold Renode.extension, dict_get.
  repeat (case_bool_decide; [reflexivity|]). reflexivity.
Qed.

Lemma stamp_suffix_no_slash (d : DateTime) (ext : string) :
  PyStr.has_char Fs.slash ext = false ->
  PyStr.has_char Fs.slash (strftime_compact d +:+ ext) = false.
Proof.
  intros H. rewrite PyStrFacts.has_char_app, H.
  rewrite (strftime_compact_has_char _ _ not_digit_slash) by discriminate.
  reflexivity.
Qed.

Lemma status_success_inv (ok_msg err_msg : string) (r : string + string) :
  dict_get "status" (save_result ok_msg err_msg r) = Some "success" ->
  exists p, r = inl p.
Proof. destruct r as [p|e]; [eauto | discriminate]. Qed.

(** Two saves of one stem at two valid instants that are not in the same
    second. *)
Lemma save_twice_stamped (dir n ext code1 code2 ok_msg err_msg : string)
    (s : State) (t2 : DateTime) :
  valid_datetime (now s) -> valid_datetime t2 -> ~ same_second (now s) t2 ->
  PyStr.has_char Fs.slash ext = false ->
  let save code st :=
    let '(s', r) := save_outcome dir (n +:+ "_" +:+ strftime_compact (now st) +:+ ext)
                      code st in
    (s', Ok (save_result ok_msg err_msg r)) in
  let out1 := save code1 s in
  both_kept code1 code2 out1 (save code2 (set_now t2 out1.1)).
Proof.
  intros Hv1 Hv2 Hsec Hext. cbv zeta. unfold both_kept.
  destruct (save_outcome dir _ code1 s) as [s1 r1] eqn:H1. cbn [fst snd].
  destruct (save_outcome dir _ code2 (set_now t2 s1)) as [s2 r2] eqn:H2. cbn [fst snd].
  cbn [status_of filepath_of now set_now] in *.
  intros St1 St2.
  apply status_success_inv in St1, St2. destruct St1 as [p1 ->], St2 as [p2 ->].
  exists p1, p2. split; [reflexivity|]. split; [reflexivity|].
  eapply (save_twice dir n (strftime_compact (now s) +:+ ext)
            (strftime_compact t2 +:+ ext) code1 code2 s s1 (set_now t2 s1) s2).
  - now apply stamp_suffix_no_slash.
  - now apply stamp_suffix_no_slash.
  - intros E. apply Hsec. eapply strftime_compact_inj_app; eauto.
  - exact H1.
  - reflexivity.
  - exact H2.
Qed.

(** C6 (as the save tools have it).  Two saves of one name, by
    [save_test_case] or by [save_renode_code], made at two instants that
    are not in the same second and both reporting success, go to two
    distinct files, and after the second save each file holds the code of
    its own save: the earlier file is not overwritten. *)
Theorem C6_saves_in_different_seconds_are_both_kept
    (uw : ascii -> bool) (name code1 code2 code_type category : string)
    (s : State) (t2 : DateTime) :
  valid_datetime (now s) -> valid_datetime t2 -> ~ same_second (now s) t2 ->
  (let out1 := Pynvme.save_test_case name code1 category s in
   both_kept code1 code2 out1
     (Pynvme.save_test_case name code2 category (set_now t2 out1.1))) /\
  (let out1 := Renode.save_renode_code uw name code1 code_type category s in
   both_kept code1 code2 out1
     (Renode.save_renode_code uw name code2 code_type category (set_now t2 out1.1))).
Proof.
  intros Hv1 Hv2 Hsec. split; cbv zeta.
  - rewrite !save_test_case_eq.
    apply (save_twice_stamped ("generated_tests/" +:+ category) name ".py" code1 code2
             "Test saved successfully to " "Error saving test: " s t2 Hv1 Hv2 Hsec).
    reflexivity.
  - rewrite !save_renode_code_eq.
    apply (save_twice_stamped (renode_dir category code_type) (Renode.sanitize uw name)
             (Renode.extension code_type) code1 code2
             "Code saved successfully to " "Error saving code: " s t2 Hv1 Hv2 Hsec).
    apply extension_no_slash.
Qed.

Lemma valid_noon : valid_datetime Examples.noon.
Proof. unfold valid_datetime. simpl. lia. Qed.

Lemma valid_noon_plus_1s : valid_datetime noon_plus_1s.
Proof. unfold valid_datetime. simpl. lia. Qed.

(** Saving [test_read] at noon and one second later leaves both versions
    on disk. *)
Lemma C6_saves_in_different_seconds_are_both_kept_witness :
  let out1 := Pynvme.save_test_case "test_read" "v1" "general" Examples.state0 in
  let out2 := Pynvme.save_test_case "test_read" "v2" "general"
                (set_now noon_plus_1s out1.1) in
  exists p1 p2,
    filepath_of out1.2 = Some p1 /\ filepath_of out2.2 = Some p2 /\ p1 <> p2 /\
    Fs.read (fs out2.1) p1 = Some "v1" /\ Fs.read (fs out2.1) p2 = Some "v2".
Proof.
  assert (Hsec : ~ same_second (now Examples.state0) noon_plus_1s)
    by (intros (_ & _ & _ & _ & _ & H); discriminate H).
  cbv zeta.
  apply (proj1 (C6_saves_in_different_seconds_are_both_kept Examples.ascii_only
                  "test_read" "v1" "v2" "resc" "general" Examples.state0 noon_plus_1s
                  valid_noon valid_noon_plus_1s Hsec)).
  - vm_compute. reflexivity.
  - vm_compute. reflexivity.
Defined.

(** C6 fails within one second: the timestamp of the file name stops at
    the second and nothing else tells two saves apart, so the second save
    of [test_read] opens the file of the first for writing and replaces its
    content. *)
Lemma C6_counterexample :
  let out1 := Pynvme.save_test_case "test_read" "v1" "general" Examples.state0 in
  let out2 := Pynvme.save_test_case "test_read" "v2" "general"
                (set_now noon_plus_half out1.1) in
  let r1 := Renode.save_renode_code Examples.ascii_only "uart" "v1" "resc" "tests"
              Examples.state0 in
  let r2 := Renode.save_renode_code Examples.ascii_only "uart" "v2" "resc" "tests"
              (set_now noon_plus_half r1.1) in
  (status_of out1.2 = Some "success" /\ status_of out2.2 = Some "success" /\
   filepath_of out1.2 = Some "generated_tests/general/test_read_20250115_120000.py" /\
   filepath_of out2.2 = Some "generated_tests/general/test_read_20250115_120000.py" /\
   Fs.read (fs out2.1) "generated_tests/general/test_read_20250115_120000.py" = Some "v2" /\
   Fs.listdir (fs out2.1) ["general"; "generated_tests"] =
     ["test_read_20250115_120000.py"]) /\
  (status_of r1.2 = Some "success" /\ status_of r2.2 = Some "success" /\
   filepath_of r1.2 = Some "generated_renode/tests/resc/uart_20250115_120000.resc" /\
   filepath_of r2.2 = Some "generated_renode/tests/resc/uart_20250115_120000.resc" /\
   Fs.read (fs r2.1) "generated_renode/tests/resc/uart_20250115_120000.resc" = Some "v2") /\
  ~ both_kept "v1" "v2" out1 out2.
Proof.
  cbv zeta. split; [vm_compute; repeat split|]. split; [vm_compute; repeat split|].
  intros H. destruct H as (p1 & p2 & H1 & H2 & Hne & _).
  - vm_compute. reflexivity.
  - vm_compute. reflexivity.
  - vm_compute in H1, H2. congruence.
Qed.

(** *** Sanitization in save_renode_code *)

Lemma is_unsafe_underscore (uw : ascii -> bool) : Renode.is_unsafe uw "_" = false.
Proof. reflexivity. Qed.

(** Every character of a sanitized name is a word character, a hyphen or
    an underscore. *)
Lemma sanitize_chars (uw : ascii -> bool) (filename : string) (c : ascii) :
  PyStr.has_char c (Renode.sanitize uw filename) = true -> Renode.is_unsafe uw c = false.
Proof.
  induction filename as [|x rest IH]; simpl; [discriminate|].
  rewrite orb_true_iff. intros [H|H]; [|now apply IH].
  apply Ascii.eqb_eq in H. subst c.
  destruct (Renode.is_unsafe uw x) eqn:Hx; [apply is_unsafe_underscore | exact Hx].
Qed.

Lemma sanitize_lacks (uw : ascii -> bool) (filename : string) (c : ascii) :
  Renode.is_unsafe uw c = true -> PyStr.has_char c (Renode.sanitize uw filename) = false.
Proof.
  intros Hc. destruct (PyStr.has_char c _) eqn:H; [|reflexivity].
  apply sanitize_chars in H. congruence.
Qed.

Lemma extension_no_nul (code_type : string) :
  PyStr.has_char Fs.nul (Renode.extension code_type) = false.
Proof.
  unfold Renode.extension, dict_get.
  repeat (case_bool_decide; [reflexivity|]). reflexivity.
Qed.

Lemma renode_filename_plain (uw : ascii -> bool) (filename code_type : string)
    (d : DateTime) :
  plain_name (renode_filename uw filename code_type d).
Proof.
  unfold renode_filename.
  destruct (suffixed_is_part (Renode.sanitize uw filename)
              (strftime_compact d +:+ Renode.extension code_type)) as (H0 & H1 & H2).
  repeat split; try assumption.
  - change ("_" +:+ strftime_compact d +:+ Renode.extension code_type)
      with (String "_" (strftime_compact d +:+ Renode.extension code_type)).
    rewrite PyStrFacts.has_char_app, (sanitize_lacks uw filename Fs.slash eq_refl).
    cbn [PyStr.has_char orb].
    rewrite stamp_suffix_no_slash by apply extension_no_slash. reflexivity.
  - change ("_" +:+ strftime_compact d +:+ Renode.extension code_type)
      with (String "_" (strftime_compact d +:+ Renode.extension code_type)).
    rewrite PyStrFacts.has_char_app, (sanitize_lacks uw filename Fs.nul eq_refl).
    cbn [PyStr.has_char orb].
    rewrite PyStrFacts.has_char_app, extension_no_nul.
    rewrite (strftime_compact_has_char _ _ not_digit_nul) by discriminate.
    reflexivity.
Qed.

Lemma plain_is_part (n : string) : plain_name n -> Path.is_part n = true.
Proof.
  intros (H0 & H1 & _). unfold Path.is_part.
  now rewrite !bool_decide_eq_false_2 by assumption.
Qed.

(** Joining a relative directory with a plain name adds one component. *)
Lemma joinpath_child (a full : string) :
  a <> EmptyString -> PyStr.startswith "/" a = false -> plain_name full ->
  Path.joinpath a full =
    Path.mk EmptyString (Path.parts (Path.parse a) ++ [full]) /\
  Path.root (Path.parse a) = EmptyString.
Proof.
  intros Ha Hrel Hfull.
  pose proof Hfull as (Hf0 & _ & _ & Hfs & _).
  assert (Hstart : PyStr.startswith "/" full = false).
  { destruct full as [|c full]; [congruence|]. simpl in Hfs |- *.
    apply orb_false_iff in Hfs. destruct Hfs as [Hc _].
    rewrite Ascii.eqb_sym in Hc. unfold Fs.slash in Hc. now rewrite Hc. }
  assert (Hroot : forall x, Path.root_of (a +:+ x) = EmptyString).
  { intros x. unfold Path.root_of. destruct a as [|c a]; [congruence|].
    rewrite PyStrFacts.app_cons. simpl in Hrel |- *.
    destruct (Ascii.eqb "/" c); [discriminate | reflexivity]. }
  assert (Hone : filter (fun c => Path.is_part c = true) [full] = [full]).
  { rewrite filter_cons, filter_nil. now rewrite (plain_is_part full Hfull). }
  split.
  2:{ unfold Path.parse. cbn [Path.root]. rewrite <- (PyStrFacts.app_nil_r a).
      apply Hroot. }
  unfold Path.joinpath, os_path_join. rewrite Hstart.
  destruct (PyStr.is_empty a) eqn:He; [destruct a; [congruence|discriminate]|].
  cbn [orb]. unfold Path.parse. cbn [Path.parts].
  destruct (endswith "/" a) eqn:Hend.
  - destruct (endswith_slash_inv a Hend) as [a' ->].
    rewrite Hroot. f_equal.
    rewrite PyStrFacts.app_assoc.
    change ("/" +:+ full) with (String Fs.slash full).
    change (a' +:+ "/") with (a' +:+ String Fs.slash EmptyString).
    rewrite !split_slash_app_slash, (split_slash_plain full Hfs).
    rewrite !filter_app, Hone.
    change (filter (fun c => Path.is_part c = true) (Fs.split_slash EmptyString))
      with (@nil string).
    now rewrite app_nil_r.
  - rewrite Hroot. f_equal.
    change ("/" +:+ full) with (String Fs.slash full).
    rewrite split_slash_app_slash, (split_slash_plain full Hfs).
    now rewrite filter_app, Hone.
Qed.

Lemma renode_dir_parts (category code_type : string) :
  exists rest,
    Path.parts (Path.parse (renode_dir category code_type)) = "generated_renode" :: rest.
Proof.
  unfold renode_dir, Path.parse. cbn [Path.parts].
  change ("generated_renode/" +:+ category +:+ "/" +:+ code_type)
    with ("generated_renode" +:+ String Fs.slash (category +:+ "/" +:+ code_type)).
  rewrite split_slash_app_slash.
  change (Fs.split_slash "generated_renode") with ["generated_renode"].
  rewrite filter_app. eexists. reflexivity.
Qed.

Lemma str_child (P : list string) (full : string) :
  P <> [] ->
  Path.str (Path.mk EmptyString (P ++ [full])) =
    Path.str (Path.mk EmptyString P) +:+ String Fs.slash full.
Proof.
  intros HP. unfold Path.str. cbn [Path.root Path.parts].
  destruct P as [|x P]; [congruence|].
  rewrite <- app_comm_cons. rewrite !PyStrFacts.app_nil_l.
  rewrite app_comm_cons, join_snoc. reflexivity.
Qed.

(** The location of a plain entry of a directory. *)
Lemma resolve_child (w : Fs.t) (D full : string) (l : Fs.loc) :
  D <> EmptyString -> plain_name full ->
  Fs.resolve w (D +:+ String Fs.slash full) = Ok l ->
  exists c, Fs.resolve w D = Ok c /\ l = full :: c.
Proof.
  intros HD (H0 & H1 & H2 & Hs & Hn). unfold Fs.resolve.
  rewrite PyStrFacts.has_char_app.
  destruct (PyStr.has_char Fs.nul D); [discriminate|]. cbn [orb].
  destruct (PyStr.has_char Fs.nul (String Fs.slash full)); [discriminate|].
  assert (Hstart : Fs.start (D +:+ String Fs.slash full) = Fs.start D).
  { unfold Fs.start. destruct D as [|c D]; [congruence|]. reflexivity. }
  assert (He : PyStr.is_empty (D +:+ String Fs.slash full) = false)
    by (destruct D; [congruence | reflexivity]).
  assert (He' : PyStr.is_empty D = false) by (destruct D; [congruence | reflexivity]).
  rewrite He, He', Hstart, split_slash_app_slash, (split_slash_plain full Hs), walk_app.
  destruct (Fs.walk w (Fs.start D) (Fs.split_slash D)) as [c|]; [|discriminate].
  rewrite walk_push by assumption.
  destruct (Fs.is_dir w c); [|discriminate]. intros [= <-]. eauto.
Qed.

(** What [save_renode_code] does with the requested file name: it is
    rewritten over the restricted character set, the file name built from
    it is one plain path component, the path is the output directory plus
    that component, and on success the file lies directly in the output
    directory. *)
Lemma save_renode_code_confined
    (uw : ascii -> bool) (filename code code_type category : string) (s : State) :
  let safe := Renode.sanitize uw filename in
  let full := renode_filename uw filename code_type (now s) in
  let code_dir := renode_dir category code_type in
  let filepath := Path.joinpath code_dir full in
  let out := Renode.save_renode_code uw filename code code_type category s in
  (forall c, PyStr.has_char c safe = true -> Renode.is_unsafe uw c = false) /\
  PyStr.has_char "/" safe = false /\ PyStr.has_char "." safe = false /\
  plain_name full /\
  Path.parent filepath = Path.parse code_dir /\ Path.name filepath = full /\
  (status_of out.2 = Some "success" ->
   filepath_of out.2 = Some (Path.str filepath) /\
   exists c, Fs.resolve (fs out.1) (Path.str (Path.parse code_dir)) = Ok c /\
             Fs.resolve (fs out.1) (Path.str filepath) = Ok (full :: c) /\
             Fs.read (fs out.1) (Path.str filepath) = Some code).
Proof.
  cbv zeta.
  pose proof (renode_filename_plain uw filename code_type (now s)) as Hplain.
  destruct (renode_dir_parts category code_type) as [rest Hparts].
  destruct (joinpath_child (renode_dir category code_type)
              (renode_filename uw filename code_type (now s)))
    as [Hjoin Hroot]; [discriminate | reflexivity | exact Hplain |].
  split; [apply sanitize_chars|].
  split; [now apply sanitize_lacks|]. split; [now apply sanitize_lacks|].
  split; [exact Hplain|].
  split; [|split].
  - rewrite Hjoin. unfold Path.parent. cbn [Path.root Path.parts].
    rewrite removelast_last. unfold Path.parse in *. cbn [Path.root] in Hroot.
    now rewrite Hroot.
  - rewrite Hjoin. unfold Path.name. cbn [Path.parts]. apply last_last.
  - rewrite save_renode_code_eq.
    destruct (save_outcome _ _ code s) as [s' [p|e]] eqn:Hout; cbn [fst snd];
      [|discriminate].
    intros _. destruct (save_outcome_success _ _ _ _ _ _ Hout) as [-> Hread].
    split; [reflexivity|].
    unfold save_outcome in Hout.
    destruct (Fs.makedirs _ (fs s)) as [w1 [[]|e]]; [|discriminate].
    destruct (Fs.open_write _ code w1) as [w2 [[]|e]] eqn:Hw; [|discriminate].
    injection Hout as <-. cbn [fs set_fs].
    destruct (open_write_ok _ _ _ _ Hw) as (l & Hres & ->).
    assert (Hstr : Path.str (Path.joinpath (renode_dir category code_type)
                      (renode_filename uw filename code_type (now s))) =
                   Path.str (Path.parse (renode_dir category code_type)) +:+
                   String Fs.slash (renode_filename uw filename code_type (now s))).
    { rewrite Hjoin, str_child by (rewrite Hparts; discriminate).
      reflexivity. }
    rewrite Hstr in Hres.
    assert (HD : Path.str (Path.parse (renode_dir category code_type)) <> EmptyString).
    { unfold Path.str. rewrite Hparts, Hroot. destruct rest; discriminate. }
    destruct (resolve_child w1 _ _ l HD Hplain Hres) as (c & Hc & ->).
    exists c. split; [|split].
    + eapply resolve_dirs; [|exact Hc]. reflexivity.
    + rewrite Hstr. eapply resolve_dirs; [|exact Hres]. reflexivity.
    + cbn [fs set_fs] in Hread. exact Hread.
Qed.

(** C7, the failing input.  [save_test_case] uses the requested test name
    as it comes: with the name [../../evil] the save reports success and the
    file is written two levels above the output directory
    [generated_tests/general], in the working directory; with the name
    [/tmp/evil] it is written under [/tmp].  (The sibling tool
    [save_renode_code] rewrites the name first, see
    [save_renode_code_confined].) *)
Theorem C7_save_test_case_leaves_output_directory :
  let out := Pynvme.save_test_case "../../evil" "code" "general" Examples.state0 in
  let abs := Pynvme.save_test_case "/tmp/evil" "code" "general" with_tmp in
  (status_of out.2 = Some "success" /\
   filepath_of out.2 = Some "generated_tests/general/../../evil_20250115_120000.py" /\
   Fs.resolve (fs out.1) "generated_tests/general" = Ok ["general"; "generated_tests"] /\
   Fs.resolve (fs out.1) "generated_tests/general/../../evil_20250115_120000.py" =
     Ok ["evil_20250115_120000.py"] /\
   ~ Fs.under ["generated_tests"] ["evil_20250115_120000.py"] /\
   Fs.read (fs out.1) "evil_20250115_120000.py" = Some "code") /\
  (status_of abs.2 = Some "success" /\
   filepath_of abs.2 = Some "/tmp/evil_20250115_120000.py" /\
   Fs.resolve (fs abs.1) "/tmp/evil_20250115_120000.py" =
     Ok ["evil_20250115_120000.py"; "tmp"; "/"] /\
   Fs.read (fs abs.1) "/tmp/evil_20250115_120000.py" = Some "code") /\
  Path.parent (Path.joinpath "generated_tests/general"
                 (test_filename "../../evil" Examples.noon)) <>
    Path.parse "generated_tests/general".
Proof.
  cbv zeta. split; [|split].
  - vm_compute. repeat split. intros H. apply not_under_short in H; [exact H|].
    simpl. lia.
  - vm_compute. repeat split.
  - vm_compute. discriminate.
Qed.

(** The flags matter: the same load made with [recreate=True] would empty
    the collection of the chunks whose files are gone. *)
Example recreate_would_drop :
  VectorIndex.ids (VectorIndex.get "code_review_docs"
    (index (kb_load Examples.echo CodeReviewer.code_knowledge false true indexed_only).1)) =
    ["old.c"] /\
  VectorIndex.ids (VectorIndex.get "code_review_docs"
    (index (kb_load Examples.echo CodeReviewer.code_knowledge true true indexed_only).1)) =
    [].
Proof. vm_compute. split; reflexivity. Qed.

(** * The tool functions and further page sections *)

(** ** Regular expressions: the matcher against the matching relation *)

Module ReFacts.
Import PyStrFacts.

Lemma append_nil_inv (a b : string) :
  a +:+ b = EmptyString -> a = EmptyString /\ b = EmptyString.
Proof. destruct a; str_simpl; [auto | discriminate]. Qed.

Lemma append_cons_inv (a b s : string) (c : ascii) :
  a +:+ b = String c s ->
  (a = EmptyString /\ b = String c s) \/
  (exists a', a = String c a' /\ s = a' +:+ b).
Proof.
  destruct a as [|x a]; str_simpl; intros H.
  - now left.
  - injection H as -> <-. right. now exists a.
Qed.

Lemma nullable_spec (r : Re.t) :
  Re.nullable r = true <-> Re.Matches r EmptyString.
Proof.
  induction r as [| |p|r1 IH1 r2 IH2|r1 IH1 r2 IH2|r IH]; simpl.
  - split; [discriminate | intros H; inversion H].
  - split; [constructor | reflexivity].
  - split; [discriminate | intros H; inversion H].
  - rewrite andb_true_iff, IH1, IH2. split.
    + intros [H1 H2]. change EmptyString with (EmptyString +:+ EmptyString).
      now constructor.
    + intros H. inversion H as [| |? ? s1 s2 H1 H2| | | |]; subst.
      match goal with E : _ +:+ _ = _ |- _ => apply append_nil_inv in E as [-> ->] end.
      now split.
  - rewrite orb_true_iff, IH1, IH2. split.
    + intros [H|H]; [now apply Re.MOrL | now apply Re.MOrR].
    + intros H. inversion H; subst; auto.
  - split; [constructor | reflexivity].
Qed.

(** A non-empty match of a repetition starts with a non-empty match of
    its body. *)
Lemma star_cons_inv (r : Re.t) (c : ascii) (s : string) :
  Re.Matches (Re.Star r) (String c s) ->
  exists s1 s2, s = s1 +:+ s2 /\ Re.Matches r (String c s1) /\
                Re.Matches (Re.Star r) s2.
Proof.
  remember (Re.Star r) as rs eqn:Er. remember (String c s) as cs eqn:Es.
  intros H. revert r c s Er Es.
  induction H as [| | | | | |r' s1 s2 H1 _ H2 IH2]; intros r0 c0 s0 Er Es;
    try discriminate.
  injection Er as ->.
  apply append_cons_inv in Es as [[-> ->] | [a' [-> ->]]].
  - now apply IH2.
  - now exists a', s2.
Qed.

Lemma deriv_spec (r : Re.t) (c : ascii) (s : string) :
  Re.Matches (Re.deriv c r) s <-> Re.Matches r (String c s).
Proof.
  revert s. induction r as [| |p|r1 IH1 r2 IH2|r1 IH1 r2 IH2|r IH]; intros s; simpl.
  - split; intros H; inversion H.
  - split; intros H; inversion H.
  - destruct (p c) eqn:Ep.
    + split; intros H; inversion H; subst; [now constructor | constructor].
    + split; intros H; inversion H; subst; congruence.
  - assert (Hcat : Re.Matches (Re.Cat (Re.deriv c r1) r2) s ->
                   Re.Matches (Re.Cat r1 r2) (String c s)).
    { intros H. inversion H as [| |? ? s1 s2 H1 H2| | | |]; subst.
      apply IH1 in H1. change (String c (s1 +:+ s2)) with (String c s1 +:+ s2).
      now constructor. }
    assert (Hinv : Re.Matches (Re.Cat r1 r2) (String c s) ->
                   Re.Matches (Re.Cat (Re.deriv c r1) r2) s \/
                   (Re.Matches r1 EmptyString /\ Re.Matches (Re.deriv c r2) s)).
    { intros H. inversion H as [| |? ? s1 s2 H1 H2| | | |]; subst.
      match goal with E : _ +:+ _ = _ |- _ =>
        apply append_cons_inv in E as [[-> ->] | [a' [-> ->]]] end.
      - right. split; [assumption | now apply IH2].
      - left. constructor; [now apply IH1 | assumption]. }
    destruct (Re.nullable r1) eqn:En.
    + split.
      * intros H. inversion H; subst; [now apply Hcat |].
        change (String c s) with (EmptyString +:+ String c s).
        constructor; [now apply nullable_spec | now apply IH2].
      * intros H. apply Hinv in H as [H | [_ H]];
          [now apply Re.MOrL | now apply Re.MOrR].
    + split; [apply Hcat |].
      intros H. apply Hinv in H as [H | [H _]]; [assumption |].
      apply nullable_spec in H. congruence.
  - split.
    + intros H. inversion H; subst;
        [apply Re.MOrL; now apply IH1 | apply Re.MOrR; now apply IH2].
    + intros H. inversion H; subst;
        [apply Re.MOrL; now apply IH1 | apply Re.MOrR; now apply IH2].
  - split.
    + intros H. inversion H as [| |? ? s1 s2 H1 H2| | | |]; subst.
      apply IH in H1. change (String c (s1 +:+ s2)) with (String c s1 +:+ s2).
      now constructor.
    + intros H. apply star_cons_inv in H as [s1 [s2 [-> [H1 H2]]]].
      constructor; [now apply IH | assumption].
Qed.

(** [re.match]: a prefix matches. *)
Lemma match_spec (r : Re.t) (s : string) :
  Re.match_ r s = true <-> exists pre post, s = pre +:+ post /\ Re.Matches r pre.
Proof.
  revert r. induction s as [|c s IH]; intros r; cbn [Re.match_].
  - rewrite orb_false_r, nullable_spec. split.
    + intros H. now exists EmptyString, EmptyString.
    + intros [pre [post [E H]]]. symmetry in E.
      apply append_nil_inv in E as [-> _]. assumption.
  - rewrite orb_true_iff, nullable_spec, IH. split.
    + intros [H | [pre [post [-> H]]]].
      * now exists EmptyString, (String c s).
      * exists (String c pre), post. split; [reflexivity | now apply deriv_spec].
    + intros [pre [post [E H]]]. symmetry in E.
      apply append_cons_inv in E as [[-> ->] | [a' [-> ->]]].
      * now left.
      * right. exists a', post. split; [reflexivity | now apply deriv_spec].
Qed.

(** [re.search]: a substring matches. *)
Lemma search_spec (r : Re.t) (s : string) :
  Re.search r s = true <->
  exists pre m post, s = pre +:+ m +:+ post /\ Re.Matches r m.
Proof.
  induction s as [|c s IH]; cbn [Re.search].
  - rewrite orb_false_r, match_spec. split.
    + intros [m [post [E H]]]. now exists EmptyString, m, post.
    + intros [pre [m [post [E H]]]]. symmetry in E.
      apply append_nil_inv in E as [-> E]. now exists m, post.
  - rewrite orb_true_iff, match_spec, IH. split.
    + intros [[m [post [E H]]] | [pre [m [post [-> H]]]]].
      * now exists EmptyString, m, post.
      * now exists (String c pre), m, post.
    + intros [pre [m [post [E H]]]]. destruct pre as [|x pre]; str_simpl.
      * left. now exists m, post.
      * injection E as <- ->. right. now exists pre, m, post.
Qed.

End ReFacts.

(** ** Substrings *)

Lemma contains_trans (a b s : string) :
  PyStr.contains a b = true -> PyStr.contains b s = true -> PyStr.contains a s = true.
Proof.
  rewrite !PyStrFacts.contains_spec.
  intros (p & q & ->) (pre & post & ->).
  exists (pre +:+ p), (q +:+ post).
  now rewrite !PyStrFacts.app_assoc.
Qed.

Lemma contains_embed (n pre s post : string) :
  PyStr.contains n s = true -> PyStr.contains n (pre +:+ s +:+ post) = true.
Proof.
  rewrite !PyStrFacts.contains_spec.
  intros (p & q & ->). exists (pre +:+ p), (q +:+ post).
  now rewrite !PyStrFacts.app_assoc.
Qed.

Lemma lower_app (U : PyText.Unicode) (a b : string) :
  PyText.lower U (a +:+ b) = PyText.lower U a +:+ PyText.lower U b.
Proof.
  induction a as [|c a IH]; [reflexivity|].
  rewrite PyStrFacts.app_cons. cbn [PyText.lower].
  now rewrite IH, PyStrFacts.app_assoc.
Qed.

(** ** validate_test_syntax: the warnings *)

Lemma validate_test_syntax_warnings (test_code : string) :
  Pynvme.warnings (Pynvme.validate_test_syntax test_code) =
    (if negb (PyStr.contains "nvme" test_code) &&
        negb (PyStr.contains "subsystem" test_code)
     then ["No PyNVMe fixture (nvme/subsystem) detected"] else []) ++
    (if negb (PyStr.contains "assert" test_code)
     then ["No assertions found in test"] else []).
Proof.
  unfold Pynvme.validate_test_syntax. simpl.
  destruct (PyStr.contains "pytest" test_code),
           (PyStr.contains "pynvme" test_code),
           (PyStr.contains "def test_" test_code),
           (PyStr.contains "nvme" test_code),
           (PyStr.contains "subsystem" test_code),
           (PyStr.contains "assert" test_code); reflexivity.
Qed.

(** X1.  In [validate_test_syntax] the fixture check is subsumed by the
    import check, because "nvme" is part of "pynvme": the warning about a
    missing PyNVMe fixture is only ever given together with the error about
    the missing pynvme import, so a test that validates gets no warning but,
    at most, the one about missing assertions. *)
Theorem X1_fixture_warning_only_with_import_error (test_code : string) :
  let r := Pynvme.validate_test_syntax test_code in
  ("No PyNVMe fixture (nvme/subsystem) detected" ∈ Pynvme.warnings r ->
     "Missing import: pynvme" ∈ Pynvme.errors r /\ Pynvme.is_valid r = false) /\
  (Pynvme.is_valid r = true ->
     Pynvme.warnings r = [] \/ Pynvme.warnings r = ["No assertions found in test"]).
Proof.
  cbv zeta.
  assert (Hsub : PyStr.contains "pynvme" test_code = true ->
                 PyStr.contains "nvme" test_code = true)
    by (apply contains_trans; reflexivity).
  rewrite validate_test_syntax_warnings, validate_test_syntax_errors,
    validate_test_syntax_is_valid.
  unfold Pynvme.missing_error.
  destruct (PyStr.contains "pynvme" test_code);
    [rewrite (Hsub eq_refl) | clear Hsub];
    destruct (PyStr.contains "pytest" test_code),
             (PyStr.contains "def test_" test_code),
             (PyStr.contains "assert" test_code);
    try destruct (PyStr.contains "nvme" test_code);
    try destruct (PyStr.contains "subsystem" test_code);
    simpl; (split; [intros H0; pose proof (bool_decide_pack _ H0) as H; clear H0;
                    vm_compute in H
                   | intros H]);
    first [ discriminate H | contradiction H | idtac ];
    first [ now left | now right
          | split; [repeat first [apply list_elem_of_here | apply list_elem_of_further]
                   | reflexivity] ].
Qed.

(** ** check_pynvme_best_practices *)

(** The four checks, as the conditions of the function have them. *)
Lemma check_pynvme_best_practices_eq (U : PyText.Unicode) (test_code : string) :
  let cleanup := PyStr.contains "nvme.close()" test_code || PyStr.contains "with " test_code in
  let handling := PyStr.contains "try:" test_code || PyStr.contains "pytest.raises" test_code in
  let timeout := PyStr.contains "timeout" (PyText.lower U test_code) in
  let docs := PyStr.contains PyText.dq3 test_code || PyStr.contains "'''" test_code in
  let r := PynvmeTools.check_pynvme_best_practices U test_code in
  PynvmeTools.good_practices r =
    (if cleanup then ["Proper resource cleanup detected"] else []) ++
    (if handling then ["Error handling present"] else []) ++
    (if timeout then ["Timeout handling present"] else []) ++
    (if docs then ["Test documentation present"] else []) /\
  PynvmeTools.improvements_needed r =
    (if cleanup then []
     else ["Add proper cleanup: use context managers or explicit nvme.close()"]) ++
    (if handling then [] else ["Consider adding error handling for robustness"]) ++
    (if timeout then []
     else ["Consider adding timeout parameters for long operations"]) ++
    (if docs then []
     else ["Add docstring to explain test purpose and expected behavior"]).
Proof.
  cbv zeta. unfold PynvmeTools.check_pynvme_best_practices.
  destruct (PyStr.contains "nvme.close()" test_code || PyStr.contains "with " test_code),
           (PyStr.contains "try:" test_code || PyStr.contains "pytest.raises" test_code),
           (PyStr.contains "timeout" (PyText.lower U test_code)),
           (PyStr.contains PyText.dq3 test_code || PyStr.contains "'''" test_code);
    split; reflexivity.
Qed.

Lemma orb_mono (a b a' b' : bool) :
  (a = true -> a' = true) -> (b = true -> b' = true) ->
  a || b = true -> a' || b' = true.
Proof. destruct a, b, a', b'; intuition congruence. Qed.

Lemma sublist_if_mono {A} (b b' : bool) (x : A) :
  (b = true -> b' = true) ->
  sublist (if b then [x] else []) (if b' then [x] else []).
Proof.
  destruct b, b'; intros H; try reflexivity.
  - specialize (H eq_refl). discriminate.
  - apply sublist_nil_l.
Qed.

(** X2.  [check_pynvme_best_practices] runs four checks and each of them
    adds exactly one message to exactly one of the two lists, so the lists
    always hold four messages together; and a good practice found in a piece
    of code is still found when that code is part of a larger text. *)
Theorem X2_best_practices_four_checks_monotone
    (U : PyText.Unicode) (pre test_code post : string) :
  let r := PynvmeTools.check_pynvme_best_practices U test_code in
  let r' := PynvmeTools.check_pynvme_best_practices U (pre +:+ test_code +:+ post) in
  length (PynvmeTools.good_practices r) +
    length (PynvmeTools.improvements_needed r) = 4 /\
  sublist (PynvmeTools.good_practices r) (PynvmeTools.good_practices r') /\
  sublist (PynvmeTools.improvements_needed r') (PynvmeTools.improvements_needed r).
Proof.
  cbv zeta.
  destruct (check_pynvme_best_practices_eq U test_code) as [-> ->].
  destruct (check_pynvme_best_practices_eq U (pre +:+ test_code +:+ post)) as [-> ->].
  split.
  { destruct (PyStr.contains "nvme.close()" test_code || PyStr.contains "with " test_code),
      (PyStr.contains "try:" test_code || PyStr.contains "pytest.raises" test_code),
      (PyStr.contains "timeout" (PyText.lower U test_code)),
      (PyStr.contains PyText.dq3 test_code || PyStr.contains "'''" test_code);
      reflexivity. }
  assert (H1 := orb_mono _ _ _ _
    (contains_embed "nvme.close()" pre test_code post)
    (contains_embed "with " pre test_code post)).
  assert (H2 := orb_mono _ _ _ _
    (contains_embed "try:" pre test_code post)
    (contains_embed "pytest.raises" pre test_code post)).
  assert (H3 : PyStr.contains "timeout" (PyText.lower U test_code) = true ->
               PyStr.contains "timeout" (PyText.lower U (pre +:+ test_code +:+ post)) = true).
  { rewrite !lower_app. apply contains_embed. }
  assert (H4 := orb_mono _ _ _ _
    (contains_embed PyText.dq3 pre test_code post)
    (contains_embed "'''" pre test_code post)).
  split.
  - repeat apply sublist_app; now apply sublist_if_mono.
  - revert H1 H2 H3 H4.
    generalize (PyStr.contains "nvme.close()" test_code || PyStr.contains "with " test_code),
      (PyStr.contains "nvme.close()" (pre +:+ test_code +:+ post) ||
         PyStr.contains "with " (pre +:+ test_code +:+ post)),
      (PyStr.contains "try:" test_code || PyStr.contains "pytest.raises" test_code),
      (PyStr.contains "try:" (pre +:+ test_code +:+ post) ||
         PyStr.contains "pytest.raises" (pre +:+ test_code +:+ post)),
      (PyStr.contains "timeout" (PyText.lower U test_code)),
      (PyStr.contains "timeout" (PyText.lower U (pre +:+ test_code +:+ post))),
      (PyStr.contains PyText.dq3 test_code || PyStr.contains "'''" test_code),
      (PyStr.contains PyText.dq3 (pre +:+ test_code +:+ post) ||
         PyStr.contains "'''" (pre +:+ test_code +:+ post)).
    intros a a' b b' c c' d d' H1 H2 H3 H4.
    repeat apply sublist_app.
    + destruct a, a'; try reflexivity; [now specialize (H1 eq_refl) | apply sublist_nil_l].
    + destruct b, b'; try reflexivity; [now specialize (H2 eq_refl) | apply sublist_nil_l].
    + destruct c, c'; try reflexivity; [now specialize (H3 eq_refl) | apply sublist_nil_l].
    + destruct d, d'; try reflexivity; [now specialize (H4 eq_refl) | apply sublist_nil_l].
Qed.

(** ** suggest_test_improvements *)

Lemma join_cons_head (sep : string) (c : ascii) (x : string) (l : list string) :
  exists rest, PyStr.join sep (String c x :: l) = String c rest.
Proof.
  destruct l as [|y l]; cbn [PyStr.join]; [now exists x|].
  rewrite PyStrFacts.app_cons. eauto.
Qed.

(** When [suggest_test_improvements] finds nothing to say. *)
Lemma suggest_test_improvements_good (test_code : string)
    (validation_results : Pynvme.ValidationResults) :
  PynvmeTools.suggest_test_improvements test_code validation_results = "Test looks good!" <->
  Pynvme.is_valid validation_results = true /\
  Pynvme.warnings validation_results = [] /\
  PyStr.contains "pytest.mark" test_code = true /\
  PyStr.contains "logging" test_code = true.
Proof.
  unfold PynvmeTools.suggest_test_improvements.
  destruct validation_results as [valid errs warns suggs]. cbn [Pynvme.is_valid
    Pynvme.errors Pynvme.warnings].
  destruct valid; cbn [negb].
  2:{ rewrite app_nil_l. cbn [app].
      match goal with |- context [PyStr.join nl ?l] => set (L := l) end.
      assert (HL : exists rest, L = "CRITICAL: Fix validation errors first" :: rest).
      { subst L. repeat match goal with |- context [if ?b then _ else _] => destruct b end;
          rewrite <- ?app_assoc; cbn [app]; eauto. }
      destruct HL as [rest ->]. cbn [nonempty].
      destruct (join_cons_head nl "C" "RITICAL: Fix validation errors first" rest)
        as [tl ->].
      split; [discriminate | intros [? _]; discriminate]. }
  destruct warns as [|w warns]; cbn [nonempty].
  2:{ rewrite app_nil_l. cbn [app fmap list_fmap].
      match goal with |- context [PyStr.join nl ?l] => set (L := l) end.
      assert (HL : exists rest, L = (nl +:+ "WARNINGS:") :: rest).
      { subst L. repeat match goal with |- context [if ?b then _ else _] => destruct b end;
          rewrite <- ?app_assoc; cbn [app]; eauto. }
      destruct HL as [rest ->]. cbn [nonempty].
      destruct (join_cons_head nl (ascii_of_nat 10) "WARNINGS:" rest) as [tl Htl].
      change (nl +:+ "WARNINGS:") with (String (ascii_of_nat 10) "WARNINGS:").
      rewrite Htl.
      split; [discriminate | intros (_ & ? & _); discriminate]. }
  destruct (PyStr.contains "pytest.mark" test_code); cbn [negb].
  2:{ rewrite app_nil_l.
      match goal with |- context [PyStr.join nl ?l] => set (L := l) end.
      assert (HL : exists rest,
        L = (nl +:+ "Consider adding pytest markers (@pytest.mark.parametrize, etc.)")
              :: rest).
      { subst L. destruct (negb _); cbn [app]; eauto. }
      destruct HL as [rest ->]. cbn [nonempty].
      destruct (join_cons_head nl (ascii_of_nat 10)
                  "Consider adding pytest markers (@pytest.mark.parametrize, etc.)" rest)
        as [tl Htl].
      change (nl +:+ "Consider adding pytest markers (@pytest.mark.parametrize, etc.)")
        with (String (ascii_of_nat 10)
                "Consider adding pytest markers (@pytest.mark.parametrize, etc.)").
      rewrite Htl.
      split; [discriminate | intros (_ & _ & ? & _); discriminate]. }
  destruct (PyStr.contains "logging" test_code); cbn [negb nonempty app].
  - split; [auto | reflexivity].
  - split; [discriminate | intros (_ & _ & _ & ?); discriminate].
Qed.

(** X3.  [suggest_test_improvements] answers "Test looks good!" exactly when
    the validation results it is given are valid and carry no warning and the
    code mentions both "pytest.mark" and "logging"; in every other case the
    answer is a list of suggestions. *)
Theorem X3_suggest_test_improvements_looks_good_iff (test_code : string)
    (validation_results : Pynvme.ValidationResults) :
  PynvmeTools.suggest_test_improvements test_code validation_results = "Test looks good!" <->
  Pynvme.is_valid validation_results = true /\
  Pynvme.warnings validation_results = [] /\
  PyStr.Substring "pytest.mark" test_code /\
  PyStr.Substring "logging" test_code.
Proof.
  rewrite suggest_test_improvements_good, !PyStrFacts.contains_spec. reflexivity.
Qed.

(** X4.  Validation followed by suggestions: a test gets "Test looks good!"
    from [suggest_test_improvements] on its own [validate_test_syntax]
    results exactly when it contains "pynvme", "def test_", "assert",
    "pytest.mark" and "logging".  The checks for "pytest" and for a fixture
    add nothing: "pytest" is part of "pytest.mark" and "nvme" is part of
    "pynvme". *)
Theorem X4_validated_test_looks_good_iff (test_code : string) :
  PynvmeTools.suggest_test_improvements test_code
    (Pynvme.validate_test_syntax test_code) = "Test looks good!" <->
  PyStr.Substring "pynvme" test_code /\
  PyStr.Substring "def test_" test_code /\
  PyStr.Substring "assert" test_code /\
  PyStr.Substring "pytest.mark" test_code /\
  PyStr.Substring "logging" test_code.
Proof.
  rewrite suggest_test_improvements_good, validate_test_syntax_is_valid,
    validate_test_syntax_warnings, <- !PyStrFacts.contains_spec.
  assert (H1 : PyStr.contains "pynvme" test_code = true ->
               PyStr.contains "nvme" test_code = true)
    by (apply contains_trans; reflexivity).
  assert (H2 : PyStr.contains "pytest.mark" test_code = true ->
               PyStr.contains "pytest" test_code = true)
    by (apply contains_trans; reflexivity).
  destruct (PyStr.contains "pynvme" test_code);
    [rewrite (H1 eq_refl) | clear H1];
    (destruct (PyStr.contains "pytest.mark" test_code);
     [rewrite (H2 eq_refl) | clear H2]);
    destruct (PyStr.contains "def test_" test_code),
             (PyStr.contains "assert" test_code),
             (PyStr.contains "logging" test_code);
    try destruct (PyStr.contains "pytest" test_code);
    try destruct (PyStr.contains "nvme" test_code);
    try destruct (PyStr.contains "subsystem" test_code);
    cbn; intuition congruence.
Qed.

(** ** get_test_template *)

(** X5.  Whatever test type is asked for, known or not, the template that
    [get_test_template] returns passes [validate_test_syntax] without an
    error, and always with the one warning that it has no assertion. *)
Theorem X5_every_test_template_validates (test_type : string) :
  let r := Pynvme.validate_test_syntax (PynvmeTools.get_test_template test_type) in
  Pynvme.is_valid r = true /\ Pynvme.errors r = [] /\
  Pynvme.warnings r = ["No assertions found in test"].
Proof.
  cbv zeta. unfold PynvmeTools.get_test_template, PynvmeTools.templates, dict_get.
  repeat case_bool_decide; cbn [default from_option id]; vm_compute; auto.
Qed.

(** ** Matching character classes and literals *)

(** Concatenations in right-nested form. *)
Ltac str_norm :=
  repeat first [ rewrite PyStrFacts.app_assoc
               | rewrite PyStrFacts.app_cons
               | rewrite PyStrFacts.app_nil_l
               | rewrite PyStrFacts.app_nil_r ].

Module ReClassFacts.
Import PyStrFacts.

Lemma matches_chr (p : ascii -> bool) (s : string) :
  Re.Matches (Re.Chr p) s <-> exists c, s = String c EmptyString /\ p c = true.
Proof.
  split.
  - intros H. inversion H; subst. eauto.
  - intros (c & -> & Hc). now constructor.
Qed.

Lemma matches_cat (r1 r2 : Re.t) (s : string) :
  Re.Matches (Re.Cat r1 r2) s <->
  exists s1 s2, s = s1 +:+ s2 /\ Re.Matches r1 s1 /\ Re.Matches r2 s2.
Proof.
  split.
  - intros H. inversion H; subst. eauto.
  - intros (s1 & s2 & -> & H1 & H2). now constructor.
Qed.

Lemma matches_lit (x s : string) : Re.Matches (Re.Lit x) s <-> s = x.
Proof.
  revert s. induction x as [|c x IH]; intros s; cbn [Re.Lit].
  - split; [intros H; now inversion H | intros ->; constructor].
  - rewrite matches_cat. split.
    + intros (s1 & s2 & -> & H1 & H2). apply matches_chr in H1 as (c' & -> & Hc).
      apply Ascii.eqb_eq in Hc as <-. apply IH in H2 as ->. reflexivity.
    + intros ->. exists (String c EmptyString), x. split; [reflexivity|].
      split; [constructor; apply Ascii.eqb_refl | now apply IH].
Qed.

Lemma all_chars_app (p : ascii -> bool) (a b : string) :
  PyText.all_chars p (a +:+ b) = PyText.all_chars p a && PyText.all_chars p b.
Proof.
  induction a as [|c a IH]; [reflexivity|].
  rewrite app_cons. cbn [PyText.all_chars]. now rewrite IH, andb_assoc.
Qed.

Lemma matches_star_chr (p : ascii -> bool) (s : string) :
  Re.Matches (Re.Star (Re.Chr p)) s <-> PyText.all_chars p s = true.
Proof.
  split.
  - remember (Re.Star (Re.Chr p)) as r eqn:Er. intros H.
    induction H as [| | | | | |r' s1 s2 H1 _ H2 IH2]; try discriminate; [reflexivity|].
    injection Er as ->. apply matches_chr in H1 as (c & -> & Hc).
    rewrite app_cons, app_nil_l. cbn [PyText.all_chars]. rewrite Hc. now apply IH2.
  - induction s as [|c s IH]; cbn [PyText.all_chars]; [constructor|].
    rewrite andb_true_iff. intros [Hc Hs].
    change (String c s) with (String c EmptyString +:+ s).
    constructor; [now constructor | now apply IH].
Qed.

Lemma matches_plus_chr (p : ascii -> bool) (s : string) :
  Re.Matches (Re.Plus (Re.Chr p)) s <->
  exists c s', s = String c s' /\ p c = true /\ PyText.all_chars p s' = true.
Proof.
  unfold Re.Plus. rewrite matches_cat. split.
  - intros (s1 & s2 & -> & H1 & H2). apply matches_chr in H1 as (c & -> & Hc).
    apply matches_star_chr in H2. exists c, s2. now rewrite app_cons, app_nil_l.
  - intros (c & s' & -> & Hc & Hs). exists (String c EmptyString), s'.
    split; [reflexivity|]. split; [now constructor | now apply matches_star_chr].
Qed.

(** A non-empty run of characters of a class ends in one of them. *)
Lemma all_chars_last (p : ascii -> bool) (c : ascii) (s : string) :
  p c = true -> PyText.all_chars p s = true ->
  exists s0 a, String c s = s0 +:+ String a EmptyString /\ p a = true.
Proof.
  revert c. induction s as [|x s IH]; intros c Hc Hs.
  - now exists EmptyString, c.
  - cbn [PyText.all_chars] in Hs. apply andb_true_iff in Hs as [Hx Hs].
    destruct (IH x Hx Hs) as (s0 & a & E & Ha).
    exists (String c s0), a. rewrite app_cons, <- E. now split.
Qed.

End ReClassFacts.

(** ** validate_renode_syntax *)

(** What [re.search] finds for the pattern of a peripheral definition: a
    word character, a colon, any white space, then a word character or a
    dot. *)
Lemma peripheral_definition_spec (U : PyText.Unicode) (code : string) :
  Re.search (RenodeTools.peripheral_definition U) code = true <->
  exists pre a ws b post,
    code = pre +:+ String a (":" +:+ ws +:+ String b post) /\
    Renode.is_word (PyText.word_char U) a = true /\
    PyText.all_chars (PyText.is_space U) ws = true /\
    (Renode.is_word (PyText.word_char U) b = true \/ b = "."%char).
Proof.
  rewrite ReFacts.search_spec. unfold RenodeTools.peripheral_definition. split.
  - intros (pre & m & post & -> & H).
    apply ReClassFacts.matches_cat in H as (w & m1 & -> & Hw & H).
    apply ReClassFacts.matches_cat in H as (c & m2 & -> & Hc & H).
    apply ReClassFacts.matches_cat in H as (ws & wd & -> & Hws & Hwd).
    apply ReClassFacts.matches_plus_chr in Hw as (a0 & w' & -> & Ha0 & Hw').
    apply ReClassFacts.matches_lit in Hc as ->.
    apply ReClassFacts.matches_star_chr in Hws.
    apply ReClassFacts.matches_plus_chr in Hwd as (b & wd' & -> & Hb & _).
    destruct (ReClassFacts.all_chars_last _ a0 w' Ha0 Hw') as (w0 & a & -> & Ha).
    exists (pre +:+ w0), a, ws, b, (wd' +:+ post). split; [|split; [exact Ha|split]].
    + str_norm. reflexivity.
    + exact Hws.
    + apply orb_true_iff in Hb as [Hb|Hb]; [now left | right].
      now apply Ascii.eqb_eq in Hb.
  - intros (pre & a & ws & b & post & -> & Ha & Hws & Hb).
    exists pre, (String a EmptyString +:+ ":" +:+ ws +:+ String b EmptyString), post.
    split.
    + str_norm. reflexivity.
    + constructor.
      { apply ReClassFacts.matches_plus_chr. now exists a, EmptyString. }
      constructor; [now apply ReClassFacts.matches_lit|].
      constructor; [now apply ReClassFacts.matches_star_chr|].
      apply ReClassFacts.matches_plus_chr. exists b, EmptyString.
      split; [reflexivity|]. split; [|reflexivity].
      apply orb_true_iff. destruct Hb as [Hb | ->]; [now left | right].
      apply Ascii.eqb_refl.
Qed.

(** *** Stripping white space *)

Lemma lstrip_all_space (U : PyText.Unicode) (s : string) :
  PyText.all_chars (PyText.is_space U) s = true -> PyText.lstrip U s = EmptyString.
Proof.
  induction s as [|c s IH]; cbn [PyText.all_chars PyText.lstrip]; [reflexivity|].
  rewrite andb_true_iff. intros [-> Hs]. now apply IH.
Qed.

Lemma strip_all_space (U : PyText.Unicode) (s : string) :
  PyText.all_chars (PyText.is_space U) s = true -> PyText.strip U s = EmptyString.
Proof. intros H. unfold PyText.strip. now rewrite lstrip_all_space. Qed.

(** Stripping on the left stops at the latest at the first character that
    is not white space. *)
Lemma lstrip_keeps (U : PyText.Unicode) (pre rest : string) (a : ascii) :
  PyText.is_space U a = false ->
  exists pre', PyText.lstrip U (pre +:+ String a rest) = pre' +:+ String a rest.
Proof.
  intros Ha. induction pre as [|c pre IH]; str_norm.
  - exists EmptyString. cbn [PyText.lstrip]. now rewrite Ha.
  - cbn [PyText.lstrip]. destruct (PyText.is_space U c).
    + exact IH.
    + now exists (String c pre).
Qed.

Lemma rstrip_keeps (U : PyText.Unicode) (x post : string) (b : ascii) :
  PyText.is_space U b = false ->
  exists post', PyText.rstrip U (x +:+ String b post) = x +:+ String b post'.
Proof.
  intros Hb. induction x as [|c x [post' IH]]; str_norm.
  - cbn [PyText.rstrip]. destruct (PyText.rstrip U post) as [|d r].
    + rewrite Hb. now exists EmptyString.
    + now exists (String d r).
  - cbn [PyText.rstrip]. rewrite IH. exists post'.
    destruct x; str_norm; reflexivity.
Qed.

(** A text that begins and ends with characters that are not white space
    survives stripping wherever it occurs. *)
Lemma strip_keeps (U : PyText.Unicode) (a b : ascii) (m code : string) :
  PyText.is_space U a = false -> PyText.is_space U b = false ->
  PyStr.Substring (String a (m +:+ String b EmptyString)) code ->
  PyStr.Substring (String a (m +:+ String b EmptyString)) (PyText.strip U code).
Proof.
  intros Ha Hb (pre & post & ->). unfold PyText.strip.
  str_norm.
  destruct (lstrip_keeps U pre (m +:+ String b post) a Ha) as [pre' ->].
  replace (pre' +:+ String a (m +:+ String b post))
    with ((pre' +:+ String a m) +:+ String b post) by (str_norm; reflexivity).
  destruct (rstrip_keeps U (pre' +:+ String a m) post b Hb) as [post' ->].
  exists pre', post'. str_norm. reflexivity.
Qed.

Lemma substring_length (n s : string) :
  PyStr.Substring n s -> String.length n <= String.length s.
Proof. intros (pre & post & ->). rewrite !PyStrFacts.length_app. lia. Qed.

(** The conditions of a function body, one after the other. *)
Ltac cases_if :=
  repeat match goal with
         | |- context [if ?b then _ else _] => destruct b eqn:?
         end.

(** X6.  In the result of [validate_renode_syntax] the flag and the error
    list agree: [is_valid] is true exactly when [errors] is empty.  Code
    that validates has at least ten characters once stripped, so empty and
    white-space-only code is invalid for every code type; and the result
    names the code type that was asked for. *)
Theorem X6_validate_renode_syntax_flag_and_errors
    (U : PyText.Unicode) (code code_type : string) :
  let r := RenodeTools.validate_renode_syntax U code code_type in
  (RenodeTools.is_valid r = true <-> RenodeTools.errors r = []) /\
  (RenodeTools.is_valid r = true -> 10 <= String.length (PyText.strip U code)) /\
  (PyText.all_chars (PyText.is_space U) code = true -> RenodeTools.is_valid r = false) /\
  RenodeTools.code_type r = code_type.
Proof.
  cbv zeta. unfold RenodeTools.validate_renode_syntax.
  assert (Hsp : PyText.all_chars (PyText.is_space U) code = true ->
                (String.length (PyText.strip U code) <? 10) = true).
  { intros H. now rewrite strip_all_space. }
  destruct (String.length (PyText.strip U code) <? 10) eqn:Hlen.
  - clear Hsp. cases_if; cbn; repeat split; first [discriminate | reflexivity].
  - apply Nat.ltb_ge in Hlen.
    cases_if; cbn; repeat split;
      first [ discriminate | reflexivity | intros _; exact Hlen
            | intros H; specialize (Hsp H); discriminate ].
Qed.

(** X7.  For every code type but "repl" and "cs" ("resc", "platform", and
    any type the function does not know, such as "robot"), the only thing
    [validate_renode_syntax] can object to is the length: the code is valid
    exactly when ten characters are left after stripping, and the only
    possible error is "Code is too short or empty". *)
Theorem X7_only_length_matters_outside_repl_and_cs
    (U : PyText.Unicode) (code code_type : string) :
  code_type <> "repl" -> code_type <> "cs" ->
  let r := RenodeTools.validate_renode_syntax U code code_type in
  RenodeTools.is_valid r = (10 <=? String.length (PyText.strip U code)) /\
  RenodeTools.errors r =
    if 10 <=? String.length (PyText.strip U code) then []
    else ["Code is too short or empty"].
Proof.
  intros Hrepl Hcs. cbv zeta. unfold RenodeTools.validate_renode_syntax.
  rewrite (bool_decide_eq_false_2 _ Hrepl), (bool_decide_eq_false_2 _ Hcs).
  rewrite Nat.leb_antisym.
  destruct (String.length (PyText.strip U code) <? 10); cbn [negb];
    cases_if; cbn; split; reflexivity.
Qed.

Lemma X7_only_length_matters_outside_repl_and_cs_witness :
  let r := RenodeTools.validate_renode_syntax ascii_tables "*** Settings ***" "robot" in
  RenodeTools.is_valid r = true /\ RenodeTools.errors r = [].
Proof.
  apply (X7_only_length_matters_outside_repl_and_cs ascii_tables
           "*** Settings ***" "robot"); discriminate.
Defined.

(** X8.  For C# code the length check of [validate_renode_syntax] never
    decides: code is valid exactly when it contains "using Antmicro.Renode"
    and "class", because code with the namespace import is longer than ten
    characters after stripping. *)
Theorem X8_cs_valid_iff_namespace_and_class (U : PyText.Unicode) (code : string) :
  let r := RenodeTools.validate_renode_syntax U code "cs" in
  RenodeTools.is_valid r = true <->
  PyStr.Substring "using Antmicro.Renode" code /\ PyStr.Substring "class" code.
Proof.
  cbv zeta. rewrite <- !PyStrFacts.contains_spec.
  unfold RenodeTools.validate_renode_syntax.
  rewrite (bool_decide_eq_false_2 ("cs" = "resc")),
    (bool_decide_eq_false_2 ("cs" = "repl")),
    (bool_decide_eq_true_2 ("cs" = "cs")) by (reflexivity || discriminate).
  destruct (PyStr.contains "using Antmicro.Renode" code) eqn:Hns.
  - assert (Hlen : (String.length (PyText.strip U code) <? 10) = false).
    { apply Nat.ltb_ge. apply PyStrFacts.contains_spec in Hns.
      apply (strip_keeps U "u" "e" "sing Antmicro.Renod") in Hns; [|reflexivity..].
      apply substring_length in Hns.
      change (21 <= String.length (PyText.strip U code)) in Hns. lia. }
    rewrite Hlen. destruct (PyStr.contains "class" code); cbn [negb];
      cases_if; cbn; intuition congruence.
  - destruct (PyStr.contains "class" code); cbn [negb];
      cases_if; cbn; intuition congruence.
Qed.

(** X9.  For a platform description ("repl") [validate_renode_syntax]
    reports invalid syntax exactly when the code has no peripheral
    definition: no word character followed by a colon, any white space, and
    a word character or a dot.  The code is valid when it has one and is
    ten characters long after stripping. *)
Theorem X9_repl_valid_iff_peripheral_definition (U : PyText.Unicode) (code : string) :
  let r := RenodeTools.validate_renode_syntax U code "repl" in
  let defines_peripheral :=
    exists pre a ws b post,
      code = pre +:+ String a (":" +:+ ws +:+ String b post) /\
      Renode.is_word (PyText.word_char U) a = true /\
      PyText.all_chars (PyText.is_space U) ws = true /\
      (Renode.is_word (PyText.word_char U) b = true \/ b = "."%char) in
  ("Invalid REPL syntax - missing peripheral definitions" ∈ RenodeTools.errors r <->
     ~ defines_peripheral) /\
  (RenodeTools.is_valid r = true <->
     defines_peripheral /\ 10 <= String.length (PyText.strip U code)).
Proof.
  cbv zeta. rewrite <- peripheral_definition_spec.
  unfold RenodeTools.validate_renode_syntax.
  rewrite (bool_decide_eq_false_2 ("repl" = "resc")),
    (bool_decide_eq_true_2 ("repl" = "repl")) by (reflexivity || discriminate).
  destruct (Re.search (RenodeTools.peripheral_definition U) code);
    destruct (String.length (PyText.strip U code) <? 10) eqn:Hlen;
    (apply Nat.ltb_lt in Hlen || apply Nat.ltb_ge in Hlen);
    cases_if; cbn; (split; split); try discriminate; try tauto;
    try (intros [_ ?]; lia); try (intros _; split; [reflexivity | lia]);
    try (intros H; exfalso; revert H; rewrite ?elem_of_cons, elem_of_nil;
         intuition discriminate);
    try (intros _; rewrite ?elem_of_cons; auto).
Qed.

(** ** check_renode_best_practices *)

(** X10.  [check_renode_best_practices] knows the code types "resc", "repl"
    and "cs" only.  For every other type it returns two empty lists whatever
    the code is; this includes "platform", which [validate_renode_syntax]
    does check. *)
Theorem X10_no_best_practices_for_other_code_types
    (U : PyText.Unicode) (code code_type : string) :
  code_type <> "resc" -> code_type <> "repl" -> code_type <> "cs" ->
  RenodeTools.check_renode_best_practices U code code_type =
    RenodeTools.mkRecommendations [] [].
Proof.
  intros Hresc Hrepl Hcs. unfold RenodeTools.check_renode_best_practices.
  rewrite (bool_decide_eq_false_2 _ Hresc), (bool_decide_eq_false_2 _ Hrepl),
    (bool_decide_eq_false_2 _ Hcs).
  rewrite (bool_decide_eq_false_2 (code_type ∈ ["resc"; "cs"])), andb_false_r;
    [reflexivity|].
  rewrite !elem_of_cons, elem_of_nil. tauto.
Qed.

Lemma X10_no_best_practices_for_other_code_types_witness :
  RenodeTools.check_renode_best_practices ascii_tables
    "cpu: CPU.CortexM @ sysbus" "platform" = RenodeTools.mkRecommendations [] [].
Proof.
  apply (X10_no_best_practices_for_other_code_types ascii_tables
           "cpu: CPU.CortexM @ sysbus" "platform"); discriminate.
Defined.

(** ** suggest_code_improvements *)

Lemma join_cons_startswith (sep h : string) (l : list string) :
  PyStr.startswith h (PyStr.join sep (h :: l)) = true.
Proof.
  apply PyStrFacts.startswith_spec. destruct l as [|x l]; cbn [PyStr.join].
  - exists EmptyString. now rewrite PyStrFacts.app_nil_r.
  - eauto.
Qed.

(** The answer of [suggest_code_improvements] is the joined list, and the
    list starts with the header. *)
Lemma suggest_code_improvements_header (U : PyText.Unicode) (code code_type : string)
    (validation_results : RenodeTools.ValidationResults) :
  exists rest,
    RenodeTools.suggest_code_improvements U code code_type validation_results =
    PyStr.join nl
      (("=== Improvements for " +:+ PyText.upper U code_type +:+ " Code ===" +:+ nl)
       :: rest) /\
    (RenodeTools.is_valid validation_results = true ->
     RenodeTools.warnings validation_results = [] ->
     RenodeTools.suggestions validation_results = [] ->
     code_type <> "resc" -> code_type <> "repl" -> code_type <> "cs" ->
     rest = []).
Proof.
  unfold RenodeTools.suggest_code_improvements.
  match goal with |- context [PyStr.join nl ?l] => set (L := l) end.
  assert (HL : exists rest,
    L = ("=== Improvements for " +:+ PyText.upper U code_type +:+ " Code ===" +:+ nl)
          :: rest /\
    (RenodeTools.is_valid validation_results = true ->
     RenodeTools.warnings validation_results = [] ->
     RenodeTools.suggestions validation_results = [] ->
     code_type <> "resc" -> code_type <> "repl" -> code_type <> "cs" ->
     rest = [])).
  { subst L. destruct validation_results as [valid errs warns suggs ct].
    cbn [RenodeTools.is_valid RenodeTools.errors RenodeTools.warnings
         RenodeTools.suggestions].
    repeat case_bool_decide;
      destruct valid, warns, suggs; cbn [negb nonempty];
      rewrite <- ?app_assoc; cbn [app]; eexists; (split; [reflexivity|]);
      intros; congruence. }
  destruct HL as (rest & -> & Hrest). cbn [nonempty]. eauto.
Qed.

(** X11.  [suggest_code_improvements] always puts a header first, so its
    list of suggestions is never empty: the answer always starts with
    "=== Improvements for ", the code type in upper case and " Code ===",
    and the fallback text "Code looks good!" at the end of the function is
    never returned.  Valid code without warnings or suggestions, of a type
    other than "resc", "repl" and "cs", gets the header alone. *)
Theorem X11_suggest_code_improvements_never_looks_good
    (U : PyText.Unicode) (code code_type : string)
    (validation_results : RenodeTools.ValidationResults) :
  let header :=
    "=== Improvements for " +:+ PyText.upper U code_type +:+ " Code ===" +:+ nl in
  let answer :=
    RenodeTools.suggest_code_improvements U code code_type validation_results in
  PyStr.startswith header answer = true /\
  answer <> RenodeTools.code_looks_good /\
  (RenodeTools.is_valid validation_results = true ->
   RenodeTools.warnings validation_results = [] ->
   RenodeTools.suggestions validation_results = [] ->
   code_type <> "resc" -> code_type <> "repl" -> code_type <> "cs" ->
   answer = header).
Proof.
  cbv zeta.
  destruct (suggest_code_improvements_header U code code_type validation_results)
    as (rest & -> & Hrest).
  assert (Hstart := join_cons_startswith nl
    ("=== Improvements for " +:+ PyText.upper U code_type +:+ " Code ===" +:+ nl) rest).
  split; [exact Hstart|]. split.
  - intros E. rewrite E in Hstart. apply PyStrFacts.startswith_spec in Hstart as [post H].
    str_norm. discriminate H.
  - intros Hv Hw Hs H1 H2 H3. now rewrite (Hrest Hv Hw Hs H1 H2 H3).
Qed.

Lemma X11_suggest_code_improvements_never_looks_good_witness :
  RenodeTools.suggest_code_improvements ascii_tables "*** Settings ***" "robot"
    (RenodeTools.validate_renode_syntax ascii_tables "*** Settings ***" "robot") =
  "=== Improvements for ROBOT Code ===" +:+ nl.
Proof.
  apply (X11_suggest_code_improvements_never_looks_good ascii_tables
           "*** Settings ***" "robot"); first [reflexivity | discriminate].
Defined.

(** ** analyze_platform_compatibility *)







(** The loop over the patterns only adds to the detected peripherals. *)
Lemma detection_loop_frame (U : PyText.Unicode) (code : string)
    (patterns : list (string * Re.t)) (analysis : RenodeTools.Analysis) :
  let analysis' :=
    foldl (fun analysis (item : string * Re.t) =>
             let '(periph_type, pattern) := item in
             if Re.search (Re.ignorecase pattern) code
             then RenodeTools.mkAnalysis (RenodeTools.compatible analysis)
                    (RenodeTools.architecture analysis)
                    (RenodeTools.detected_peripherals analysis ++
                       [PyText.upper U periph_type])
                    (RenodeTools.issues analysis) (RenodeTools.recommendations analysis)
             else analysis)
          analysis patterns in
  RenodeTools.compatible analysis' = RenodeTools.compatible analysis /\
  RenodeTools.architecture analysis' = RenodeTools.architecture analysis /\
  RenodeTools.issues analysis' = RenodeTools.issues analysis /\
  RenodeTools.recommendations analysis' = RenodeTools.recommendations analysis.
Proof.
  cbv zeta. revert analysis.
  induction patterns as [|[periph_type pattern] patterns IH]; intros analysis;
    cbn [foldl]; [auto|].
  destruct (Re.search (Re.ignorecase pattern) code); [|apply IH].
  destruct (IH (RenodeTools.mkAnalysis (RenodeTools.compatible analysis)
                  (RenodeTools.architecture analysis)
                  (RenodeTools.detected_peripherals analysis ++
                     [PyText.upper U periph_type])
                  (RenodeTools.issues analysis) (RenodeTools.recommendations analysis)))
    as (-> & -> & -> & ->).
  auto.
Qed.

(** X12.  In the result of [analyze_platform_compatibility] the flag and
    the issue list agree: [compatible] is false exactly when an issue is
    listed; the result names the architecture that was asked for; and for
    an architecture other than "ARM" and "RISC-V" nothing is checked: the
    code, even empty code, is compatible, with no issue and no
    recommendation. *)
Theorem X12_compatibility_flag_and_issues
    (U : PyText.Unicode) (code target_arch : string) :
  let r := RenodeTools.analyze_platform_compatibility U code target_arch in
  (RenodeTools.compatible r = true <-> RenodeTools.issues r = []) /\
  RenodeTools.architecture r = target_arch /\
  (target_arch <> "ARM" -> target_arch <> "RISC-V" ->
   RenodeTools.compatible r = true /\ RenodeTools.issues r = [] /\
   RenodeTools.recommendations r = []).
Proof.
  cbv zeta. unfold RenodeTools.analyze_platform_compatibility.
  pose proof (detection_loop_frame U code (RenodeTools.peripheral_patterns U)
                (RenodeTools.mkAnalysis true target_arch [] [] [])) as H.
  cbv zeta in H.
  cbn [RenodeTools.compatible RenodeTools.architecture RenodeTools.issues
       RenodeTools.recommendations] in H.
  destruct H as (Hc & Ha & Hi & Hr). revert Hc Ha Hi Hr.
  match goal with |- context [foldl ?f ?a ?l] => generalize (foldl f a l) end.
  intros analysis Hc Ha Hi Hr.
  destruct (bool_decide (target_arch = "ARM")) eqn:HARM.
  - apply bool_decide_eq_true in HARM.
    destruct (negb (PyStr.contains "CortexM" code) && negb (PyStr.contains "CortexA" code)),
      (negb (PyStr.contains "NVIC" code) && negb (PyStr.contains "GIC" code));
      cbn [RenodeTools.compatible RenodeTools.architecture RenodeTools.issues
           RenodeTools.recommendations]; rewrite ?Hc, ?Ha, ?Hi; cbn [app];
      (split; [split; intros; first [reflexivity | discriminate] |
               split; [reflexivity | intros; congruence]]).
  - apply bool_decide_eq_false in HARM.
    destruct (bool_decide (target_arch = "RISC-V")) eqn:HRV.
    + apply bool_decide_eq_true in HRV.
      destruct (negb (PyStr.contains "RiscV" code));
        cbn [RenodeTools.compatible RenodeTools.architecture RenodeTools.issues
             RenodeTools.recommendations]; rewrite ?Hc, ?Ha, ?Hi; cbn [app];
        (split; [split; intros; first [reflexivity | discriminate] |
                 split; [reflexivity | intros; congruence]]).
    + rewrite Hc, Ha, Hi, Hr. repeat split.
Qed.

Lemma X12_compatibility_flag_and_issues_witness :
  let r := RenodeTools.analyze_platform_compatibility ascii_tables EmptyString "x86" in
  RenodeTools.compatible r = true /\ RenodeTools.issues r = [] /\
  RenodeTools.recommendations r = [].
Proof.
  apply (X12_compatibility_flag_and_issues ascii_tables EmptyString "x86");
    discriminate.
Defined.



(** ** Sanitization of file names (renode.py) *)

Lemma sanitize_fixed_iff (uw : ascii -> bool) (filename : string) :
  Renode.sanitize uw filename = filename <->
  PyText.all_chars (fun c => negb (Renode.is_unsafe uw c)) filename = true.
Proof.
  induction filename as [|c rest IH]; cbn [Renode.sanitize PyText.all_chars].
  - split; reflexivity.
  - rewrite andb_true_iff, <- IH. destruct (Renode.is_unsafe uw c) eqn:Hc; cbn [negb].
    + split; [|intros [? _]; discriminate].
      intros [= Hu _]. rewrite <- Hu in Hc.
      now rewrite is_unsafe_underscore in Hc.
    + split; [intros [= ->]; auto | intros [_ ->]; reflexivity].
Qed.

(** X14.  The sanitization of [save_renode_code] replaces characters one
    for one and is idempotent: a sanitized name has the length of the
    requested name, sanitizing it again changes nothing, and a name is left
    as it is exactly when all its characters are word characters, hyphens or
    underscores. *)
Theorem X14_sanitize_idempotent_and_length_preserving
    (uw : ascii -> bool) (filename : string) :
  String.length (Renode.sanitize uw filename) = String.length filename /\
  Renode.sanitize uw (Renode.sanitize uw filename) = Renode.sanitize uw filename /\
  (Renode.sanitize uw filename = filename <->
   PyText.all_chars (fun c => negb (Renode.is_unsafe uw c)) filename = true).
Proof.
  split; [|split].
  - induction filename as [|c rest IH]; cbn [Renode.sanitize String.length];
      [reflexivity | now rewrite IH].
  - induction filename as [|c rest IH]; cbn [Renode.sanitize]; [reflexivity|].
    rewrite IH. destruct (Renode.is_unsafe uw c) eqn:Hc.
    + now rewrite is_unsafe_underscore.
    + now rewrite Hc.
  - apply sanitize_fixed_iff.
Qed.

Lemma strftime_compact_same_second (d d' : DateTime) :
  same_second d d' -> strftime_compact d = strftime_compact d'.
Proof.
  intros (Hy & Hm & Hd & Hh & Hmi & Hs). unfold strftime_compact.
  now rewrite Hy, Hm, Hd, Hh, Hmi, Hs.
Qed.

(** X15.  Sanitization maps different requested names to one file name:
    when two names have the same sanitized form (they differ only in
    characters that are replaced), two saves by [save_renode_code] with the
    same code type and category within one second that both report success
    report the same path, and the file holds the code of the second save
    only. *)
Theorem X15_names_sanitized_alike_share_a_file
    (uw : ascii -> bool) (filename1 filename2 code1 code2 code_type category : string)
    (s : State) (t2 : DateTime) :
  Renode.sanitize uw filename1 = Renode.sanitize uw filename2 ->
  same_second (now s) t2 ->
  let out1 := Renode.save_renode_code uw filename1 code1 code_type category s in
  let out2 := Renode.save_renode_code uw filename2 code2 code_type category
                (set_now t2 out1.1) in
  status_of out1.2 = Some "success" -> status_of out2.2 = Some "success" ->
  exists p, filepath_of out1.2 = Some p /\ filepath_of out2.2 = Some p /\
            Fs.read (fs out2.1) p = Some code2.
Proof.
  intros Hsan Hsec. cbv zeta. rewrite !save_renode_code_eq.
  destruct (save_outcome _ _ code1 s) as [s1 r1] eqn:H1. cbn [fst snd].
  destruct (save_outcome _ _ code2 (set_now t2 s1)) as [s2 r2] eqn:H2. cbn [fst snd].
  cbn [status_of filepath_of]. intros St1 St2.
  apply status_success_inv in St1, St2. destruct St1 as [p1 ->], St2 as [p2 ->].
  apply save_outcome_success in H1 as [-> _], H2 as [-> Hread].
  cbn [now set_now] in *.
  assert (E : renode_filename uw filename2 code_type t2 =
              renode_filename uw filename1 code_type (now s)).
  { unfold renode_filename.
    now rewrite Hsan, (strftime_compact_same_second _ _ Hsec). }
  rewrite E in *. eexists. split; [reflexivity|]. split; [reflexivity|]. exact Hread.
Qed.

(** "uart/v1" and "uart v1" both become [uart_v1]. *)
Lemma X15_names_sanitized_alike_share_a_file_witness :
  let out1 := Renode.save_renode_code Examples.ascii_only "uart/v1" "first" "resc" "tests"
                Examples.state0 in
  let out2 := Renode.save_renode_code Examples.ascii_only "uart v1" "second" "resc" "tests"
                (set_now noon_plus_half out1.1) in
  exists p, filepath_of out1.2 = Some p /\ filepath_of out2.2 = Some p /\
            Fs.read (fs out2.1) p = Some "second".
Proof.
  cbv zeta.
  apply (X15_names_sanitized_alike_share_a_file Examples.ascii_only
           "uart/v1" "uart v1" "first" "second" "resc" "tests" Examples.state0
           noon_plus_half).
  - vm_compute. reflexivity.
  - repeat split.
  - vm_compute. reflexivity.
  - vm_compute. reflexivity.
Defined.

(** ** The clear handlers of pynvme.py and renode.py *)

Lemma pynvme_folders :
  let fl := [("pynvme_docs", ["pynvme_docs"]);
             (Pynvme.VECTOR_DB_PATH, ["pynvme_chroma_db"]);
             ("generated_tests", ["generated_tests"])] in
  Forall resolves_to fl /\ independent fl.
Proof.
  cbv zeta. split.
  - repeat constructor.
  - cbn [independent]. repeat split; repeat constructor; cbn [fst snd];
      try discriminate; apply not_under_short; simpl; lia.
Qed.

Lemma renode_folders :
  let fl := [("renode_docs", ["renode_docs"]);
             (Renode.VECTOR_DB_PATH, ["renode_chroma_db"]);
             ("generated_renode", ["generated_renode"])] in
  Forall resolves_to fl /\ independent fl.
Proof.
  cbv zeta. split.
  - repeat constructor.
  - cbn [independent]. repeat split; repeat constructor; cbn [fst snd];
      try discriminate; apply not_under_short; simpl; lia.
Qed.

(** Running a sequence whose first part raises. *)
Lemma bind_raise {A B} (m : M State A) (k : A -> M State B) (s s1 : State) (e : string) :
  m s = (s1, Raise e) -> bind m k s = (s1, Raise e).
Proof. intros H. unfold bind. now rewrite H. Qed.

Lemma try_raise {A} (m : M State A) (h : string -> M State A) (s s1 : State) (e : string) :
  m s = (s1, Raise e) -> try_except m h s = h e s1.
Proof. intros H. unfold try_except. now rewrite H. Qed.

(** A clear handler with an unguarded collection delete, as pynvme.py and
    renode.py have it. *)
Lemma unguarded_clear (coll : string) (fl : list (string * list string))
    (set_loaded : nat -> bool -> M State unit) (s : State) :
  Forall resolves_to fl -> independent fl ->
  (forall key loaded s0,
     set_loaded key loaded s0 =
       (set_session (mkSession (review_history (session s0))
                       (generation_history (session s0)) (kb_cleared (session s0))
                       loaded key) s0, Ok tt)) ->
  let out :=
    try_except
      (delete_collection coll;;
       for_each fl.*1 (delete_folder Fs.IgnoreErrors);;
       s' ← get;
       set_loaded (uploader_key (session s') + 1) false;;
       emit (Success "Knowledge base cleared!");;
       emit Rerun)
      (fun e => emit (Error ("Error clearing knowledge base: " +:+ e))) s in
  out.2 = Ok tt /\
  match index s !! coll with
  | None =>
      out.1 = set_log (log s ++
                [Call (DeleteCollection coll);
                 Error ("Error clearing knowledge base: Collection " +:+ coll +:+
                        " does not exist.")]) s
  | Some _ =>
      new_events s out.1 =
        Call (DeleteCollection coll) ::
        flat_map (deletion_attempt (fs s)) fl.*1 ++
        [Success "Knowledge base cleared!"; Rerun] /\
      index out.1 = delete coll (index s) /\
      session out.1 =
        mkSession (review_history (session s)) (generation_history (session s))
                  (kb_cleared (session s)) false (uploader_key (session s) + 1)
  end.
Proof.
  intros Hres Hind Hset. cbv zeta.
  assert (Hdel : delete_collection coll s =
    match index s !! coll with
    | Some _ => (set_index (delete coll (index s))
                   (set_log (log s ++ [Call (DeleteCollection coll)]) s), Ok tt)
    | None => (set_log (log s ++ [Call (DeleteCollection coll)]) s,
               Raise ("Collection " +:+ coll +:+ " does not exist."))
    end).
  { unfold delete_collection, bind, emit, modify, on_index,
      VectorIndex.delete_collection. cbn [index set_log fst snd].
    destruct (index s !! coll) eqn:Hc; cbn [fst snd]; [reflexivity|].
    unfold set_index, set_log. cbn. reflexivity. }
  destruct (index s !! coll) as [c|] eqn:Hc.
  - set (s1 := set_index (delete coll (index s))
                 (set_log (log s ++ [Call (DeleteCollection coll)]) s)) in *.
    destruct (delete_loop_spec Fs.IgnoreErrors fl s1 Hres Hind) as (Hok & Hlog & Hss & Hix).
    destruct (for_each fl.*1 (delete_folder Fs.IgnoreErrors) s1) as [s3 r3] eqn:Hloop.
    cbn [fst snd] in Hok, Hlog, Hss, Hix. subst r3.
    match goal with |- context [try_except ?m ?h s] =>
      assert (Hrun : try_except m h s =
        (set_log (log s3 ++ [Success "Knowledge base cleared!"; Rerun])
           (set_session
              (mkSession (review_history (session s3))
                 (generation_history (session s3)) (kb_cleared (session s3))
                 false (uploader_key (session s3) + 1)) s3),
         Ok tt))
    end.
    { erewrite try_ok; [reflexivity|].
      erewrite bind_ok; [|exact Hdel].
      erewrite bind_ok; [|exact Hloop].
      rewrite (bind_ok get _ s3 s3 s3 eq_refl).
      erewrite bind_ok; [|apply Hset].
      unfold bind, emit, modify, set_log, set_session.
      cbn. now rewrite <- app_assoc. }
    rewrite Hrun. cbn [fst snd]. split; [reflexivity|]. split; [|split].
    + apply new_events_app. cbn [log set_log set_session].
      rewrite Hlog. subst s1. cbn [log fs set_log set_index].
      rewrite <- ?app_assoc. reflexivity.
    + cbn [index set_log set_session]. rewrite Hix. reflexivity.
    + cbn [session set_log set_session]. rewrite Hss. reflexivity.
  - erewrite try_raise; [|erewrite bind_raise; [reflexivity | exact Hdel]].
    unfold emit, modify. cbn [fst snd]. split; [reflexivity|].
    unfold set_log. cbn [fs index now session log].
    rewrite <- app_assoc. reflexivity.
Qed.

(** X16.  The "Clear Knowledge Base" handlers of pynvme.py and renode.py
    never raise, and what they do depends on the collection.  When the
    collection does not exist (nothing was loaded yet), the collection
    delete raises and the handler only shows the error: nothing is deleted
    from disk, the session keeps its flag and its uploader key, and the page
    is not rerun.  When the collection exists, it is deleted, every listed
    folder that is on disk gets its deletion attempt in list order, the
    loaded flag is reset, the uploader key advances by one, the success
    message is shown and the page is rerun. *)
Theorem X16_unguarded_clear_handlers (s : State) :
  let outcome coll folders out :=
    out.2 = Ok tt /\
    match index s !! coll with
    | None =>
        out.1 = set_log (log s ++
                  [Call (DeleteCollection coll);
                   Error ("Error clearing knowledge base: Collection " +:+ coll +:+
                          " does not exist.")]) s
    | Some _ =>
        new_events s out.1 =
          Call (DeleteCollection coll) ::
          flat_map (deletion_attempt (fs s)) folders ++
          [Success "Knowledge base cleared!"; Rerun] /\
        index out.1 = delete coll (index s) /\
        session out.1 =
          mkSession (review_history (session s)) (generation_history (session s))
                    (kb_cleared (session s)) false (uploader_key (session s) + 1)
    end in
  outcome "pynvme_docs" ["pynvme_docs"; Pynvme.VECTOR_DB_PATH; "generated_tests"]
          (Pynvme.clear_button s) /\
  outcome "renode_docs" ["renode_docs"; Renode.VECTOR_DB_PATH; "generated_renode"]
          (Renode.clear_button s).
Proof.
  cbv zeta. split.
  - apply (unguarded_clear "pynvme_docs" _ Pynvme.set_loaded s
             (proj1 pynvme_folders) (proj2 pynvme_folders)).
    reflexivity.
  - apply (unguarded_clear "renode_docs" _ Renode.set_loaded s
             (proj1 renode_folders) (proj2 renode_folders)).
    reflexivity.
Qed.

(** ** From upload to review (code-reviewer.py) *)

Lemma read_exists (w : Fs.t) (p data : string) :
  Fs.read w p = Some data -> Fs.exists_ w p = true.
Proof.
  unfold Fs.read, Fs.exists_. destruct (Fs.resolve w p) as [l|e]; [|discriminate].
  intros H. apply orb_true_iff. right. unfold Fs.is_file. apply bool_decide_eq_true.
  destruct (Fs.files w !! l) as [f|]; [eauto | discriminate].
Qed.

(** A store that returns leaves the name on disk. *)
Lemma store_exists (dir : string) (f : UploadedFile) (s s' : State) (b : bool) :
  store dir f s = (s', Ok b) ->
  Fs.exists_ (fs s') (os_path_join dir (name f)) = true.
Proof.
  unfold store, bind, os_path_exists.
  destruct (Fs.exists_ (fs s) (os_path_join dir (name f))) eqn:Hex; cbn [negb].
  - intros [= <- _]. exact Hex.
  - unfold write_file, on_fs, pure, ret.
    destruct (Fs.open_write _ (getbuffer f) (fs s)) as [w [[]|e]] eqn:Hw; [|discriminate].
    intros [= <- _]. cbn [fs set_fs]. eapply read_exists, open_write_read, Hw.
Qed.

Lemma store_batch_exists (dir : string) (batch : list UploadedFile) (u b : bool)
    (s s' : State) (f : UploadedFile) :
  store_batch dir batch u s = (s', Ok b) -> f ∈ batch ->
  Fs.exists_ (fs s') (os_path_join dir (name f)) = true.
Proof.
  revert u s. induction batch as [|g rest IH]; intros u s Hrun Hin.
  - inversion Hin.
  - cbn [store_batch] in Hrun. unfold bind in Hrun.
    destruct (store dir g s) as [s1 [w|e]] eqn:Hst; [|discriminate].
    apply elem_of_cons in Hin as [->|Hin].
    + pose proof (store_batch_grows dir rest (u || w) s1) as Hg.
      rewrite Hrun in Hg. eapply FsFacts.exists_mono; [exact Hg|].
      eapply store_exists, Hst.
    + eapply IH; eauto.
Qed.

(** A plain name that exists in a directory is listed there, and the
    directory exists. *)
Lemma exists_listed (w : Fs.t) (d n : string) :
  plain_name d -> plain_name n ->
  Fs.exists_ w (os_path_join d n) = true ->
  Fs.resolve w d = Ok [d] /\ Fs.exists_ w d = true /\ n ∈ Fs.listdir w [d].
Proof.
  intros Hd Hn Hex. unfold Fs.exists_ in Hex.
  rewrite (resolve_plain w d n Hd Hn) in Hex.
  destruct (Fs.is_dir w [d]) eqn:Hdir; [|discriminate].
  assert (Hres : Fs.resolve w d = Ok [d]).
  { destruct Hd as (Hd0 & Hd1 & Hd2 & Hds & Hdn). unfold Fs.resolve.
    rewrite Hdn. destruct d as [|c d]; [congruence|]. cbn [PyStr.is_empty].
    rewrite (split_slash_plain _ Hds).
    assert (Hstart : Fs.start (String c d) = []).
    { unfold Fs.start. cbn [PyStr.has_char] in Hds.
      apply orb_false_iff in Hds as [Hc _]. cbn [PyStr.startswith].
      rewrite Ascii.eqb_sym. unfold Fs.slash in Hc. now rewrite Hc. }
    rewrite Hstart, (walk_push w [] _ [] Hd0 Hd1 Hd2). reflexivity. }
  split; [exact Hres|]. split.
  - unfold Fs.exists_. rewrite Hres, Hdir. reflexivity.
  - unfold Fs.listdir. apply list_elem_of_omap. exists [n; d]. split.
    + apply elem_of_elements, elem_of_union.
      apply orb_true_iff in Hex as [Hex|Hex].
      * right. unfold Fs.is_dir in Hex.
        destruct Hn as (_ & _ & Hn2 & _).
        cbn [Fs.all_dotdot] in Hex. unfold Fs.is_dotdot in Hex at 1.
        rewrite (bool_decide_eq_false_2 (n = "..")) in Hex by exact Hn2.
        rewrite (bool_decide_eq_false_2 ([n; d] = ["/"])) in Hex by discriminate.
        now apply bool_decide_eq_true in Hex.
      * left. unfold Fs.is_file in Hex. apply bool_decide_eq_true in Hex.
        now apply elem_of_dom.
    + now rewrite bool_decide_eq_true_2.
Qed.

Lemma glob_count_positive (matches : string -> bool) (w : Fs.t) (d n : string) :
  plain_name d -> plain_name n -> matches n = true ->
  Fs.exists_ w (os_path_join d n) = true ->
  glob_count matches d w <> 0.
Proof.
  intros Hd Hn Hm Hex.
  destruct (exists_listed w d n Hd Hn Hex) as (Hres & Hexd & Hin).
  unfold glob_count. rewrite Hexd, Hres.
  assert (Hf : n ∈ filter (fun x => matches x = true) (Fs.listdir w [d]))
    by (apply list_elem_of_filter; auto).
  destruct (filter _ _); [inversion Hf | discriminate].
Qed.

Lemma load_if_updated_grows (sv : Services) (code_files doc_files : list UploadedFile)
    (b : bool) :
  preserves fs_grows (CodeReviewer.load_if_updated sv code_files doc_files b).
Proof. unfold CodeReviewer.load_if_updated. grows. Qed.

Lemma plain_uploaded_code : plain_name "uploaded_code".
Proof. repeat split; discriminate. Qed.

(** X17.  From upload to review in code-reviewer.py: when a page run of the
    upload section returns and the batch held a code file with a plain name
    that ends in ".c" or ".h", that file is on disk and is counted, so a
    review button pressed afterwards with a query that is not empty does
    not ask for an upload but runs its agent on the query. *)
Theorem X17_uploaded_code_reaches_the_reviewers
    (sv : Services) (code_files doc_files : list UploadedFile) (f : UploadedFile)
    (tab : CodeReviewer.Tab) (query : string) (s : State) :
  f ∈ code_files -> plain_name (name f) -> glob_ch (name f) = true ->
  query <> EmptyString ->
  let out := CodeReviewer.upload_section sv code_files doc_files s in
  out.2 = Ok tt ->
  Fs.exists_ (fs out.1) (os_path_join "uploaded_code" (name f)) = true /\
  code_count out.1 <> 0 /\
  exists post,
    new_events out.1 (CodeReviewer.review_button sv tab query out.1).1 =
    Call (AgentRun (CodeReviewer.tab_agent tab) query) :: post.
Proof.
  intros Hin Hn Hglob Hquery. cbv zeta. intros Hok.
  assert (Hex : Fs.exists_ (fs (CodeReviewer.upload_section sv code_files doc_files s).1)
                  (os_path_join "uploaded_code" (name f)) = true).
  { rewrite upload_section_unfold in Hok |- *. cbv zeta in Hok |- *.
    destruct (CodeReviewer.ensure_dirs s).2; [|discriminate].
    destruct (CodeReviewer.store_uploads _ _ _) as [s2 [b|e]] eqn:Hst; [|discriminate].
    pose proof (load_if_updated_grows sv code_files doc_files b s2) as Hg.
    eapply FsFacts.exists_mono; [exact Hg|]. clear Hg Hok.
    unfold CodeReviewer.store_uploads, bind in Hst.
    destruct code_files as [|c0 cs]; [inversion Hin|]. cbn [nonempty] in Hst.
    destruct (store_batch "uploaded_code" (c0 :: cs) false _) as [s3 [fu|e]] eqn:Hsb;
      [|discriminate].
    pose proof (store_batch_exists _ _ _ _ _ _ f Hsb Hin) as Hex3.
    assert (Hg : Fs.extends (fs s3) (fs s2)).
    { clear Hex3 Hsb.
      assert (Hw : preserves fs_grows
                (when fu (emit (Success ("Uploaded " +:+
                   str_of_nat (length (c0 :: cs)) +:+ " code file(s)")))))
        by grows.
      specialize (Hw s3). unfold fs_grows in Hw.
      destruct (when fu _ s3) as [s4 [[]|e]]; [|discriminate].
      cbn [fst] in Hw. eapply FsFacts.extends_trans; [exact Hw|]. clear Hw.
      unfold pure, ret in Hst. cbn in Hst.
      destruct (nonempty doc_files).
      - pose proof (store_batch_grows "uploaded_docs" doc_files false s4) as Hd.
        unfold fs_grows in Hd.
        destruct (store_batch "uploaded_docs" doc_files false s4) as [s5 [du|e]];
          [|discriminate].
        cbn [fst] in Hd. eapply FsFacts.extends_trans; [exact Hd|].
        destruct du.
        + unfold emit, modify in Hst. cbn in Hst. injection Hst as <- _.
          apply FsFacts.extends_refl.
        + injection Hst as <- _. apply FsFacts.extends_refl.
      - injection Hst as <- _. apply FsFacts.extends_refl. }
    eapply FsFacts.exists_mono; eauto. }
  set (s' := (CodeReviewer.upload_section sv code_files doc_files s).1) in *.
  assert (Hcount : code_count s' <> 0)
    by (apply (glob_count_positive glob_ch _ _ _ plain_uploaded_code Hn Hglob Hex)).
  split; [exact Hex|]. split; [exact Hcount|].
  assert (Hc : (code_count s' =? 0) = false) by now apply Nat.eqb_neq.
  assert (Hq : PyStr.is_empty query = false) by now destruct query.
  unfold CodeReviewer.review_button. rewrite Hq.
  rewrite (bind_ok get _ s' s' s' eq_refl). fold (code_count s'). rewrite Hc.
  unfold try_except, bind. rewrite run_agent_eq.
  destruct (agent_run sv (CodeReviewer.tab_agent tab) query (fs s')) as [w [response|e]];
    cbn [fst snd].
  - destruct (CodeReviewer.tab_done tab); eexists; apply new_events_app;
      unfold from_option, skip, pure, ret, emit, modify, CodeReviewer.append_history;
      cbn; rewrite <- ?app_assoc; reflexivity.
  - eexists. apply new_events_app. unfold emit, modify. cbn.
    rewrite <- ?app_assoc. reflexivity.
Qed.

(** [driver.c] uploaded to an empty working directory, then "Analyze
    Code". *)
Lemma X17_uploaded_code_reaches_the_reviewers_witness :
  let out := CodeReviewer.upload_section Examples.echo
               [mkUpload "driver.c" "int a;"] [] Examples.state0 in
  Fs.exists_ (fs out.1) (os_path_join "uploaded_code" "driver.c") = true /\
  code_count out.1 <> 0 /\
  exists post,
    new_events out.1
      (CodeReviewer.review_button Examples.echo CodeReviewer.code_analysis
         "check for buffer overflow" out.1).1 =
    Call (AgentRun "Code Analyzer" "check for buffer overflow") :: post.
Proof.
  cbv zeta.
  apply (X17_uploaded_code_reaches_the_reviewers Examples.echo
           [mkUpload "driver.c" "int a;"] [] (mkUpload "driver.c" "int a;")
           CodeReviewer.code_analysis "check for buffer overflow" Examples.state0).
  - apply list_elem_of_here.
  - apply plain_name_intro; reflexivity.
  - reflexivity.
  - discriminate.
  - vm_compute. reflexivity.
Defined.

(** ** renode.py: the respond handlers *)

Lemma shown_no_call (shown : list Event) :
  forallb (fun ev => match ev with Call _ => false | _ => true end) shown = true ->
  Forall (fun ev => forall c, ev <> Call c) shown.
Proof.
  induction shown as [|ev shown IH]; intros H; constructor.
  - destruct ev; try discriminate; intros c' Hc; discriminate.
  - apply IH. cbn in H. now destruct ev.
Qed.

Ltac only_call :=
  cbn; split; [reflexivity|split; [reflexivity|]];
  eexists; split; [rewrite <- ?app_assoc; reflexivity|];
  now apply shown_no_call.

(** X18. With an input that is not empty, the three respond buttons of
    renode.py that keep a history append exactly one record to the
    generation history when the agent run returns, and leave the whole
    session as it was when it raises.  The record carries the code type
    next to the fields pynvme.py records; the validate button records the
    fixed requirement "Code validation", not the pasted code. *)
Theorem X18_renode_history_records_code_type
    (sv : Services) (input code_type category architecture : string) (s : State) :
  input <> EmptyString ->
  history_after with_generation (session s)
    (session (RenodePage.orchestrate_button sv input code_type category
                architecture s).1)
    (fun response => [("timestamp", strftime_iso (now s)); ("type", "Orchestrated");
                      ("code_type", code_type); ("requirement", input);
                      ("category", category); ("response", response)])
    (agent_run sv "RENODE Code Orchestrator"
       (RenodePage.enhanced_query input code_type category architecture) (fs s)).2 /\
  history_after with_generation (session s)
    (session (RenodePage.generate_button sv input code_type category s).1)
    (fun response => [("timestamp", strftime_iso (now s)); ("type", "Generation");
                      ("code_type", code_type); ("requirement", input);
                      ("category", category); ("response", response)])
    (agent_run sv "RENODE Code Generator"
       (input +:+ nl +:+ "Code Type: " +:+ code_type +:+
        nl +:+ "Category: " +:+ category) (fs s)).2 /\
  history_after with_generation (session s)
    (session (RenodePage.validate_button sv input code_type architecture s).1)
    (fun response => [("timestamp", strftime_iso (now s)); ("type", "Validation");
                      ("code_type", code_type); ("requirement", "Code validation");
                      ("category", "validation"); ("response", response)])
    (agent_run sv "RENODE Code Validator"
       ("Validate this " +:+ code_type +:+ " code for " +:+ architecture +:+
        " architecture and provide improvement suggestions:" +:+
        nl +:+ nl +:+ input) (fs s)).2.
Proof.
  intros Hinput.
  assert (Hq : PyStr.is_empty input = false) by now destruct input.
  unfold history_after, with_generation. split; [|split].
  - unfold RenodePage.orchestrate_button. rewrite Hq.
    respond_cases sv "RENODE Code Orchestrator"
      (RenodePage.enhanced_query input code_type category architecture) s.
  - unfold RenodePage.generate_button. rewrite Hq.
    respond_cases sv "RENODE Code Generator"
      (input +:+ nl +:+ "Code Type: " +:+ code_type +:+
       nl +:+ "Category: " +:+ category) s.
  - unfold RenodePage.validate_button. rewrite Hq.
    respond_cases sv "RENODE Code Validator"
      ("Validate this " +:+ code_type +:+ " code for " +:+ architecture +:+
       " architecture and provide improvement suggestions:" +:+
       nl +:+ nl +:+ input) s.
Qed.

(** A pasted platform description is validated: the record names the code
    type and the fixed requirement. *)
Lemma X18_renode_history_records_code_type_witness :
  session (RenodePage.validate_button Examples.echo "uart0: UART.PL011 @ sysbus 0x1000"
             "repl" "ARM Cortex-M" Examples.state0).1 =
  with_generation
    [("timestamp", "2025-01-15 12:00:00"); ("type", "Validation");
     ("code_type", "repl"); ("requirement", "Code validation");
     ("category", "validation");
     ("response",
      "answer to: Validate this repl code for ARM Cortex-M architecture and provide improvement suggestions:" +:+
      nl +:+ nl +:+ "uart0: UART.PL011 @ sysbus 0x1000")]
    (session Examples.state0).
Proof.
  assert (Hinput : "uart0: UART.PL011 @ sysbus 0x1000" <> EmptyString) by discriminate.
  exact (proj2 (proj2 (X18_renode_history_records_code_type Examples.echo
                         "uart0: UART.PL011 @ sysbus 0x1000" "repl" "peripherals"
                         "ARM Cortex-M" Examples.state0 Hinput))).
Defined.

(** X19. With an input that is not empty, the three buttons reach disk and
    index only through the agent: the disk is as the agent run left it,
    the index is untouched, and the agent run, with the agent and the query
    of the button, is the one external call, made before anything is
    shown.  Saving generated code is left to the agent's tools. *)
Theorem X19_renode_handlers_only_call_the_agent
    (sv : Services) (input code_type category architecture : string) (s : State) :
  input <> EmptyString ->
  only_agent_call sv "RENODE Code Orchestrator"
    (RenodePage.enhanced_query input code_type category architecture) s
    (RenodePage.orchestrate_button sv input code_type category architecture s).1 /\
  only_agent_call sv "RENODE Code Generator"
    (input +:+ nl +:+ "Code Type: " +:+ code_type +:+
     nl +:+ "Category: " +:+ category) s
    (RenodePage.generate_button sv input code_type category s).1 /\
  only_agent_call sv "RENODE Code Validator"
    ("Validate this " +:+ code_type +:+ " code for " +:+ architecture +:+
     " architecture and provide improvement suggestions:" +:+
     nl +:+ nl +:+ input) s
    (RenodePage.validate_button sv input code_type architecture s).1.
Proof.
  intros Hinput.
  assert (Hq : PyStr.is_empty input = false) by now destruct input.
  split; [|split].
  - unfold RenodePage.orchestrate_button. rewrite Hq.
    unfold only_agent_call, try_except, bind. rewrite run_agent_eq.
    destruct (agent_run sv "RENODE Code Orchestrator"
                (RenodePage.enhanced_query input code_type category architecture)
                (fs s)) as [w [response|e]]; only_call.
  - unfold RenodePage.generate_button. rewrite Hq.
    unfold only_agent_call, try_except, bind. rewrite run_agent_eq.
    destruct (agent_run sv "RENODE Code Generator"
                (input +:+ nl +:+ "Code Type: " +:+ code_type +:+
                 nl +:+ "Category: " +:+ category) (fs s))
      as [w [response|e]]; only_call.
  - unfold RenodePage.validate_button. rewrite Hq.
    unfold only_agent_call, try_except, bind. rewrite run_agent_eq.
    destruct (agent_run sv "RENODE Code Validator"
                ("Validate this " +:+ code_type +:+ " code for " +:+ architecture +:+
                 " architecture and provide improvement suggestions:" +:+
                 nl +:+ nl +:+ input) (fs s))
      as [w [response|e]]; only_call.
Qed.

(** A code specification for a script: one call, to the generator. *)
Lemma X19_renode_handlers_only_call_the_agent_witness :
  only_agent_call Examples.echo "RENODE Code Generator"
    ("boot a Cortex-M4 board" +:+ nl +:+ "Code Type: resc" +:+
     nl +:+ "Category: scripts") Examples.state0
    (RenodePage.generate_button Examples.echo "boot a Cortex-M4 board" "resc"
       "scripts" Examples.state0).1.
Proof.
  assert (Hinput : "boot a Cortex-M4 board" <> EmptyString) by discriminate.
  exact (proj1 (proj2 (X19_renode_handlers_only_call_the_agent Examples.echo
                         "boot a Cortex-M4 board" "resc" "scripts" "ARM Cortex-M"
                         Examples.state0 Hinput))).
Defined.

(** X20. With an empty input each of the three buttons shows its warning
    and does nothing else: no agent is run and disk, index and session are
    as before, whatever the other inputs of the tab are. *)
Theorem X20_renode_empty_input_warns_only
    (sv : Services) (code_type category architecture : string) (s : State) :
  warns_only (RenodePage.orchestrate_button sv EmptyString code_type category
                architecture) s /\
  warns_only (RenodePage.generate_button sv EmptyString code_type category) s /\
  warns_only (RenodePage.validate_button sv EmptyString code_type architecture) s.
Proof.
  unfold warns_only. repeat split; eexists; reflexivity.
Qed.

(** ** pynvme.py: the respond handlers and the disk *)

(** X21. With an input that is not empty, the four respond buttons of
    pynvme.py reach disk and index only through the agent: the disk is as
    the agent run left it, the index is untouched, and the agent run, with
    the agent and the query of the button, is the one external call, made
    before anything is shown.  No handler saves a test itself. *)
Theorem X21_pynvme_handlers_only_call_the_agent
    (sv : Services) (input category level : string) (s : State) :
  input <> EmptyString ->
  only_agent_call sv "Test Orchestrator"
    (Pynvme.enhanced_query input category level) s
    (Pynvme.orchestrate_button sv input category level s).1 /\
  only_agent_call sv "Test Case Generator"
    (input +:+ nl +:+ "Category: " +:+ category) s
    (Pynvme.generate_button sv input category s).1 /\
  only_agent_call sv "Test Validator"
    ("Validate this PyNVMe test and provide improvement suggestions:" +:+
     nl +:+ nl +:+ input) s
    (Pynvme.validate_button sv input s).1 /\
  only_agent_call sv "PyNVMe Expert" input s (Pynvme.expert_button sv input s).1.
Proof.
  intros Hinput.
  assert (Hq : PyStr.is_empty input = false) by now destruct input.
  split; [|split; [|split]].
  - unfold Pynvme.orchestrate_button. rewrite Hq.
    unfold only_agent_call, try_except, bind. rewrite run_agent_eq.
    destruct (agent_run sv "Test Orchestrator"
                (Pynvme.enhanced_query input category level) (fs s))
      as [w [response|e]]; only_call.
  - unfold Pynvme.generate_button. rewrite Hq.
    unfold only_agent_call, try_except, bind. rewrite run_agent_eq.
    destruct (agent_run sv "Test Case Generator"
                (input +:+ nl +:+ "Category: " +:+ category) (fs s))
      as [w [response|e]]; only_call.
  - unfold Pynvme.validate_button. rewrite Hq.
    unfold only_agent_call, try_except, bind. rewrite run_agent_eq.
    destruct (agent_run sv "Test Validator"
                ("Validate this PyNVMe test and provide improvement suggestions:" +:+
                 nl +:+ nl +:+ input) (fs s))
      as [w [response|e]]; only_call.
  - unfold Pynvme.expert_button. rewrite Hq.
    unfold only_agent_call, try_except, bind. rewrite run_agent_eq.
    destruct (agent_run sv "PyNVMe Expert" input (fs s))
      as [w [response|e]]; only_call.
Qed.

(** A question for the expert: one call, and the answer is shown. *)
Lemma X21_pynvme_handlers_only_call_the_agent_witness :
  only_agent_call Examples.echo "PyNVMe Expert" "what is a namespace?"
    Examples.state0
    (Pynvme.expert_button Examples.echo "what is a namespace?" Examples.state0).1.
Proof.
  assert (Hinput : "what is a namespace?" <> EmptyString) by discriminate.
  exact (proj2 (proj2 (proj2 (X21_pynvme_handlers_only_call_the_agent Examples.echo
                                "what is a namespace?" "performance" "Standard"
                                Examples.state0 Hinput)))).
Defined.
